(** * Federal Register agent: synchronisation pipeline and retrieval layer

    A shallow embedding of
      - [pipeline/federal_register.py] (class [FederalRegisterPipeline]:
        [fetch_documents], [fetch_full_document], [_compute_content_hash],
        [process_documents], [create_indexes]),
      - [agent/federal_agent.py] (class [FederalAgent]: [_query_mysql],
        [chat], [run], [_format_record], [_topic_from_title],
        [_parse_agencies]),
      - [agent/database_helpers.py] ([_tokenize], [get_top_keywords]) and
      - [agent/router_agent.py] ([RouterAgent.handle]),
    followed by the properties of the design document that are stated about
    them (Part II) and by further properties of the code (Part III).

    Conventions.
    - A Python [str] is a Rocq [string] holding its UTF-8 bytes.  ASCII
      characters are single bytes; the functions below that look at
      characters ([lower], [strip], the token regular expression, JSON
      escaping) only act on ASCII bytes, all other bytes pass through.
      They are Python's functions on ASCII text; a property that rests on
      them for the reply to a message is stated for ASCII text
      ([ascii_text], [ascii_meta]).
    - [LIKE] compares under the collation of the tables,
      [utf8mb4_unicode_ci]; the embedding ignores the case of ASCII letters
      and compares every other byte exactly, which is the collation on
      printable ASCII text ([collation_text]).
    - [encode('utf-8')] raises on a lone surrogate; the digest is embedded
      for the documents whose strings can be encoded ([encodable]).
    - A JSON value (what [resp.json()] returns) is a [json]; a Python [dict]
      is an association list in insertion order whose keys are distinct.
    - The network, the disk and the completion order of the worker pool are
      the environment: they are arguments of the functions that use them. *)

From Stdlib Require Import ZArith QArith Ascii String List Lia Bool.
From stdpp Require Import base list strings sorting gmap.

Local Open Scope string_scope.
Local Open Scope list_scope.

(* ===================================================================== *)
(** * Part I: definitions                                                 *)
(* ===================================================================== *)

(** ** Python string primitives *)

Module PyStr.

Definition byte_of (c : ascii) : Z := Z.of_N (N_of_ascii c).

Definition is_upper (c : ascii) : bool :=
  (65 <=? byte_of c)%Z && (byte_of c <=? 90)%Z.

Definition is_lower (c : ascii) : bool :=
  (97 <=? byte_of c)%Z && (byte_of c <=? 122)%Z.

Definition is_digit (c : ascii) : bool :=
  (48 <=? byte_of c)%Z && (byte_of c <=? 57)%Z.

(** [str.lower] on one character. *)
Definition lower_char (c : ascii) : ascii :=
  if is_upper c then ascii_of_N (N_of_ascii c + 32) else c.

(** [s.lower()] *)
Fixpoint lower (s : string) : string :=
  match s with
  | EmptyString => EmptyString
  | String c r => String (lower_char c) (lower r)
  end.

(** The ASCII characters for which [str.isspace] holds: tab, newline,
    vertical tab, form feed, carriage return, the four separators
    0x1c-0x1f and the space. *)
Definition is_space (c : ascii) : bool :=
  let b := byte_of c in
  ((9 <=? b)%Z && (b <=? 13)%Z) || ((28 <=? b)%Z && (b <=? 32)%Z).

(** [s.lstrip()] *)
Fixpoint lstrip (s : string) : string :=
  match s with
  | EmptyString => EmptyString
  | String c r => if is_space c then lstrip r else s
  end.

(** [s.rstrip()] *)
Fixpoint rstrip (s : string) : string :=
  match s with
  | EmptyString => EmptyString
  | String c r =>
      match rstrip r with
      | EmptyString => if is_space c then EmptyString else String c EmptyString
      | r' => String c r'
      end
  end.

(** [s.strip()] *)
Definition strip (s : string) : string := rstrip (lstrip s).

(** [s.startswith(p)] *)
Fixpoint startswith (p s : string) : bool :=
  match p, s with
  | EmptyString, _ => true
  | String a p', String b s' => if ascii_dec a b then startswith p' s' else false
  | String _ _, EmptyString => false
  end.

(** [s[n:]] *)
Fixpoint drop (n : nat) (s : string) : string :=
  match n, s with
  | O, _ => s
  | S n', String _ r => drop n' r
  | S _, EmptyString => EmptyString
  end.

(** [s.split()]: the maximal runs of non-space characters. *)
Fixpoint split_go (cur : string) (s : string) : list string :=
  match s with
  | EmptyString => if String.eqb cur "" then [] else [cur]
  | String c r =>
      if is_space c
      then (if String.eqb cur "" then split_go "" r else cur :: split_go "" r)
      else split_go (cur +:+ String c "") r
  end.

Definition split (s : string) : list string := split_go "" s.

(** [s.isdigit()] (ASCII digits). *)
Fixpoint all_digits (s : string) : bool :=
  match s with
  | EmptyString => true
  | String c r => is_digit c && all_digits r
  end.

Definition isdigit (s : string) : bool :=
  negb (String.eqb s "") && all_digits s.

(** [int(s)] for a string of digits. *)
Fixpoint int_go (acc : Z) (s : string) : Z :=
  match s with
  | EmptyString => acc
  | String c r => int_go (10 * acc + (byte_of c - 48))%Z r
  end.

Definition int (s : string) : Z := int_go 0 s.

(** [sub in s] *)
Fixpoint contains (sub s : string) : bool :=
  startswith sub s ||
  match s with
  | EmptyString => false
  | String _ r => contains sub r
  end.

(** [s.split(sep)[0]] for a one-character separator. *)
Fixpoint before_char (sep : ascii) (s : string) : string :=
  match s with
  | EmptyString => EmptyString
  | String c r => if ascii_dec c sep then EmptyString else String c (before_char sep r)
  end.

(** [sep.join(l)] *)
Fixpoint join (sep : string) (l : list string) : string :=
  match l with
  | [] => ""
  | [x] => x
  | x :: r => x +:+ sep +:+ join sep r
  end.

(** Decimal text of an integer, as [str(n)] gives it. *)
Fixpoint digits_go (fuel : nat) (n : Z) (acc : string) : string :=
  match fuel with
  | O => acc
  | S f =>
      let d := ascii_of_N (Z.to_N (48 + n mod 10)) in
      if (n <? 10)%Z then String d acc else digits_go f (n / 10)%Z (String d acc)
  end.

Definition str_of_Z (n : Z) : string :=
  if (n <? 0)%Z
  then String "-" (digits_go (S (Z.to_nat (Z.log2 (- n)))) (- n) "")
  else digits_go (S (Z.to_nat (Z.log2 n))) n "".

End PyStr.


(** ** JSON values and Python dictionaries *)

(** What [json.loads] produces.  A float is carried as the text that
    [float.__repr__] gives for it (for non-finite values the text that the
    JSON encoder emits: [NaN], [Infinity], [-Infinity]); this text is what
    [json.dumps] writes, and two finite floats are equal exactly when their
    texts are.  A [JDict] lists its items in insertion order. *)
#[warnings="-register-all"]
Inductive json : Type :=
| JNull
| JBool (b : bool)
| JInt (n : Z)
| JFloat (repr : string)
| JStr (s : string)
| JList (l : list json)
| JDict (items : list (string * json)).

Module PyDict.

Definition t : Type := list (string * json).

(** [k in d], [d[k]] *)
Fixpoint lookup (d : t) (k : string) : option json :=
  match d with
  | [] => None
  | (k', v) :: r => if String.eqb k' k then Some v else lookup r k
  end.

(** [d.get(k)] *)
Definition get (d : t) (k : string) : json :=
  match lookup d k with Some v => v | None => JNull end.

(** [d.get(k, dflt)] *)
Definition get_default (d : t) (k : string) (dflt : json) : json :=
  match lookup d k with Some v => v | None => dflt end.

(** [d[k] = v]: an existing key keeps its position, a new key goes last. *)
Fixpoint set (d : t) (k : string) (v : json) : t :=
  match d with
  | [] => [(k, v)]
  | (k', v') :: r => if String.eqb k' k then (k', v) :: r else (k', v') :: set r k v
  end.

(** [{**a, **b}] *)
Definition merge (a b : t) : t :=
  fold_left (fun acc kv => set acc (fst kv) (snd kv)) b a.

Definition keys (d : t) : list string := map fst d.

End PyDict.

(** Python truth value of a JSON value: [None], [False], zero, the empty
    string, the empty list and the empty dict are false. *)
Definition truthy (j : json) : bool :=
  match j with
  | JNull => false
  | JBool b => b
  | JInt n => negb (n =? 0)%Z
  | JFloat r => negb (String.eqb r "0.0" || String.eqb r "-0.0")
  | JStr s => negb (String.eqb s "")
  | JList l => match l with [] => false | _ => true end
  | JDict d => match d with [] => false | _ => true end
  end.

(** [a or b] *)
Definition py_or (a b : json) : json := if truthy a then a else b.

(** A dictionary is well formed when its keys are distinct, at every depth. *)
Fixpoint wf_json (j : json) : Prop :=
  match j with
  | JList l => (fix all (l : list json) : Prop :=
                  match l with [] => True | x :: r => wf_json x /\ all r end) l
  | JDict d => NoDup (map fst d) /\
               (fix all (d : list (string * json)) : Prop :=
                  match d with [] => True | (_, v) :: r => wf_json v /\ all r end) d
  | _ => True
  end.

(** ** [json.dumps] *)

Module PyJson.

Definition hex_digit (n : Z) : ascii :=
  if (n <? 10)%Z then ascii_of_N (Z.to_N (48 + n)) else ascii_of_N (Z.to_N (87 + n)).

Definition dquote : ascii := ascii_of_N 34.

(** [ESCAPE_DCT] of [json.encoder]: the replacement of one character
    matched by [ESCAPE], that is of the double quote, the backslash and
    the control characters below 0x20. *)
Definition escape_char (c : ascii) : string :=
  let b := PyStr.byte_of c in
  if (b =? 34)%Z then String "\" (String dquote "") else
  if (b =? 92)%Z then "\\" else
  if (b =? 8)%Z then "\b" else
  if (b =? 12)%Z then "\f" else
  if (b =? 10)%Z then "\n" else
  if (b =? 13)%Z then "\r" else
  if (b =? 9)%Z then "\t" else
  if (b <? 32)%Z then
    "\u00" +:+ String (hex_digit (b / 16)) (String (hex_digit (b mod 16)) "")
  else String c "".

Fixpoint escape (s : string) : string :=
  match s with
  | EmptyString => EmptyString
  | String c r => escape_char c +:+ escape r
  end.

(** [py_encode_basestring] ([ensure_ascii=False]) *)
Definition encode_str (s : string) : string :=
  String dquote (escape s +:+ String dquote "").

(** The order [sorted(dct.items())] puts the items in: by key. *)
Definition key_le {A} : relation (string * A) :=
  fun a b => String.le (fst a) (fst b).

#[global] Instance key_le_dec {A} : RelDecision (@key_le A).
Proof. intros a b. unfold key_le. apply _. Defined.

Definition sort_items {A} (l : list (string * A)) : list (string * A) :=
  merge_sort key_le l.

(** [json.dumps(v, sort_keys=sort_keys, ensure_ascii=False)] with the
    default separators (comma-space and colon-space).  The encoder sorts
    the items of a dict and then encodes each value; here each value is
    encoded first and the encoded items are sorted by key, which writes
    the same text. *)
Fixpoint dumps (sort_keys : bool) (j : json) : string :=
  match j with
  | JNull => "null"
  | JBool true => "true"
  | JBool false => "false"
  | JInt n => PyStr.str_of_Z n
  | JFloat r => r
  | JStr s => encode_str s
  | JList l => "[" +:+ PyStr.join ", " (map (dumps sort_keys) l) +:+ "]"
  | JDict d =>
      let enc := map (fun kv => match kv with (k, v) => (k, dumps sort_keys v) end) d in
      let enc := if sort_keys then sort_items enc else enc in
      "{" +:+ PyStr.join ", " (map (fun kv => encode_str (fst kv) +:+ ": " +:+ snd kv) enc) +:+ "}"
  end.

End PyJson.

(** ** [hashlib.sha256] (FIPS 180-4), on 32-bit words held in [Z] *)

Module Sha256.

Local Open Scope Z_scope.

Definition mask32 : Z := 0xffffffff.

Definition add32 (a b : Z) : Z := Z.land (a + b) mask32.

Definition rotr (n x : Z) : Z :=
  Z.lor (Z.shiftr x n) (Z.land (Z.shiftl x (32 - n)) mask32).

Definition not32 (x : Z) : Z := Z.lxor x mask32.

Definition Ch (x y z : Z) : Z := Z.lxor (Z.land x y) (Z.land (not32 x) z).

Definition Maj (x y z : Z) : Z :=
  Z.lxor (Z.lxor (Z.land x y) (Z.land x z)) (Z.land y z).

Definition Sigma0 (x : Z) : Z := Z.lxor (Z.lxor (rotr 2 x) (rotr 13 x)) (rotr 22 x).
Definition Sigma1 (x : Z) : Z := Z.lxor (Z.lxor (rotr 6 x) (rotr 11 x)) (rotr 25 x).
Definition sigma0 (x : Z) : Z := Z.lxor (Z.lxor (rotr 7 x) (rotr 18 x)) (Z.shiftr x 3).
Definition sigma1 (x : Z) : Z := Z.lxor (Z.lxor (rotr 17 x) (rotr 19 x)) (Z.shiftr x 10).

(** The round constants are the first 32 bits of the fractional parts of
    the cube roots of the first 64 primes, the initial hash value those
    of the square roots of the first 8 primes. *)
Definition is_prime (n : nat) : bool :=
  (2 <=? n)%nat && forallb (fun d => negb (n mod d =? 0)%nat) (seq 2 (n - 2)).

Definition primes : list Z :=
  map Z.of_nat (List.filter is_prime (seq 2 310)).

(** The integer cube root, found bit by bit from [2 ^ bits] down. *)
Fixpoint cube_root (bits : nat) (n r : Z) : Z :=
  match bits with
  | O => r
  | S b =>
      let r' := r + 2 ^ Z.of_nat b in
      cube_root b n (if r' * r' * r' <=? n then r' else r)
  end.

Definition K : list Z :=
  map (fun p => Z.land (cube_root 40 (p * 2 ^ 96) 0) mask32) primes.

Definition H0 : list Z :=
  map (fun p => Z.land (Z.sqrt (p * 2 ^ 64)) mask32) (firstn 8 primes).

(** The message followed by the bit 1, zero bytes up to 56 modulo 64 and
    the bit length of the message as a 64-bit big-endian number. *)
Definition be_bytes (width : nat) (n : Z) : list Z :=
  map (fun i => Z.land (Z.shiftr n (8 * Z.of_nat (width - 1 - i))) 0xff) (seq 0 width).

Definition pad (msg : list Z) : list Z :=
  let len := Z.of_nat (length msg) in
  let zeros := Z.to_nat ((55 - len) mod 64) in
  msg ++ [0x80] ++ repeat 0 zeros ++ be_bytes 8 (8 * len).

Fixpoint words_of (fuel : nat) (bs : list Z) : list Z :=
  match fuel, bs with
  | S f, a :: b :: c :: d :: r =>
      (Z.shiftl a 24 + Z.shiftl b 16 + Z.shiftl c 8 + d) :: words_of f r
  | _, _ => []
  end.

Fixpoint blocks_of (fuel : nat) (ws : list Z) : list (list Z) :=
  match fuel, ws with
  | S f, _ :: _ => firstn 16 ws :: blocks_of f (skipn 16 ws)
  | _, _ => []
  end.

Definition nthw (ws : list Z) (i : nat) : Z := nth i ws 0.

(** The message schedule: the 16 words of the block, then 48 more. *)
Fixpoint schedule (todo : nat) (w : list Z) : list Z :=
  match todo with
  | O => w
  | S t =>
      let i := length w in
      let x := add32 (add32 (sigma1 (nthw w (i - 2))) (nthw w (i - 7)))
                     (add32 (sigma0 (nthw w (i - 15))) (nthw w (i - 16))) in
      schedule t (w ++ [x])
  end.

Definition round (st : list Z) (kw : Z * Z) : list Z :=
  match st with
  | [a; b; c; d; e; f; g; h] =>
      let t1 := add32 (add32 (add32 h (Sigma1 e)) (add32 (Ch e f g) (fst kw))) (snd kw) in
      let t2 := add32 (Sigma0 a) (Maj a b c) in
      [add32 t1 t2; a; b; c; add32 d t1; e; f; g]
  | _ => st
  end.

Definition compress (h : list Z) (block : list Z) : list Z :=
  let w := schedule 48 block in
  let st := fold_left round (combine K w) h in
  map (fun p => add32 (fst p) (snd p)) (combine h st).

Definition digest_words (msg : list Z) : list Z :=
  let bs := pad msg in
  let ws := words_of (length bs) bs in
  fold_left compress (blocks_of (length ws) ws) H0.

Definition hex_of_word (w : Z) : string :=
  fold_right (fun i acc => String (PyJson.hex_digit (Z.land (Z.shiftr w (4 * Z.of_nat (7 - i))) 0xf)) acc)
             EmptyString (seq 0 8).

Definition bytes_of_string (s : string) : list Z :=
  map PyStr.byte_of (list_ascii_of_string s).

(** [hashlib.sha256(s.encode('utf-8')).hexdigest()] *)
Definition hexdigest (s : string) : string :=
  fold_right (fun w acc => hex_of_word w +:+ acc) EmptyString
             (digest_words (bytes_of_string s)).

End Sha256.

(** ** The synchronisation pipeline: [FederalRegisterPipeline] *)

(** How a call of the modelled code ends. *)
Inductive outcome (A : Type) : Type :=
| Returned (a : A)
| Raised.
Arguments Returned {A} a.
Arguments Raised {A}.

Module Fetcher.

Local Open Scope Z_scope.

(** What [requests.get] followed by [raise_for_status] and [resp.json()]
    gives: the parsed body, or the exception that was raised, by the
    [except] clause that catches it. *)
Inductive response : Type :=
| Body (data : json)
| HTTPError
| RequestException
| OtherException.

(** The environment of one run of [fetch_documents].
    - [listing n p]: the response to the [n]-th listing request of the
      run (counted from 0), which asks for page [p];
    - [write_page p]: whether the raw file of page [p] could be written;
    - [detail i d]: the response to the detail request of the [i]-th
      submitted task, for document number [d];
    - [completion n]: the order in which [as_completed] yields [n]
      submitted tasks;
    - [write_full]: whether the file of merged documents could be
      written. *)
Record env : Type := {
  listing : nat -> Z -> response;
  write_page : Z -> bool;
  detail : nat -> json -> response;
  completion : nat -> list nat;
  write_full : bool
}.

(** The variables of the pagination loop, with a trace of what the loop
    did: the pages it requested, its [time.sleep] arguments and the page
    files it wrote, each oldest first. *)
Record fetch_state : Type := {
  all_shallow : list json;
  page : Z;
  retries : Z;
  requested : list Z;
  sleeps : list Z;
  written : list Z
}.

Definition init : fetch_state :=
  {| all_shallow := []; page := 1; retries := 0;
     requested := []; sleeps := []; written := [] |}.

Inductive step : Type :=
| Break (st : fetch_state)
| Continue (st : fetch_state).

(** The characters of a string: each lead byte with the UTF-8
    continuation bytes that follow it. *)
Definition is_continuation (c : ascii) : bool :=
  (128 <=? PyStr.byte_of c) && (PyStr.byte_of c <=? 191).

Fixpoint chars_go (cur : string) (s : string) : list string :=
  match s with
  | EmptyString => if String.eqb cur "" then [] else [cur]
  | String c r =>
      if is_continuation c then chars_go (cur +:+ String c "") r
      else if String.eqb cur "" then chars_go (String c "") r
      else cur :: chars_go (String c "") r
  end.

Definition chars (s : string) : list string := chars_go "" s.

(** What iterating over a JSON value yields; [None] is the [TypeError]
    of a value that is not iterable. *)
Definition py_iter (j : json) : option (list json) :=
  match j with
  | JList l => Some l
  | JDict d => Some (map (fun kv => JStr (fst kv)) d)
  | JStr s => Some (map JStr (chars s))
  | _ => None
  end.

(** [max_pages and page > max_pages] *)
Definition cap_exceeded (max_pages : option Z) (page : Z) : bool :=
  match max_pages with
  | None => false
  | Some m => negb (m =? 0) && (m <? page)
  end.

(** One request of the [while True] loop, after the page cap test. *)
Definition request (e : env) (per_page max_retries : Z) (st : fetch_state) : step :=
  let n := length (requested st) in
  let p := page st in
  let st1 := {| all_shallow := all_shallow st; page := p; retries := retries st;
                requested := requested st ++ [p]; sleeps := sleeps st;
                written := written st |} in
  let transient :=
    let r := retries st + 1 in
    if max_retries <=? r
    then Break {| all_shallow := all_shallow st; page := p; retries := r;
                  requested := requested st1; sleeps := sleeps st;
                  written := written st |}
    else Continue {| all_shallow := all_shallow st; page := p; retries := r;
                     requested := requested st1; sleeps := sleeps st ++ [2 ^ r];
                     written := written st |} in
  match listing e n p with
  | Body (JDict data) =>
      match PyDict.lookup data "results" with
      | None => Break st1
      | Some results =>
          if negb (truthy results) then Break st1
          else
            match py_iter results with
            | None => Break st1
            | Some rs =>
                let acc := all_shallow st ++ rs in
                if write_page e p then
                  if Z.of_nat (length rs) <? per_page
                  then Break {| all_shallow := acc; page := p; retries := retries st;
                                requested := requested st1; sleeps := sleeps st;
                                written := written st ++ [p] |}
                  else Continue {| all_shallow := acc; page := p + 1; retries := 0;
                                   requested := requested st1; sleeps := sleeps st;
                                   written := written st ++ [p] |}
                else Break {| all_shallow := acc; page := p; retries := retries st;
                              requested := requested st1; sleeps := sleeps st;
                              written := written st |}
            end
      end
  | Body _ => Break st1
  | HTTPError => transient
  | RequestException => transient
  | OtherException => Break st1
  end.

(** The [while True] loop; [None] when [fuel] iterations did not reach a
    [break]. *)
Fixpoint paginate (fuel : nat) (e : env) (per_page : Z) (max_pages : option Z)
         (max_retries : Z) (st : fetch_state) : option fetch_state :=
  match fuel with
  | O => None
  | S fuel' =>
      if cap_exceeded max_pages (page st) then Some st
      else match request e per_page max_retries st with
           | Break st' => Some st'
           | Continue st' => paginate fuel' e per_page max_pages max_retries st'
           end
  end.

(** [doc.get('document_number') or doc.get('id')] *)
Definition doc_number (d : PyDict.t) : json :=
  py_or (PyDict.get d "document_number") (PyDict.get d "id").

(** The submission loop: the [(doc, doc_num)] pairs of
    [future_to_docnum] in submission order; [None] is the
    [AttributeError] of [doc.get] on a record that is not a dict. *)
Fixpoint submit_all (docs : list json) : option (list (json * json)) :=
  match docs with
  | [] => Some []
  | JDict d :: rest =>
      match submit_all rest with
      | None => None
      | Some fs =>
          if truthy (doc_number d) then Some ((JDict d, doc_number d) :: fs)
          else Some fs
      end
  | _ :: _ => None
  end.

(** [fetch_full_document]: the detail record, or the empty dict when
    anything was raised. *)
Definition fetch_full_document (e : env) (i : nat) (doc_num : json) : json :=
  match detail e i doc_num with
  | Body j => j
  | _ => JDict []
  end.

(** The body of the [as_completed] loop for one task: the merge
    [{**doc_shallow, **(full or {})}]; unpacking something that is not a
    dict raises, and the handler keeps the shallow record. *)
Definition merged (doc_shallow full : json) : json :=
  match doc_shallow, py_or full (JDict []) with
  | JDict s, JDict f => JDict (PyDict.merge s f)
  | _, _ => doc_shallow
  end.

Definition task_result (e : env) (futures : list (json * json)) (i : nat) : option json :=
  match nth_error futures i with
  | Some (doc_shallow, doc_num) => Some (merged doc_shallow (fetch_full_document e i doc_num))
  | None => None
  end.

(** The enrichment stage of [fetch_documents], from [all_shallow] on. *)
Definition enrich (e : env) (shallow : list json) : outcome (list json) :=
  match shallow with
  | [] => Returned []
  | _ =>
      match submit_all shallow with
      | None => Raised
      | Some futures =>
          let full_results :=
            omap (task_result e futures) (completion e (length futures)) in
          if write_full e then Returned full_results else Raised
      end
  end.

(** [fetch_documents(days_back, per_page, max_pages, max_retries)].  The
    date window only enters the request parameters and the file names. *)
Definition fetch_documents (fuel : nat) (e : env) (per_page : Z)
           (max_pages : option Z) (max_retries : Z) : option (outcome (list json)) :=
  match paginate fuel e per_page max_pages max_retries init with
  | None => None
  | Some st => Some (enrich e (all_shallow st))
  end.

End Fetcher.

(** ** The store: the schema that [_setup_database] creates *)

Module Store.

(** A value bound to a [%s] marker, after the connector's conversion. *)
Inductive sqlval : Type :=
| SqlNull
| SqlInt (n : Z)
| SqlFloat (repr : string)
| SqlStr (s : string).

(** The connector's conversion of a Python value; a list or a dict
    cannot be converted, which raises [ProgrammingError]. *)
Definition to_mysql (j : json) : option sqlval :=
  match j with
  | JNull => Some SqlNull
  | JBool b => Some (SqlInt (if b then 1 else 0))
  | JInt n => Some (SqlInt n)
  | JFloat r => Some (SqlFloat r)
  | JStr s => Some (SqlStr s)
  | JList _ => None
  | JDict _ => None
  end.

Fixpoint convert_params (params : list json) : option (list sqlval) :=
  match params with
  | [] => Some []
  | p :: r =>
      match to_mysql p, convert_params r with
      | Some v, Some vs => Some (v :: vs)
      | _, _ => None
      end
  end.

(** A calendar date, compared as year, month, day. *)
Definition date : Type := (Z * Z * Z)%type.

(** Table [documents]; [None] is SQL [NULL]. *)
Record document_row : Type := {
  id : string;
  document_number : option string;
  title : option string;
  abstract : option string;
  document_type : option string;
  publication_date : option date;
  start_page : option Z;
  end_page : option Z;
  page_length : option Z;
  pdf_url : option string;
  html_url : option string;
  agencies : option json;
  excerpt : option string;
  full_text : option string;
  docket_ids : option json;
  cfr_references : option json;
  comments_close_on : option string;
  action : option string;
  raw_json : option string;
  content_hash : option string;
  last_updated : Z
}.

(** Table [agencies], unique on [(document_id, name)]. *)
Record agency_row : Type := {
  agency_id : Z;
  document_id : option string;
  name : option string;
  agency_raw_json : option string
}.

Record db : Type := {
  documents : list document_row;
  agency_rows : list agency_row;
  fulltext_indexes : list (list string)
}.

Definition empty : db :=
  {| documents := []; agency_rows := []; fulltext_indexes := [] |}.

(** Equality of two strings under the tables' collation
    [utf8mb4_unicode_ci], for ASCII text: letter case and trailing
    spaces are ignored.  (The collation also identifies some non-ASCII
    characters; those are compared byte by byte here.) *)
Fixpoint rstrip_spaces (s : string) : string :=
  match s with
  | EmptyString => EmptyString
  | String c r =>
      match rstrip_spaces r with
      | EmptyString => if Ascii.eqb c " " then EmptyString else String c EmptyString
      | r' => String c r'
      end
  end.

Definition collate_eqb (a b : string) : bool :=
  String.eqb (PyStr.lower (rstrip_spaces a)) (PyStr.lower (rstrip_spaces b)).

(** What lies outside the repository and is not modelled further: the
    MySQL server's execution of data-changing statements and of
    [MATCH ... AGAINST], its comparison of a string column with a number
    (done in floating point), whether connecting and committing succeed,
    and Python's [repr] of a list or dict.
    - [mysql_exec sql params d]: the store after the server executed
      statement [sql] with parameters [params] on [d], [None] when the
      server reports an error;
    - [mysql_match d q]: the rows that [MATCH(title, abstract, excerpt,
      raw_json) AGAINST (q IN NATURAL LANGUAGE MODE)] selects on [d],
      [None] when the server reports an error. *)
Record externals : Type := {
  mysql_num_eq : sqlval -> string -> bool;
  mysql_exec : string -> list sqlval -> db -> option db;
  mysql_match : db -> string -> option (document_row -> bool);
  connect_ok : bool;
  probe_ok : bool;
  commit_ok : bool;
  py_repr : json -> string
}.

(** The number of [%s] markers of a statement. *)
Fixpoint count_markers (sql : string) : nat :=
  match sql with
  | String "%" (String "s" r) => S (count_markers r)
  | String _ r => count_markers r
  | EmptyString => O
  end.

(** [cursor.execute(sql, params)] for a data-changing statement: the
    connector converts the parameters, substitutes them for the markers
    and raises [ProgrammingError] unless each parameter met one marker;
    only then the statement reaches the server.  [None]: an exception. *)
Definition cursor_execute (x : externals) (sql : string) (params : list json)
           (d : db) : option db :=
  match convert_params params with
  | None => None
  | Some vs =>
      if Nat.eqb (count_markers sql) (length vs) then mysql_exec x sql vs d
      else None
  end.

(** [id = v] in a [WHERE] clause. *)
Definition id_matches (x : externals) (v : sqlval) (r : document_row) : bool :=
  match v with
  | SqlNull => false
  | SqlStr s => collate_eqb (id r) s
  | _ => mysql_num_eq x v (id r)
  end.

(** [cursor.execute('SELECT content_hash FROM documents WHERE id = %s',
    (doc_num,))] followed by [cursor.fetchone()]: [None] is an
    exception, [Some None] no row, [Some (Some h)] the row [(h,)]. *)
Definition select_content_hash (x : externals) (d : db) (doc_num : json)
  : option (option (option string)) :=
  match to_mysql doc_num with
  | None => None
  | Some v =>
      Some (match List.filter (id_matches x v) (documents d) with
            | [] => None
            | r :: _ => Some (content_hash r)
            end)
  end.

End Store.

(** ** [_compute_content_hash] and [process_documents] *)

Module Persistence.

Import Store.
Local Open Scope Z_scope.

(** [_compute_content_hash(doc)], for a document whose strings can be
    encoded as UTF-8 (on a lone surrogate [encode] raises). *)
Definition _compute_content_hash (doc : json) : string :=
  Sha256.hexdigest (PyJson.dumps true doc).

(** The upsert statement of [process_documents], as written there: it
    names 20 columns and has 19 markers. *)
Definition insert_sql : string :=
  "
                        INSERT INTO documents (
                            id, document_number, title, abstract, document_type,
                            publication_date, start_page, end_page, page_length,
                            pdf_url, html_url, agencies, excerpt, full_text,
                            docket_ids, cfr_references, comments_close_on, action,
                            raw_json, content_hash
                        ) VALUES (%s, %s, %s, %s, %s, %s, %s, %s, %s, %s, %s, %s, %s, %s, %s, %s, %s, %s, %s)
                        ON DUPLICATE KEY UPDATE
                            title = VALUES(title),
                            abstract = VALUES(abstract),
                            document_type = VALUES(document_type),
                            publication_date = VALUES(publication_date),
                            start_page = VALUES(start_page),
                            end_page = VALUES(end_page),
                            page_length = VALUES(page_length),
                            pdf_url = VALUES(pdf_url),
                            html_url = VALUES(html_url),
                            agencies = VALUES(agencies),
                            excerpt = VALUES(excerpt),
                            full_text = VALUES(full_text),
                            docket_ids = VALUES(docket_ids),
                            cfr_references = VALUES(cfr_references),
                            comments_close_on = VALUES(comments_close_on),
                            action = VALUES(action),
                            raw_json = VALUES(raw_json),
                            content_hash = VALUES(content_hash),
                            last_updated = CURRENT_TIMESTAMP
                    ".

Definition agency_sql : string :=
  "INSERT IGNORE INTO agencies (document_id, name, raw_json) VALUES (%s, %s, %s)".

(** [datetime.datetime.strptime(s, '%Y-%m-%d')] succeeds: four digits, a
    month written 1-9, 01-09 or 10-12, a day written 1-9, 01-09, 10-31 or
    as a space and 1-9, and the day exists in that month of that year. *)
Definition field_value (s : string) : option Z :=
  if PyStr.isdigit s then Some (PyStr.int s) else None.

Definition month_text (s : string) : option Z :=
  match field_value s with
  | Some m =>
      if ((String.length s <=? 2)%nat && (1 <=? m) && (m <=? 12)) then Some m else None
  | None => None
  end.

Definition day_text (s : string) : option Z :=
  match s with
  | String " " (String c EmptyString) =>
      if PyStr.is_digit c && negb (Ascii.eqb c "0") then Some (PyStr.byte_of c - 48) else None
  | _ =>
      match field_value s with
      | Some d =>
          if ((String.length s <=? 2)%nat && (1 <=? d) && (d <=? 31)) then Some d else None
      | None => None
      end
  end.

Definition is_leap (y : Z) : bool :=
  ((y mod 4 =? 0) && negb (y mod 100 =? 0)) || (y mod 400 =? 0).

Definition days_in_month (y m : Z) : Z :=
  if m =? 2 then (if is_leap y then 29 else 28)
  else if (m =? 4) || (m =? 6) || (m =? 9) || (m =? 11) then 30 else 31.

Definition strptime_ymd (s : string) : bool :=
  let y := PyStr.before_char "-" s in
  let rest := PyStr.drop (S (String.length y)) s in
  let m := PyStr.before_char "-" rest in
  let d := PyStr.drop (S (String.length m)) rest in
  match field_value y, month_text m, day_text d with
  | Some yv, Some mv, Some dv =>
      (String.length y =? 4)%nat
      && PyStr.startswith (y +:+ "-" +:+ m +:+ "-") s
      && (1 <=? yv) && (dv <=? days_in_month yv mv)
  | _, _, _ => false
  end.

(** [str(v)] *)
Definition py_str (x : externals) (v : json) : string :=
  match v with
  | JNull => "None"
  | JBool true => "True"
  | JBool false => "False"
  | JInt n => PyStr.str_of_Z n
  | JFloat r =>
      if String.eqb r "NaN" then "nan"
      else if String.eqb r "Infinity" then "inf"
      else if String.eqb r "-Infinity" then "-inf" else r
  | JStr s => s
  | JList _ => py_repr x v
  | JDict _ => py_repr x v
  end.

(** The [publication_date] that goes into [values]: the text before the
    first [T] of [str(doc.get('publication_date'))] when [strptime]
    accepts it, else [None].  The text of a list or dict starts with a
    bracket, which [strptime] refuses. *)
Definition publication_date_value (x : externals) (v : json) : json :=
  if truthy v then
    match v with
    | JList _ => JNull
    | JDict _ => JNull
    | _ =>
        let p := PyStr.before_char "T" (py_str x v) in
        if strptime_ymd p then JStr p else JNull
    end
  else JNull.

(** [json.dumps(doc.get(k, []), ensure_ascii=False) if doc.get(k) else None] *)
Definition json_column (d : PyDict.t) (k : string) : json :=
  if truthy (PyDict.get d k)
  then JStr (PyJson.dumps false (PyDict.get_default d k (JList [])))
  else JNull.

(** The tuple [values]. *)
Definition values (x : externals) (d : PyDict.t) (doc_num : json) (content_hash : string)
  : list json :=
  [ doc_num;
    PyDict.get_default d "document_number" (JStr "");
    PyDict.get d "title";
    PyDict.get d "abstract";
    py_or (PyDict.get d "type") (PyDict.get d "document_type");
    publication_date_value x (PyDict.get d "publication_date");
    PyDict.get d "start_page";
    PyDict.get d "end_page";
    PyDict.get d "page_length";
    PyDict.get d "pdf_url";
    PyDict.get d "html_url";
    json_column d "agencies";
    PyDict.get d "excerpt";
    PyDict.get d "full_text";
    json_column d "docket_ids";
    json_column d "cfr_references";
    PyDict.get d "comments_close_on";
    PyDict.get d "action";
    JStr (PyJson.dumps false (JDict d));
    JStr content_hash ].

(** One turn of the loop over the agencies of a document; any exception
    is caught inside the loop. *)
Definition insert_agency (x : externals) (doc_num : json) (st : db) (agency : json) : db :=
  let name :=
    match agency with
    | JDict a => PyDict.get a "name"
    | _ => JStr (py_str x agency)
    end in
  if truthy name then
    match cursor_execute x agency_sql
                         [doc_num; name; JStr (PyJson.dumps false agency)] st with
    | Some st' => st'
    | None => st
    end
  else st.

(** [agencies = doc.get('agencies', []) or []] and the loop over it. *)
Definition insert_agencies (x : externals) (d : PyDict.t) (doc_num : json) (st : db) : db :=
  match py_or (PyDict.get_default d "agencies" (JList [])) (JList []) with
  | JList l => fold_left (insert_agency x doc_num) l st
  | _ => st
  end.

(** The variables of the loop over the documents. *)
Record loop_state : Type := {
  store : db;
  processed_count : Z;
  skipped_count : Z
}.

(** How the body of the loop ended for one document. *)
Inductive verdict : Type :=
| NoNumber        (* no document number: counted as skipped *)
| Unchanged       (* stored digest equal to the recomputed one: [continue] *)
| Upserted        (* the upsert went through: counted as processed *)
| Failed.         (* an exception was caught: counted as skipped *)

(** The body of [for doc in documents] for a dict [doc]. *)
Definition process_dict (x : externals) (d : PyDict.t) (st : loop_state)
  : verdict * loop_state :=
  let skip v := (v, {| store := store st; processed_count := processed_count st;
                       skipped_count := skipped_count st + 1 |}) in
  let doc_num := Fetcher.doc_number d in
  if negb (truthy doc_num) then skip NoNumber
  else
    let content_hash := _compute_content_hash (JDict d) in
    match select_content_hash x (store st) doc_num with
    | None => skip Failed
    | Some row =>
        if match row with
           | Some (Some h) => String.eqb h content_hash
           | _ => false
           end
        then (Unchanged, st)
        else
          match cursor_execute x insert_sql (values x d doc_num content_hash) (store st) with
          | None => skip Failed
          | Some st1 =>
              (Upserted, {| store := insert_agencies x d doc_num st1;
                            processed_count := processed_count st + 1;
                            skipped_count := skipped_count st |})
          end
    end.

(** The loop; [None] is the [AttributeError] that a record which is not
    a dict raises (once in the body and again in its handler, where
    nothing catches it). *)
Fixpoint process_loop (x : externals) (docs : list json) (st : loop_state)
  : option loop_state :=
  match docs with
  | [] => Some st
  | JDict d :: rest => process_loop x rest (snd (process_dict x d st))
  | _ :: _ => None
  end.

(** How a call of [process_documents] ended. *)
Inductive run : Type :=
| NoDocuments                               (* warning and [return] *)
| Committed (st : loop_state)               (* [conn.commit()] done *)
| Aborted.                                  (* raised; nothing committed *)

(** [process_documents(documents)] on store [d]. *)
Definition process_documents (x : externals) (d : db) (documents : list json) : run :=
  match documents with
  | [] => NoDocuments
  | _ =>
      if connect_ok x then
        match process_loop x documents
                           {| store := d; processed_count := 0; skipped_count := 0 |} with
        | Some st => if commit_ok x then Committed st else Aborted
        | None => Aborted
        end
      else Aborted
  end.

(** The store after the call. *)
Definition store_after (d : db) (r : run) : db :=
  match r with
  | Committed st => store st
  | _ => d
  end.

End Persistence.

(** ** The retrieval layer: [FederalAgent._query_mysql] *)

Module Query.

Import Store.
Local Open Scope Z_scope.

(** Equality of two characters under the collation (ASCII letter case
    ignored). *)
Definition ci_eqb (a b : ascii) : bool :=
  Ascii.eqb (PyStr.lower_char a) (PyStr.lower_char b).

(** The rest of a string after its first character (a lead byte and its
    UTF-8 continuation bytes). *)
Fixpoint skip_continuation (s : string) : string :=
  match s with
  | String c r => if Fetcher.is_continuation c then skip_continuation r else s
  | EmptyString => EmptyString
  end.

Definition skip_char (s : string) : option string :=
  match s with
  | String _ r => Some (skip_continuation r)
  | EmptyString => None
  end.

(** [s LIKE p]: [%] stands for any run of characters, [_] for one
    character, a backslash makes the next pattern character literal (a
    backslash that ends the pattern stands for itself); other characters
    are compared under the collation. *)
Fixpoint like (p : string) : string -> bool :=
  match p with
  | EmptyString => fun s => match s with EmptyString => true | _ => false end
  | String c p' =>
      if Ascii.eqb c "%" then
        fix any (s : string) : bool :=
          like p' s || match s with
                       | EmptyString => false
                       | String _ s' => any s'
                       end
      else if Ascii.eqb c "_" then
        fun s => match skip_char s with
                 | Some s' => like p' s'
                 | None => false
                 end
      else if Ascii.eqb c "\" then
        match p' with
        | String c2 p'' =>
            fun s => match s with
                     | String a s' => ci_eqb a c2 && like p'' s'
                     | EmptyString => false
                     end
        | EmptyString =>
            fun s => match s with
                     | String a s' => ci_eqb a c && like p' s'
                     | EmptyString => false
                     end
        end
      else
        fun s => match s with
                 | String a s' => ci_eqb a c && like p' s'
                 | EmptyString => false
                 end
  end.

(** [col LIKE p] on a nullable column: [NULL] does not satisfy it. *)
Definition like_col (p : string) (col : option string) : bool :=
  match col with
  | Some s => like p s
  | None => false
  end.

(** The [WHERE] clause of the fallback statement. *)
Definition fallback_where (p : string) (r : document_row) : bool :=
  like_col p (title r) || like_col p (abstract r) || like_col p (excerpt r)
  || like_col p (full_text r) || like_col p (raw_json r).

(** [JSON_CONTAINS(target, JSON_OBJECT('name', a))]: an object contains
    the candidate when its member [name] contains the string [a]; an
    array contains a candidate that one of its elements contains; a
    string contains the string equal to it. *)
Fixpoint contains_string (a : string) (target : json) : bool :=
  match target with
  | JStr s => String.eqb s a
  | JList l => existsb (contains_string a) l
  | _ => false
  end.

Fixpoint contains_name (a : string) (target : json) : bool :=
  match target with
  | JDict d =>
      match PyDict.lookup d "name" with
      | Some v => contains_string a v
      | None => false
      end
  | JList l => existsb (contains_name a) l
  | _ => false
  end.

Definition agency_where (agency : option string) (r : document_row) : bool :=
  match agency with
  | Some a =>
      if String.eqb a "" then true
      else match agencies r with
           | Some j => contains_name a j
           | None => false
           end
  | None => true
  end.

(** [ORDER BY publication_date DESC]: later dates first, [NULL] last. *)
Definition date_leb (a b : date) : bool :=
  match a, b with
  | (y1, m1, d1), (y2, m2, d2) =>
      (y1 <? y2) || ((y1 =? y2) && ((m1 <? m2) || ((m1 =? m2) && (d1 <=? d2))))
  end.

Definition odate_leb (a b : option date) : bool :=
  match a, b with
  | None, _ => true
  | Some _, None => false
  | Some x, Some y => date_leb x y
  end.

(** [newer_first a b]: row [a] may come before row [b]. *)
Definition newer_first : relation document_row :=
  fun a b => odate_leb (publication_date b) (publication_date a) = true.

#[global] Instance newer_first_dec : RelDecision newer_first.
Proof. intros a b. unfold newer_first. apply _. Defined.

Definition order_by_publication_date_desc (rows : list document_row) : list document_row :=
  merge_sort newer_first rows.

(** The text condition of the statement that [_work] builds. [None]: the
    server refuses the statement. *)
Definition text_where (x : externals) (d : db) (q : string)
  : option (document_row -> bool) :=
  let use_fulltext :=
    if probe_ok x
    then match fulltext_indexes d with [] => false | _ => true end
    else false in
  if negb (String.eqb q "") && use_fulltext then mysql_match x d q
  else if negb (String.eqb q "") then Some (fallback_where ("%" +:+ q +:+ "%"))
  else Some (fun _ => true).

(** The largest number that [LIMIT] takes: it is an unsigned 64-bit
    literal in the server's grammar; a negative or a larger number makes
    the statement a syntax error. *)
Definition max_limit : Z := 18446744073709551615.

(** The rows of [documents] that the statement selects, in the order and
    number in which it returns them; any exception gives no row. *)
Definition selected_rows (x : externals) (d : db) (query : string)
           (agency : option string) (lim : Z) : list document_row :=
  if connect_ok x then
    match text_where x d (PyStr.strip query) with
    | None => []
    | Some cond =>
        if (lim <? 0) || (max_limit <? lim) then []
        else
          take (Z.to_nat lim)
               (order_by_publication_date_desc
                  (List.filter (fun r => cond r && agency_where agency r) (documents d)))
    end
  else [].

(** A row of the result: the columns of the [SELECT] list.  (The
    fulltext statement also returns the server's relevance number.) *)
Record hit : Type := {
  hit_id : string;
  hit_title : option string;
  hit_abstract : option string;
  hit_excerpt : option string;
  hit_document_type : option string;
  hit_publication_date : option date;
  hit_agencies : option json
}.

Definition select_columns (r : document_row) : hit :=
  {| hit_id := id r; hit_title := title r; hit_abstract := abstract r;
     hit_excerpt := excerpt r; hit_document_type := document_type r;
     hit_publication_date := publication_date r; hit_agencies := agencies r |}.

(** [_query_mysql(query, filters, limit)] *)
Definition _query_mysql (x : externals) (d : db) (query : string)
           (agency : option string) (lim : Z) : list hit :=
  map select_columns (selected_rows x d query agency lim).

End Query.

(** ** The intent gate: [FederalAgent.chat] *)

Module Intent.

(** The snapshot of [_get_help_metadata], as far as [chat] reads it. *)
Record meta : Type := {
  keywords : list string;
  agencies : list string;
  document_types : list string
}.

(** A character of the class [[A-Za-z0-9\-']]. *)
Definition is_token_char (c : ascii) : bool :=
  PyStr.is_upper c || PyStr.is_lower c || PyStr.is_digit c
  || Ascii.eqb c "-" || Ascii.eqb c "'".

(** [re.findall(r"[A-Za-z0-9\-']+", s)]: the maximal runs of token
    characters, left to right. *)
Fixpoint findall_go (cur : string) (s : string) : list string :=
  match s with
  | EmptyString => if String.eqb cur "" then [] else [cur]
  | String c r =>
      if is_token_char c then findall_go (cur +:+ String c "") r
      else if String.eqb cur "" then findall_go "" r
      else cur :: findall_go "" r
  end.

Definition findall (s : string) : list string := findall_go "" s.

(** What [chat] answers: a fixed text, the help text, or the result of
    [run(query, filters, limit)]. *)
Inductive reply : Type :=
| Text (s : string)
| HelpText
| Run (query : string) (agency : option string) (limit : Z).

Definition prompt_message : string :=
  "Please provide a query. Use `help` for examples.".

Definition refusal_message : string :=
  "This assistant strictly answers **Federal Register / U.S. regulatory** queries only.

Try one of the following:
• `search <keyword>`
• `find <agency>`
• `recent <N>`
• `help`
".

Definition cmd_prefixes : list string :=
  ["search "; "find "; "recent"; "help"; "get "; "show "].

(** The body of [for p in cmd_prefixes] once a prefix matched; [None] is
    the [break] that falls through to the gate. *)
Definition command (msg lower : string) : option reply :=
  if PyStr.startswith "recent" lower then
    match PyStr.split msg with
    | [_; n] => if PyStr.isdigit n then Some (Run "" None (PyStr.int n))
                else Some (Text "Usage: recent <N>")
    | _ => Some (Text "Usage: recent <N>")
    end
  else if PyStr.startswith "find " lower then
    let agency := PyStr.strip (PyStr.drop 5 msg) in
    if String.eqb agency "" then Some (Text "Usage: find <agency>")
    else Some (Run "" (Some agency) 25)
  else if PyStr.startswith "search " lower then
    let q := PyStr.strip (PyStr.drop 7 msg) in
    if String.eqb q "" then Some (Text "Usage: search <keyword>")
    else Some (Run q None 25)
  else if String.eqb lower "help" then Some HelpText
  else None.

Fixpoint dispatch (prefixes : list string) (msg lower : string) : option reply :=
  match prefixes with
  | [] => None
  | p :: rest =>
      if String.eqb lower (PyStr.strip p) || PyStr.startswith p lower
      then command msg lower
      else dispatch rest msg lower
  end.

(** The domain vocabulary: the tokens of the snapshot's keywords, agency
    names and document types. *)
Definition vocabulary (l : list string) : gset string :=
  ⋃ (map (fun k => list_to_set (findall (PyStr.lower k))) l).

Definition domain_tokens (m : meta) : gset string :=
  vocabulary (keywords m) ∪ vocabulary (agencies m) ∪ vocabulary (document_types m).

(** [len(overlap) / max(1, len(msg_tokens))], as an exact fraction. *)
Definition overlap_ratio (msg_tokens domain : gset string) : Q :=
  Z.of_nat (size (msg_tokens ∩ domain)) # Pos.of_nat (Nat.max 1 (size msg_tokens)).

Definition SHORT_INPUT_THRESHOLD : Q := 33 # 100.
Definition OVERLAP_THRESHOLD : Q := 18 # 100.

(** The two tests that follow the computation of the ratio.  Python
    compares the double nearest to the quotient with the double nearest
    to the threshold; for a quotient of two counts below 10^14 that
    comparison and the exact one agree, since rounding is monotone and
    a quotient k/n below a threshold t/100 is below it by 1/(100n) at
    least. *)
Definition accepts (ntokens : nat) (ratio : Q) : bool :=
  ((ntokens <=? 2)%nat && Qle_bool SHORT_INPUT_THRESHOLD ratio)
  || ((2 <? ntokens)%nat && Qle_bool OVERLAP_THRESHOLD ratio).

(** The part of [chat] after the command prefixes. *)
Definition gate (m : meta) (lower : string) : reply :=
  let tokens := findall lower in
  match tokens with
  | [] => Text prompt_message
  | _ =>
      let msg_tokens : gset string := list_to_set tokens in
      if accepts (length tokens) (overlap_ratio msg_tokens (domain_tokens m))
      then Run lower None 25
      else Text refusal_message
  end.

(** [chat(message)] with the metadata snapshot [m]. *)
Definition chat (m : meta) (message : string) : reply :=
  let msg := PyStr.strip message in
  if String.eqb msg "" then Text prompt_message
  else
    let lower := PyStr.strip (PyStr.lower msg) in
    match dispatch cmd_prefixes msg lower with
    | Some r => r
    | None => gate m lower
    end.

End Intent.

(** ** Vocabulary of the properties *)

(** Two JSON values have the same content when they differ at most in the
    order in which the items of their dicts were inserted. *)
#[warnings="-register-all"]
Inductive same_content : json -> json -> Prop :=
| same_null : same_content JNull JNull
| same_bool b : same_content (JBool b) (JBool b)
| same_int n : same_content (JInt n) (JInt n)
| same_float r : same_content (JFloat r) (JFloat r)
| same_str s : same_content (JStr s) (JStr s)
| same_list l1 l2 :
    Forall2 same_content l1 l2 -> same_content (JList l1) (JList l2)
| same_dict d1 d1' d2 :
    d1 ≡ₚ d1' ->
    Forall2 (fun a b => fst a = fst b /\ same_content (snd a) (snd b)) d1' d2 ->
    same_content (JDict d1) (JDict d2).

Fixpoint json_size (j : json) : nat :=
  match j with
  | JList l => S ((fix sz (l : list json) : nat :=
                     match l with [] => 0 | x :: r => json_size x + sz r end) l)
  | JDict d => S ((fix sz (d : list (string * json)) : nat :=
                     match d with [] => 0 | (_, v) :: r => json_size v + sz r end) d)
  | _ => 1
  end.

(** One encoded item of a dict, as [dumps] with sorted keys builds it. *)
Definition encode_item (kv : string * json) : string * string :=
  match kv with (k, v) => (k, PyJson.dumps true v) end.

Definition is_dict (j : json) : Prop :=
  match j with JDict _ => True | _ => False end.

(** The shallow records that have a document number, each with it, in the
    order of the listing. *)
Definition numbered (shallow : list json) : list (json * json) :=
  omap (fun doc => match doc with
                   | JDict d => if truthy (Fetcher.doc_number d)
                                then Some (doc, Fetcher.doc_number d) else None
                   | _ => None
                   end) shallow.

(** A failure of a listing request that the loop retries. *)
Definition transient (r : Fetcher.response) : Prop :=
  r = Fetcher.HTTPError \/ r = Fetcher.RequestException.


(** Whether a shallow record has a document number. *)
Definition has_number (doc : json) : bool :=
  match doc with
  | JDict d => truthy (Fetcher.doc_number d)
  | _ => false
  end.

(** What the enrichment stage makes of the [i]-th submitted task. *)
Definition enriched (e : Fetcher.env) (i : nat) (task : json * json) : json :=
  Fetcher.merged (fst task) (Fetcher.fetch_full_document e i (snd task)).

(** Sample data. *)
Module Sample.

Import Fetcher.

(** A shallow record as the listing returns it. *)
Definition record (number title : string) : json :=
  JDict [("title", JStr title); ("document_number", JStr number)].

(** A listing body with [n] records. *)
Definition listing_body (n : nat) : json :=
  JDict [("count", JInt 245);
         ("results", JList (repeat (record "2024-00001" "Notice") n))].

(** A stub of the listing endpoint with pages of 100, 100 and 45
    records, answering requests in the order they arrive. *)
Definition stub_pages : env :=
  {| listing := fun n _ => match nth_error [100; 100; 45]%nat n with
                           | Some k => Body (listing_body k)
                           | None => OtherException
                           end;
     write_page := fun _ => true;
     detail := fun _ _ => RequestException;
     completion := fun n => seq 0 n;
     write_full := true |}.

(** A listing endpoint whose first page is full and whose second page
    always fails. *)
Definition failing_second_page : env :=
  {| listing := fun _ p => if (p =? 1)%Z then Body (listing_body 100) else HTTPError;
     write_page := fun _ => true;
     detail := fun _ _ => RequestException;
     completion := fun n => rev (seq 0 n);
     write_full := true |}.

(** An endpoint that answers nothing at all. *)
Definition offline : env :=
  {| listing := fun _ _ => RequestException;
     write_page := fun _ => true;
     detail := fun _ _ => RequestException;
     completion := fun n => seq 0 n;
     write_full := true |}.

(** A detail endpoint that knows one document. *)
Definition one_detail : env :=
  {| listing := fun _ _ => RequestException;
     write_page := fun _ => true;
     detail := fun _ d =>
                 match d with
                 | JStr "2024-00001" =>
                     Body (JDict [("title", JStr "Notice of Meeting");
                                  ("full_text", JStr "The committee meets.")])
                 | _ => HTTPError
                 end;
     completion := fun n => rev (seq 0 n);
     write_full := true |}.

(** A shallow record that has neither [document_number] nor [id]. *)
Definition unnumbered : json := JDict [("title", JStr "Notice")].

End Sample.


(** The verdicts of the loop of [process_documents], document by
    document. *)
Fixpoint verdicts (x : Store.externals) (docs : list json)
         (st : Persistence.loop_state) : list Persistence.verdict :=
  match docs with
  | JDict d :: rest =>
      fst (Persistence.process_dict x d st)
      :: verdicts x rest (snd (Persistence.process_dict x d st))
  | _ => []
  end.

Definition verdict_eqb (a b : Persistence.verdict) : bool :=
  match a, b with
  | Persistence.NoNumber, Persistence.NoNumber => true
  | Persistence.Unchanged, Persistence.Unchanged => true
  | Persistence.Upserted, Persistence.Upserted => true
  | Persistence.Failed, Persistence.Failed => true
  | _, _ => false
  end.

Definition count_verdict (v : Persistence.verdict) (l : list Persistence.verdict) : Z :=
  Z.of_nat (length (List.filter (verdict_eqb v) l)).

Module SampleDocs.

(** A merged document. *)
Definition notice_fields : PyDict.t :=
  [("document_number", JStr "2024-00001");
   ("title", JStr "Notice of Meeting");
   ("publication_date", JStr "2024-01-05")].

Definition notice : json := JDict notice_fields.

(** A merged document with two agencies. *)
Definition rule_fields : PyDict.t :=
  [("document_number", JStr "2024-00002");
   ("title", JStr "Pesticide Tolerances");
   ("agencies", JList [JDict [("name", JStr "EPA")]; JDict [("name", JStr "FDA")]])].

Definition rule : json := JDict rule_fields.

(** The row of [notice] as it stands in a store that holds it. *)
Definition notice_row : Store.document_row :=
  {| Store.id := "2024-00001";
     Store.document_number := Some "2024-00001";
     Store.title := Some "Notice of Meeting";
     Store.abstract := None;
     Store.document_type := None;
     Store.publication_date := Some (2024, 1, 5)%Z;
     Store.start_page := None;
     Store.end_page := None;
     Store.page_length := None;
     Store.pdf_url := None;
     Store.html_url := None;
     Store.agencies := None;
     Store.excerpt := None;
     Store.full_text := None;
     Store.docket_ids := None;
     Store.cfr_references := None;
     Store.comments_close_on := None;
     Store.action := None;
     Store.raw_json := Some (PyJson.dumps false notice);
     Store.content_hash := Some (Persistence._compute_content_hash notice);
     Store.last_updated := 0 |}.

Definition store_with_notice : Store.db :=
  {| Store.documents := [notice_row]; Store.agency_rows := [];
     Store.fulltext_indexes := [] |}.

(** A server that accepts every statement and changes nothing, with no
    fulltext index. *)
Definition idle_server : Store.externals :=
  {| Store.mysql_num_eq := fun _ _ => false;
     Store.mysql_exec := fun _ _ d => Some d;
     Store.mysql_match := fun _ _ => None;
     Store.connect_ok := true;
     Store.probe_ok := true;
     Store.commit_ok := true;
     Store.py_repr := fun _ => "" |}.

End SampleDocs.


(** [q.lower() in s.lower()]: [q] occurs in [s], letter case ignored. *)
Definition ci_contains (q s : string) : bool :=
  PyStr.contains (PyStr.lower q) (PyStr.lower s).

(** One of the five searched columns of a row contains [q]. *)
Definition column_contains (q : string) (col : option string) : bool :=
  match col with
  | Some s => ci_contains q s
  | None => false
  end.

Definition some_column_contains (q : string) (r : Store.document_row) : bool :=
  column_contains q (Store.title r) || column_contains q (Store.abstract r)
  || column_contains q (Store.excerpt r) || column_contains q (Store.full_text r)
  || column_contains q (Store.raw_json r).

(** A query without the characters that [LIKE] reads as a wildcard or as
    its escape: percent sign, underscore and backslash. *)
Fixpoint no_wildcards (q : string) : bool :=
  match q with
  | EmptyString => true
  | String c r =>
      negb (Ascii.eqb c "%") && negb (Ascii.eqb c "_") && negb (Ascii.eqb c "\")
      && no_wildcards r
  end.

(** The later publication date first, on the rows of a result. *)
Definition hit_newer_first : relation Query.hit :=
  fun a b => Query.odate_leb (Query.hit_publication_date b) (Query.hit_publication_date a) = true.


(** The word [w] written [n] times, with single spaces in between. *)
Definition repeat_word (w : string) (n : nat) : string :=
  PyStr.join " " (repeat w n).

(** A non-empty run of token characters without capital letters: what
    the domain vocabulary is made of. *)
Fixpoint token_chars (w : string) : bool :=
  match w with
  | EmptyString => true
  | String c r => Intent.is_token_char c && negb (PyStr.is_upper c) && token_chars r
  end.

Fixpoint no_upper (s : string) : bool :=
  match s with
  | EmptyString => true
  | String c r => negb (PyStr.is_upper c) && no_upper r
  end.

Fixpoint no_space (s : string) : bool :=
  match s with
  | EmptyString => true
  | String c r => negb (Ascii.eqb c " ") && no_space r
  end.

Fixpoint ends_without_space (s : string) : bool :=
  match s with
  | EmptyString => false
  | String c EmptyString => negb (PyStr.is_space c)
  | String _ r => ends_without_space r
  end.

(** The test that [chat] makes on the ratio, as a proposition. *)
Definition meets_threshold (ntokens : nat) (ratio : Q) : Prop :=
  (ntokens <= 2 /\ (Intent.SHORT_INPUT_THRESHOLD <= ratio)%Q)
  \/ (2 < ntokens /\ (Intent.OVERLAP_THRESHOLD <= ratio)%Q).

Module SampleMeta.

(** A snapshot whose keywords include the word recent. *)
Definition snapshot : Intent.meta :=
  {| Intent.keywords := ["pesticide"; "recent"; "rule"];
     Intent.agencies := ["Environmental Protection Agency"];
     Intent.document_types := ["Notice"; "Rule"] |}.

End SampleMeta.


Module SampleRuns.

Import Fetcher.

(** Two spellings of one document: the same fields, inserted in
    opposite orders at both levels. *)
Definition doc_listed : json :=
  JDict [("document_number", JStr "2024-00001");
         ("title", JStr "Notice of Meeting");
         ("agencies", JList [JDict [("name", JStr "EPA"); ("id", JInt 145)]])].

Definition doc_reordered : json :=
  JDict [("agencies", JList [JDict [("id", JInt 145); ("name", JStr "EPA")]]);
         ("title", JStr "Notice of Meeting");
         ("document_number", JStr "2024-00001")].

Definition records (n : nat) : list json :=
  repeat (Sample.record "2024-00001" "Notice") n.

(** The loop variables after the two full pages of [Sample.stub_pages],
    and after the full first page of [Sample.failing_second_page]. *)
Definition after_two_pages : fetch_state :=
  {| all_shallow := records 200; page := 3; retries := 0;
     requested := [1; 2]%Z; sleeps := []; written := [1; 2]%Z |}.

Definition after_first_page : fetch_state :=
  {| all_shallow := records 100; page := 2; retries := 0;
     requested := [1]%Z; sleeps := []; written := [1]%Z |}.

(** A listing endpoint that answers with an error object. *)
Definition error_body : env :=
  {| listing := fun _ _ => Body (JDict [("errors", JStr "bad request")]);
     write_page := fun _ => true;
     detail := fun _ _ => RequestException;
     completion := fun n => seq 0 n;
     write_full := true |}.

(** Three shallow records, the second without a document number. *)
Definition mixed_records : list json :=
  [Sample.record "2024-00001" "Notice"; Sample.unnumbered;
   Sample.record "2024-00002" "Rule"].

(** A batch: a stored and unchanged document, a new one, and one
    without document number. *)
Definition batch : list json :=
  [SampleDocs.notice; SampleDocs.rule; Sample.unnumbered].

End SampleRuns.


(** What one request of the pagination loop does to the loop variables
    and to the trace: it ends the loop, moves on to the next page, or
    asks for the same page again. *)
Definition stopped (st st' : Fetcher.fetch_state) : Prop :=
  Fetcher.page st' = Fetcher.page st
  /\ Fetcher.sleeps st' = Fetcher.sleeps st
  /\ Fetcher.requested st' = Fetcher.requested st ++ [Fetcher.page st]
  /\ (Fetcher.written st' = Fetcher.written st
      \/ Fetcher.written st' = Fetcher.written st ++ [Fetcher.page st]).

Definition advanced (st st' : Fetcher.fetch_state) : Prop :=
  Fetcher.page st' = (Fetcher.page st + 1)%Z
  /\ Fetcher.retries st' = 0%Z
  /\ Fetcher.sleeps st' = Fetcher.sleeps st
  /\ Fetcher.requested st' = Fetcher.requested st ++ [Fetcher.page st]
  /\ Fetcher.written st' = Fetcher.written st ++ [Fetcher.page st].

Definition retried (max_retries : Z) (st st' : Fetcher.fetch_state) : Prop :=
  Fetcher.page st' = Fetcher.page st
  /\ Fetcher.retries st' = (Fetcher.retries st + 1)%Z
  /\ (Fetcher.retries st + 1 < max_retries)%Z
  /\ Fetcher.sleeps st' = Fetcher.sleeps st ++ [(2 ^ (Fetcher.retries st + 1))%Z]
  /\ Fetcher.requested st' = Fetcher.requested st ++ [Fetcher.page st]
  /\ Fetcher.written st' = Fetcher.written st
  /\ Fetcher.all_shallow st' = Fetcher.all_shallow st.

(** The requests that a page cap of [m] pages still allows from a state:
    [r] per page, less those already spent on the current page. *)
Definition budget (m r : Z) (st : Fetcher.fetch_state) : Z :=
  if (Fetcher.page st <=? m)%Z
  then ((m - Fetcher.page st) * r + (r - Fetcher.retries st))%Z
  else 0%Z.

(** A listing endpoint that answers every request with a full page. *)
Definition endless (e : Fetcher.env) (per_page : Z) : Prop :=
  forall n p, exists data rs,
    Fetcher.listing e n p = Fetcher.Body (JDict data)
    /\ PyDict.lookup data "results" = Some (JList rs)
    /\ rs <> [] /\ (per_page <= Z.of_nat (length rs))%Z
    /\ Fetcher.write_page e p = true.

(** The page numbers 1, ..., n. *)
Definition pages_upto (n : nat) : list Z := map Z.of_nat (seq 1 n).


Module SampleEndpoints.

Import Fetcher.

(** A listing endpoint that has a full page of 100 records for every
    page number. *)
Definition full_pages : env :=
  {| listing := fun _ _ => Body (Sample.listing_body 100);
     write_page := fun _ => true;
     detail := fun _ _ => RequestException;
     completion := fun n => seq 0 n;
     write_full := true |}.

(** An endpoint whose file of merged documents cannot be written. *)
Definition read_only_disk : env :=
  {| listing := fun _ _ => RequestException;
     write_page := fun _ => false;
     detail := fun _ _ => RequestException;
     completion := fun n => seq 0 n;
     write_full := false |}.

End SampleEndpoints.

Module SampleRows.

(** A second row, older than [SampleDocs.notice_row], and a row without
    publication date. *)
Definition older_row : Store.document_row :=
  {| Store.id := "2023-00009";
     Store.document_number := Some "2023-00009";
     Store.title := Some "Air Quality Standards";
     Store.abstract := Some "Revision of the ozone standard.";
     Store.document_type := Some "Rule";
     Store.publication_date := Some (2023, 11, 30)%Z;
     Store.start_page := None;
     Store.end_page := None;
     Store.page_length := None;
     Store.pdf_url := None;
     Store.html_url := None;
     Store.agencies := Some (JList [JDict [("name", JStr "Environmental Protection Agency")]]);
     Store.excerpt := None;
     Store.full_text := None;
     Store.docket_ids := None;
     Store.cfr_references := None;
     Store.comments_close_on := None;
     Store.action := None;
     Store.raw_json := None;
     Store.content_hash := None;
     Store.last_updated := 0 |}.

Definition undated_row : Store.document_row :=
  {| Store.id := "2022-00003";
     Store.document_number := Some "2022-00003";
     Store.title := None;
     Store.abstract := None;
     Store.document_type := None;
     Store.publication_date := None;
     Store.start_page := None;
     Store.end_page := None;
     Store.page_length := None;
     Store.pdf_url := None;
     Store.html_url := None;
     Store.agencies := None;
     Store.excerpt := None;
     Store.full_text := None;
     Store.docket_ids := None;
     Store.cfr_references := None;
     Store.comments_close_on := None;
     Store.action := None;
     Store.raw_json := None;
     Store.content_hash := None;
     Store.last_updated := 0 |}.

Definition three_rows : Store.db :=
  {| Store.documents := [older_row; undated_row; SampleDocs.notice_row];
     Store.agency_rows := []; Store.fulltext_indexes := [] |}.

End SampleRows.


Module SampleSnapshots.

(** The snapshot of an unreachable database, and one with a single
    keyword. *)
Definition nothing : Intent.meta :=
  {| Intent.keywords := []; Intent.agencies := []; Intent.document_types := [] |}.

Definition one_keyword : Intent.meta :=
  {| Intent.keywords := ["rule"]; Intent.agencies := []; Intent.document_types := [] |}.

End SampleSnapshots.


(** ** [agent/router_agent.py] *)

Module Router.

Import Intent.

(** What [handle] returns: an answer as [chat] gives them, or, for the
    help words, the coroutine object of [_format_help_text], which
    [handle] does not await. *)
Inductive answer : Type :=
| Answer (r : reply)
| HelpCoroutine.

(** [RouterAgent.handle(message)] *)
Definition handle (message : string) : answer :=
  let msg := PyStr.strip message in
  if String.eqb msg "" then Answer (Text "Please enter a query. Use `help` for examples.")
  else
    let lower := PyStr.lower msg in
    if String.eqb lower "help" || String.eqb lower "/help" || String.eqb lower "commands"
    then HelpCoroutine
    else if PyStr.startswith "recent" lower then
      match PyStr.split msg with
      | [_; n] => if PyStr.isdigit n then Answer (Run "" None (PyStr.int n))
                  else Answer (Text "Usage: recent <number>")
      | _ => Answer (Text "Usage: recent <number>")
      end
    else if PyStr.startswith "find " lower then
      let agency := PyStr.strip (PyStr.drop 5 msg) in
      if String.eqb agency "" then Answer (Text "Usage: find <agency>")
      else Answer (Run "" (Some agency) 25)
    else if PyStr.startswith "search " lower then
      let q := PyStr.strip (PyStr.drop 7 msg) in
      if String.eqb q "" then Answer (Text "Usage: search <keyword>")
      else Answer (Run q None 25)
    else Answer (Run msg None 25).

End Router.

(** A text of ASCII characters only; on such a text the string functions
    above are those of Python. *)
Definition ascii_text (s : string) : bool :=
  forallb (fun c => (PyStr.byte_of c <? 128)%Z) (list_ascii_of_string s).

(** A snapshot of ASCII texts only. *)
Definition ascii_meta (m : Intent.meta) : bool :=
  forallb ascii_text (Intent.keywords m ++ Intent.agencies m ++ Intent.document_types m).

(** A text on which the tables' collation [utf8mb4_unicode_ci] is the
    comparison of [Query.ci_eqb]: printable ASCII characters and the
    white space from tab to carriage return.  (The collation gives no
    weight to the other control characters and gives letters with and
    without accent the same weight.) *)
Definition collation_char (c : ascii) : bool :=
  let b := PyStr.byte_of c in
  ((9 <=? b) && (b <=? 13) || (32 <=? b) && (b <=? 126))%Z.

Definition collation_text (s : string) : bool :=
  forallb collation_char (list_ascii_of_string s).

Definition collation_column (col : option string) : bool :=
  match col with
  | Some s => collation_text s
  | None => true
  end.

(** A row whose five searched columns hold such texts. *)
Definition collation_row (r : Store.document_row) : bool :=
  collation_column (Store.title r) && collation_column (Store.abstract r)
  && collation_column (Store.excerpt r) && collation_column (Store.full_text r)
  && collation_column (Store.raw_json r).

(** A well-formed UTF-8 text (RFC 3629): the bytes of a Python [str]
    that [encode('utf-8')] accepts.  A lone surrogate, which
    [json.loads] can deliver and [encode] refuses, has no such bytes. *)
Definition between (lo hi : Z) (c : ascii) : bool :=
  ((lo <=? PyStr.byte_of c) && (PyStr.byte_of c <=? hi))%Z.

Fixpoint utf8_valid (s : string) : bool :=
  match s with
  | EmptyString => true
  | String a r =>
      if between 0 127 a then utf8_valid r
      else
        match r with
        | String b r2 =>
            if between 194 223 a then between 128 191 b && utf8_valid r2
            else
              match r2 with
              | String c r3 =>
                  if between 224 239 a then
                    (if between 224 224 a then between 160 191 b
                     else if between 237 237 a then between 128 159 b
                     else between 128 191 b)
                    && between 128 191 c && utf8_valid r3
                  else
                    match r3 with
                    | String e r4 =>
                        between 240 244 a
                        && (if between 240 240 a then between 144 191 b
                            else if between 244 244 a then between 128 143 b
                            else between 128 191 b)
                        && between 128 191 c && between 128 191 e && utf8_valid r4
                    | EmptyString => false
                    end
              | EmptyString => false
              end
        | EmptyString => false
        end
  end.

(** The strings of a JSON value: its string values and its keys, at
    every depth. *)
Fixpoint json_strings (j : json) : list string :=
  match j with
  | JStr s => [s]
  | JList l => (fix go (l : list json) : list string :=
                  match l with [] => [] | x :: r => json_strings x ++ go r end) l
  | JDict d => (fix go (d : list (string * json)) : list string :=
                  match d with
                  | [] => []
                  | (k, v) :: r => k :: json_strings v ++ go r
                  end) d
  | _ => []
  end.

(** A document that [json.dumps(...).encode('utf-8')] accepts. *)
Definition encodable (doc : json) : bool :=
  forallb utf8_valid (json_strings doc).


(** ** [agent/federal_agent.py]: what [run] makes of the rows *)

Module Presentation.

Import Store.

(** What lies outside: [json.loads] ([None] when it raises) and the
    Python value in which the connector delivers the document of a JSON
    column (a [str] holding its text, for an array or an object). *)
Record codec : Type := {
  loads : string -> option json;
  column_value : json -> json
}.

(** [item.get("name") or item.get("raw_name") or item.get("agency")] *)
Definition item_name (d : PyDict.t) : json :=
  py_or (py_or (PyDict.get d "name") (PyDict.get d "raw_name")) (PyDict.get d "agency").

(** The loop over a list [data]. *)
Definition names_of_items (items : list json) : list json :=
  omap (fun item => match item with
                    | JDict d => if truthy (item_name d) then Some (item_name d) else None
                    | JStr _ => Some item
                    | _ => None
                    end) items.

(** [_parse_agencies(raw)] *)
Definition _parse_agencies (x : externals) (c : codec) (raw : json) : list json :=
  if negb (truthy raw) then []
  else
    match (match raw with JStr s => loads c s | _ => Some raw end) with
    | None => []
    | Some (JList items) => names_of_items items
    | Some (JDict d) =>
        [py_or (py_or (PyDict.get d "name") (PyDict.get d "raw_name"))
               (JStr (Persistence.py_str x (JDict d)))]
    | Some data => [JStr (Persistence.py_str x data)]
    end.

Definition mapping : list (string * string) :=
  [("environment", "Environment"); ("air", "Air Quality"); ("energy", "Energy");
   ("health", "Health"); ("medicare", "Healthcare"); ("trade", "Trade");
   ("finance", "Finance"); ("tax", "Tax"); ("pesticide", "Pesticide")].

(** [for k, v in mapping.items(): if k in t: return v] and the final
    [return]. *)
Fixpoint first_topic (m : list (string * string)) (t : string) : string :=
  match m with
  | [] => "General"
  | (k, v) :: rest => if PyStr.contains k t then v else first_topic rest t
  end.

(** [_topic_from_title(title)]; [None] is a [NULL] title. *)
Definition _topic_from_title (title : option string) : string :=
  match title with
  | None => "General"
  | Some s => if String.eqb s "" then "General" else first_topic mapping (PyStr.lower s)
  end.

(** [a or b] for a nullable text column [a] and a text [b]. *)
Definition str_or (a : option string) (b : string) : string :=
  match a with
  | Some s => if String.eqb s "" then b else s
  | None => b
  end.

(** [s[:n]]: the first [n] characters. *)
Definition take_chars (n : nat) (s : string) : string :=
  String.concat "" (take n (Fetcher.chars s)).

(** [str(d)] for a [datetime.date]. *)
Definition zfill (width : nat) (s : string) : string :=
  String.concat "" (repeat "0" (width - String.length s)) +:+ s.

Definition iso_date (d : date) : string :=
  match d with
  | (y, m, dd) =>
      zfill 4 (PyStr.str_of_Z y) +:+ "-" +:+ zfill 2 (PyStr.str_of_Z m)
      +:+ "-" +:+ zfill 2 (PyStr.str_of_Z dd)
  end.

(** The dict that [_format_record] returns. *)
Record record : Type := {
  title : string;
  date : string;
  agencies : list json;
  summary : string
}.

(** [_format_record(row)] *)
Definition _format_record (x : externals) (c : codec) (row : Query.hit) : record :=
  {| title := str_or (Query.hit_title row) (str_or (Some (Query.hit_id row)) "(No title)");
     date := match Query.hit_publication_date row with
             | Some d => iso_date d
             | None => ""
             end;
     agencies := _parse_agencies x c
                   (match Query.hit_agencies row with
                    | Some j => column_value c j
                    | None => JNull
                    end);
     summary := take_chars 600
                  (str_or (Query.hit_excerpt row)
                          (str_or (Query.hit_abstract row) "No summary available")) |}.

(** [grouped.setdefault(topic, []).append(item)] *)
Fixpoint add_to_group (grouped : list (string * list record)) (topic : string)
         (item : record) : list (string * list record) :=
  match grouped with
  | [] => [(topic, [item])]
  | (t, items) :: rest =>
      if String.eqb t topic then (t, items ++ [item]) :: rest
      else (t, items) :: add_to_group rest topic item
  end.

(** The dict [grouped] after the loop over the rows. *)
Definition group_rows (x : externals) (c : codec) (rows : list Query.hit)
  : list (string * list record) :=
  fold_left (fun grouped r =>
               add_to_group grouped (_topic_from_title (Query.hit_title r))
                            (_format_record x c r))
            rows [].

Definition nl : string := String (ascii_of_nat 10) "".

Definition as_str (j : json) : option string :=
  match j with JStr s => Some s | _ => None end.

(** [", ".join(it["agencies"]) if it["agencies"] else "Unknown"]; [None]
    is the [TypeError] of [join] on an item that is not a string. *)
Definition agencies_text (l : list json) : option string :=
  match l with
  | [] => Some "Unknown"
  | _ => match mapM as_str l with
         | Some names => Some (PyStr.join ", " names)
         | None => None
         end
  end.

Definition item_text (it : record) : option string :=
  match agencies_text (agencies it) with
  | Some a =>
      Some ("### " +:+ title it +:+ nl
            +:+ "📅 **Date**: " +:+ date it +:+ nl
            +:+ "🏛️ **Agencies**: " +:+ a +:+ nl
            +:+ "📝 **Summary**: " +:+ summary it +:+ nl +:+ nl)
  | None => None
  end.

Definition section_text (g : string * list record) : option string :=
  match mapM item_text (snd g) with
  | Some items => Some ("## 🗂️ " +:+ fst g +:+ nl +:+ nl +:+ String.concat "" items)
  | None => None
  end.

Definition header : string := "# 📚 Federal Register Search Results" +:+ nl +:+ nl.

Definition footer : string := "---" +:+ nl +:+ "*Use `help` for search tips.*".

Definition no_results : string := "No relevant regulations found.".

(** [run] from the rows on. *)
Definition render (x : externals) (c : codec) (rows : list Query.hit) : outcome string :=
  match rows with
  | [] => Returned no_results
  | _ =>
      match mapM section_text (group_rows x c rows) with
      | Some sections => Returned (header +:+ String.concat "" sections +:+ footer)
      | None => Raised
      end
  end.

(** [run(query, filters, limit)] *)
Definition run (x : externals) (c : codec) (d : db) (query : string)
           (agency : option string) (limit : Z) : outcome string :=
  render x c (Query._query_mysql x d query agency limit).

End Presentation.


(** An agency item of the shape that the listing delivers: a string, or
    an object whose [name] is not an array. *)
Definition plain_item (item : json) : Prop :=
  match item with
  | JDict d => match PyDict.lookup d "name" with
               | Some (JList _) => False
               | _ => True
               end
  | JList _ => False
  | _ => True
  end.

Definition plain_agencies (j : json) : Prop :=
  match j with
  | JList items => Forall plain_item items
  | _ => plain_item j
  end.

(** The codec gives back the document of a JSON column. *)
Definition round_trip (c : Presentation.codec) (j : json) : Prop :=
  exists text, Presentation.column_value c j = JStr text /\ text <> ""
               /\ Presentation.loads c text = Some j.

(** The text of which [_format_record] takes the summary. *)
Definition summary_source (row : Query.hit) : string :=
  Presentation.str_or (Query.hit_excerpt row)
    (Presentation.str_or (Query.hit_abstract row) "No summary available").

(** Whether an agency list can be joined. *)
Definition all_strings (l : list json) : bool :=
  forallb (fun j => match j with JStr _ => true | _ => false end) l.


(** [len(s)]: the number of characters. *)
Definition char_count (s : string) : nat := length (Fetcher.chars s).

(** The bytes of one character: a byte, then continuation bytes only;
    [char_bytes] also asks that the first byte is not a continuation
    byte. *)
Fixpoint all_continuation (s : string) : bool :=
  match s with
  | EmptyString => true
  | String c r => Fetcher.is_continuation c && all_continuation r
  end.

Definition char_tail (ch : string) : bool :=
  match ch with
  | String _ r => all_continuation r
  | EmptyString => false
  end.

Definition char_bytes (ch : string) : bool :=
  match ch with
  | String c r => negb (Fetcher.is_continuation c) && all_continuation r
  | EmptyString => false
  end.


(** ** [agent/database_helpers.py] *)

Module Helpers.

Definition STOPWORDS : list string :=
  ["the"; "and"; "for"; "with"; "that"; "this"; "from"; "are"; "was";
   "have"; "has"; "will"; "shall"; "notice"; "of"; "to"; "in"; "a"; "an";
   "on"; "by"; "us"; "u.s"; "u.s."; "u.s.a"; "be"; "is"; "as"].

(** [re.sub(r"[^A-Za-z0-9'\-]+", ' ', text)]: every maximal run of
    characters outside the class becomes one space.  The class is the
    one of the token expression of [chat]. *)
Fixpoint sub_go (in_run : bool) (s : string) : string :=
  match s with
  | EmptyString => EmptyString
  | String c r =>
      if Intent.is_token_char c then String c (sub_go false r)
      else if in_run then sub_go true r
      else String " " (sub_go true r)
  end.

Definition sub_other (text : string) : string := sub_go false text.

(** [t.strip("'\-")]: the apostrophe, the backslash and the hyphen are
    taken off both ends. *)
Definition is_edge (c : ascii) : bool :=
  Ascii.eqb c "'" || Ascii.eqb c "\" || Ascii.eqb c "-".

Fixpoint lstrip_edge (s : string) : string :=
  match s with
  | EmptyString => EmptyString
  | String c r => if is_edge c then lstrip_edge r else s
  end.

Fixpoint rstrip_edge (s : string) : string :=
  match s with
  | EmptyString => EmptyString
  | String c r =>
      match rstrip_edge r with
      | EmptyString => if is_edge c then EmptyString else String c EmptyString
      | r' => String c r'
      end
  end.

Definition strip_edge (s : string) : string := rstrip_edge (lstrip_edge s).

(** [_tokenize(text)] *)
Definition _tokenize (text : string) : list string :=
  if String.eqb text "" then []
  else map strip_edge (PyStr.split (PyStr.lower (sub_other text))).

(** A [Counter]: the counts, in the order in which the keys came in. *)
Definition counter : Type := list (string * nat).

(** [c[t] += 1] *)
Fixpoint bump (c : counter) (t : string) : counter :=
  match c with
  | [] => [(t, 1)]
  | (k, n) :: rest => if String.eqb k t then (k, S n) :: rest else (k, n) :: bump rest t
  end.

(** The two tests that a token passes to be counted. *)
Definition counted (min_len : nat) (t : string) : bool :=
  negb ((String.length t <? min_len)%nat || existsb (String.eqb t) STOPWORDS)
  && negb (PyStr.isdigit t).

(** The body of [for (title,) in rows]. *)
Definition count_title (min_len : nat) (c : counter) (title : string) : counter :=
  if String.eqb title "" then c
  else fold_left (fun c t => if counted min_len t then bump c t else c)
                 (_tokenize title) c.

(** [Counter.most_common(n)]: the items by falling count, items of equal
    count in the order in which they came in, and of these the first
    [n]. *)
Fixpoint insert_by_count (x : string * nat) (l : counter) : counter :=
  match l with
  | [] => [x]
  | y :: rest => if (snd y <=? snd x)%nat then x :: y :: rest
                 else y :: insert_by_count x rest
  end.

Definition most_common (n : nat) (c : counter) : counter :=
  take n (foldr insert_by_count [] c).

(** [get_top_keywords(conn, n, min_len)] on the titles that the
    statement returns, in the order in which the server returns them;
    [None]: the statement raised. *)
Definition get_top_keywords (titles : option (list string)) (n min_len : nat)
  : list string :=
  match titles with
  | None => []
  | Some rows => map fst (most_common n (fold_left (count_title min_len) rows []))
  end.

End Helpers.

(** How often a token that is counted occurs in the titles. *)
Definition occurrences (min_len : nat) (titles : list string) (t : string) : nat :=
  count_occ string_dec
            (List.filter (Helpers.counted min_len) (flat_map Helpers._tokenize titles)) t.

(** The groups of [rows] by [T], each row formatted by [F]. *)
Definition grouping (T : Query.hit -> string) (F : Query.hit -> Presentation.record)
           (rows : list Query.hit) (g : list (string * list Presentation.record)) : Prop :=
  NoDup (map fst g)
  /\ (forall t items, (t, items) ∈ g ->
        items <> []
        /\ items = map F (List.filter (fun r => String.eqb (T r) t) rows))
  /\ (forall r, r ∈ rows -> T r ∈ map fst g)
  /\ concat (map snd g) ≡ₚ map F rows.


(** A counter holds the counts of the tokens [toks]: its keys are
    distinct, each with the number of its occurrences, and every token
    that occurs is a key. *)
Definition counts_of (c : Helpers.counter) (toks : list string) : Prop :=
  NoDup (map fst c)
  /\ (forall t n, (t, n) ∈ c -> n = count_occ string_dec toks t /\ 0 < n)
  /\ (forall t, 0 < count_occ string_dec toks t -> t ∈ map fst c).

(** Items by falling count. *)
Definition by_count : relation (string * nat) := fun a b => snd b <= snd a.


(** ** [create_indexes] *)

Module Indexing.

Import Store.

Definition title_index_sql : string :=
  "ALTER TABLE documents ADD FULLTEXT idx_ft_title_abstract_excerpt (title, abstract, excerpt)".

Definition raw_json_index_sql : string :=
  "ALTER TABLE documents ADD FULLTEXT idx_ft_rawjson (raw_json)".

Definition title_index_columns : list string := ["title"; "abstract"; "excerpt"].

Definition raw_json_index_columns : list string := ["raw_json"].

(** The column list of the [MATCH] of [_query_mysql]. *)
Definition match_columns : list string := ["title"; "abstract"; "excerpt"; "raw_json"].

(** [try: cursor.execute(sql) except Exception: ...] *)
Definition try_execute (x : externals) (sql : string) (d : db) : db :=
  match cursor_execute x sql [] d with
  | Some d' => d'
  | None => d
  end.

(** [create_indexes()]: the two statements, each in its own [try]; a
    failure of the connection, or of the commit that follows the
    statements (which the server has carried out by then), is logged. *)
Definition create_indexes (x : externals) (d : db) : db :=
  if connect_ok x
  then try_execute x raw_json_index_sql (try_execute x title_index_sql d)
  else d.

(** The two rules of the server that matter here: [ADD FULLTEXT] adds an
    index on the columns of the statement and leaves the rows as they
    are, and [MATCH] needs a fulltext index on exactly its column list. *)
Definition server_adds_indexes (x : externals) : Prop :=
  forall d d',
    (mysql_exec x title_index_sql [] d = Some d' ->
     fulltext_indexes d' = fulltext_indexes d ++ [title_index_columns]
     /\ documents d' = documents d)
    /\ (mysql_exec x raw_json_index_sql [] d = Some d' ->
        fulltext_indexes d' = fulltext_indexes d ++ [raw_json_index_columns]
        /\ documents d' = documents d).

Definition server_match_rule (x : externals) : Prop :=
  forall d q, match_columns ∉ fulltext_indexes d -> mysql_match x d q = None.

End Indexing.

Module SampleServer.

Import Store.

Definition add_index (cols : list string) (d : db) : db :=
  {| documents := documents d; agency_rows := agency_rows d;
     fulltext_indexes := fulltext_indexes d ++ [cols] |}.

(** A server that adds the indexes it is asked for and refuses a [MATCH]
    without an index on its column list. *)
Definition strict : externals :=
  {| mysql_num_eq := fun _ _ => false;
     mysql_exec := fun sql _ d =>
       if String.eqb sql Indexing.title_index_sql
       then Some (add_index Indexing.title_index_columns d)
       else if String.eqb sql Indexing.raw_json_index_sql
       then Some (add_index Indexing.raw_json_index_columns d)
       else Some d;
     mysql_match := fun d _ =>
       if bool_decide (Indexing.match_columns ∈ fulltext_indexes d)
       then Some (fun _ => true) else None;
     connect_ok := true;
     probe_ok := true;
     commit_ok := true;
     py_repr := fun _ => "" |}.

(** The same server refusing the probe statement of [_query_mysql], as
    MySQL does: its [SHOW INDEX] takes a [WHERE] and no [LIMIT]. *)
Definition refusing_probe : externals :=
  {| mysql_num_eq := mysql_num_eq strict;
     mysql_exec := mysql_exec strict;
     mysql_match := mysql_match strict;
     connect_ok := true;
     probe_ok := false;
     commit_ok := true;
     py_repr := py_repr strict |}.

(** A codec that delivers every document as the text [[]] and parses no
    text. *)
Definition no_codec : Presentation.codec :=
  {| Presentation.loads := fun _ => None;
     Presentation.column_value := fun _ => JStr "[]" |}.

End SampleServer.


Module SampleTitles.

Definition titles : list string :=
  ["Pesticide Tolerances for Apples"; "Pesticide Residue: Notice of Filing";
   "Tolerances - 2024 update"].

(** A snapshot with the top keywords of [titles]. *)
Definition snapshot : Intent.meta :=
  {| Intent.keywords := Helpers.get_top_keywords (Some titles) 30 4;
     Intent.agencies := [];
     Intent.document_types := [] |}.

(** The agency list of [SampleRows.older_row] and a codec that delivers
    it as its text and parses that text. *)
Definition epa : json := JList [JDict [("name", JStr "Environmental Protection Agency")]].

Definition epa_codec : Presentation.codec :=
  {| Presentation.loads := fun s => if String.eqb s (PyJson.dumps false epa)
                                    then Some epa else None;
     Presentation.column_value := fun j => JStr (PyJson.dumps false j) |}.

End SampleTitles.


(** A text of the digits [0-9] and the letters [a-f]. *)
Definition is_hex_char (c : ascii) : bool :=
  PyStr.is_digit c || ((97 <=? PyStr.byte_of c)%Z && (PyStr.byte_of c <=? 102)%Z).

Fixpoint hex_text (s : string) : bool :=
  match s with
  | EmptyString => true
  | String c r => is_hex_char c && hex_text r
  end.


(** The two calls of the main block of [pipeline/federal_register.py],
    after the constructor: [docs = p.fetch_documents(days_back=30,
    per_page=100)] and [p.process_documents(docs)].  [None]: the
    pagination loop did not end within [fuel] iterations; [Raised]:
    [fetch_documents] raised. *)
Definition fetch_and_process (fuel : nat) (e : Fetcher.env) (x : Store.externals)
           (d : Store.db) : option (outcome Persistence.run) :=
  match Fetcher.fetch_documents fuel e 100 None 3 with
  | None => None
  | Some Raised => Some Raised
  | Some (Returned docs) => Some (Returned (Persistence.process_documents x d docs))
  end.


(* ===================================================================== *)
(** * Part II: properties                                                 *)
(* ===================================================================== *)

(** ** The model on known values *)

(** SHA-256 of the empty text, of [abc] and of a text of two blocks. *)
Lemma sha256_known_answers :
  Sha256.hexdigest ""
  = "e3b0c44298fc1c149afbf4c8996fb92427ae41e4649b934ca495991b7852b855"
  /\ Sha256.hexdigest "abc"
     = "ba7816bf8f01cfea414140de5dae2223b00361a396177a9cb410ff61f20015ad"
  /\ Sha256.hexdigest "abcdbcdecdefdefgefghfghighijhijkijkljklmklmnlmnomnopnopq"
     = "248d6a61d20638b8e5c026930c3e6039a33ce45964ff2167f6ecedd419db06c1".
Proof. repeat split; vm_compute; reflexivity. Qed.

(** [json.dumps] writes numbers, constants and lists as Python does, and
    without [sort_keys] the text follows the insertion order. *)
Lemma dumps_known_answers :
  PyJson.dumps true (JList [JInt 1; JInt (-20); JNull; JBool true; JFloat "1.5"; JList []])
  = "[1, -20, null, true, 1.5, []]"
  /\ PyJson.dumps true (JDict []) = "{}"
  /\ PyJson.dumps false SampleRuns.doc_listed <> PyJson.dumps false SampleRuns.doc_reordered
  /\ PyJson.dumps true SampleRuns.doc_listed = PyJson.dumps true SampleRuns.doc_reordered.
Proof. repeat split; vm_compute; congruence. Qed.

(** The dates that [strptime] accepts and refuses. *)
Lemma strptime_known_answers :
  map Persistence.strptime_ymd
      ["2024-01-05"; "2024-1-5"; "2024-02-29"; "2023-02-29"; "2024-13-01";
       "2024-01-05x"; "024-01-05"; "2024-01-32"; "0000-01-01"; "2024-01"]
  = [true; true; true; false; false; false; false; false; false; false].
Proof. vm_compute. reflexivity. Qed.

(** [LIKE] on a few patterns. *)
Lemma like_known_answers :
  map (fun ps => Query.like (fst ps) (snd ps))
      [("%pest%", "The PESTicide rule"); ("%pest%", "pes t"); ("_", "a"); ("_", "ab");
       ("%_%", ""); ("a\%b", "a%b"); ("a\%b", "axb"); ("a%b", "axxxb"); ("%%%", "")]
  = [true; false; true; false; false; true; false; true; true].
Proof. vm_compute. reflexivity. Qed.

(** The upsert statement against its values. *)
Lemma marker_counts :
  Store.count_markers Persistence.insert_sql = 19
  /\ Store.count_markers Persistence.agency_sql = 3
  /\ length (Persistence.values SampleDocs.idle_server SampleDocs.notice_fields
                                (JStr "2024-00001") "") = 20.
Proof. repeat split; vm_compute; reflexivity. Qed.

(** ** Digest determinism *)

Section Digest.

Import PyJson.

#[local] Instance key_le_trans {A} : Transitive (@key_le A).
Proof. intros a b c; unfold key_le; intros; etrans; eauto. Qed.

#[local] Instance key_le_total {A} : Total (@key_le A).
Proof. intros a b; unfold key_le; apply total, _. Qed.

Lemma NoDup_fst_functional {A} (l : list (string * A)) k v1 v2 :
  NoDup (map fst l) -> (k, v1) ∈ l -> (k, v2) ∈ l -> v1 = v2.
Proof.
  induction l as [|[k' v'] l IH]; simpl; intros Hnd H1 H2.
  - inv H1.
  - apply NoDup_cons in Hnd as [Hk Hnd].
    apply elem_of_cons in H1 as [H1|H1]; apply elem_of_cons in H2 as [H2|H2].
    + congruence.
    + inv H1. exfalso; apply Hk. apply (list_elem_of_fmap_2 fst) in H2. exact H2.
    + inv H2. exfalso; apply Hk. apply (list_elem_of_fmap_2 fst) in H1. exact H1.
    + eauto.
Qed.

(** Sorting by key forgets the order in which distinct keys arrived. *)
Lemma sort_items_Permutation {A} (l1 l2 : list (string * A)) :
  NoDup (map fst l1) -> l1 ≡ₚ l2 -> sort_items l1 = sort_items l2.
Proof.
  intros Hnd Hp. unfold sort_items.
  apply (Sorted_unique_strong key_le).
  - intros [k1 v1] [k2 v2] H1 H2 H12 H21. unfold key_le in *; simpl in *.
    assert (k1 = k2) by (apply (anti_symm String.le); assumption). subst k2.
    f_equal. apply (NoDup_fst_functional l1 k1); [assumption| |].
    + by rewrite merge_sort_Permutation in H1.
    + by rewrite merge_sort_Permutation, <- Hp in H2.
  - apply Sorted_merge_sort, _.
  - apply Sorted_merge_sort, _.
  - by rewrite !merge_sort_Permutation.
Qed.

Lemma json_size_list_elem x l : In x l -> json_size x < json_size (JList l).
Proof.
  induction l as [|y l IH]; simpl; [tauto|].
  intros [->|H]; [lia|]. specialize (IH H). simpl in IH. lia.
Qed.

Lemma json_size_dict_elem k v d : In (k, v) d -> json_size v < json_size (JDict d).
Proof.
  induction d as [|[k' v'] d IH]; simpl; [tauto|].
  intros [H|H]; [inv H; lia|]. specialize (IH H). simpl in IH. lia.
Qed.

Lemma wf_json_list_elem x l : wf_json (JList l) -> In x l -> wf_json x.
Proof.
  induction l as [|y l IH]; simpl; [tauto|].
  intros [Hy Hl] [->|H]; [assumption|]. apply IH; assumption.
Qed.

Lemma wf_json_dict_elem k v d : wf_json (JDict d) -> In (k, v) d -> wf_json v.
Proof.
  intros [_ H]. induction d as [|[k' v'] d IH]; simpl; [tauto|].
  destruct H as [Hv Hd]. intros [E|E]; [inv E; assumption|]. apply IH; assumption.
Qed.

Lemma Forall2_map_eq {A B C} (R : A -> B -> Prop) (f : A -> C) (g : B -> C) l1 l2 :
  (forall x y, In x l1 -> R x y -> f x = g y) ->
  Forall2 R l1 l2 -> map f l1 = map g l2.
Proof.
  intros Hf H. induction H as [|x y l1 l2 Hxy H IH]; simpl; [reflexivity|].
  f_equal; [apply Hf; simpl; auto|]. apply IH. intros; apply Hf; simpl; auto.
Qed.

Lemma lt_below (a b n : nat) : a < b -> b < S n -> a < n.
Proof. lia. Qed.

Lemma dumps_same_content n :
  forall j1 j2, json_size j1 < n -> wf_json j1 -> same_content j1 j2 ->
                dumps true j1 = dumps true j2.
Proof.
  induction n as [|n IH]; intros j1 j2 Hn Hwf Hs; [lia|].
  inversion Hs as [| | | | |l1 l2 Hl|d1 d1' d2 Hp Hd]; subst; try reflexivity.
  - simpl. do 3 f_equal.
    apply (Forall2_map_eq same_content); [|assumption].
    intros x y Hx Hxy. apply IH; [|eauto using wf_json_list_elem|assumption].
    eapply lt_below; [apply (json_size_list_elem x l1 Hx)|exact Hn].
  - assert (He : map encode_item d1' = map encode_item d2).
    { apply (Forall2_map_eq (fun a b => fst a = fst b /\ same_content (snd a) (snd b)));
        [|assumption].
      intros [k v] [k' v'] Hx [Hk Hv]; simpl in *; subst k'. f_equal.
      assert (Hin : In (k, v) d1).
      { apply list_elem_of_In. rewrite Hp. by apply list_elem_of_In. }
      apply IH; [|eauto using wf_json_dict_elem|assumption].
      eapply lt_below; [apply (json_size_dict_elem k v d1 Hin)|exact Hn]. }
    change (dumps true (JDict d1)) with
      ("{" +:+ PyStr.join ", "
             (map (fun kv => encode_str (fst kv) +:+ ": " +:+ snd kv)
                  (sort_items (map encode_item d1))) +:+ "}").
    change (dumps true (JDict d2)) with
      ("{" +:+ PyStr.join ", "
             (map (fun kv => encode_str (fst kv) +:+ ": " +:+ snd kv)
                  (sort_items (map encode_item d2))) +:+ "}").
    rewrite <- He. do 4 f_equal.
    apply sort_items_Permutation.
    + destruct Hwf as [Hnd _].
      replace (map fst (map encode_item d1)) with (map fst d1); [assumption|].
      rewrite map_map. apply map_ext. intros [k v]; reflexivity.
    + by apply Permutation_map.
Qed.

End Digest.

(** C2. Digest determinism: two well-formed document records with the same
    keys and values, whatever the insertion order of their fields (at any
    depth), have the same content digest. *)
Theorem digest_determinism (doc1 doc2 : json) :
  wf_json doc1 -> same_content doc1 doc2 ->
  Persistence._compute_content_hash doc1 = Persistence._compute_content_hash doc2.
Proof.
  intros Hwf Hs. unfold Persistence._compute_content_hash. f_equal.
  apply (dumps_same_content (S (json_size doc1))); auto.
Qed.

(** ** Pagination, retries and enrichment *)

Section Pagination.

Import Fetcher.
Local Open Scope Z_scope.

Variables (e : env) (per_page : Z) (max_pages : option Z) (max_retries : Z).

Lemma paginate_break fuel st st' :
  cap_exceeded max_pages (page st) = false ->
  request e per_page max_retries st = Break st' ->
  paginate (S fuel) e per_page max_pages max_retries st = Some st'.
Proof. intros Hc Hr. simpl. rewrite Hc, Hr. reflexivity. Qed.

Lemma paginate_continue fuel st st' :
  cap_exceeded max_pages (page st) = false ->
  request e per_page max_retries st = Continue st' ->
  paginate (S fuel) e per_page max_pages max_retries st
  = paginate fuel e per_page max_pages max_retries st'.
Proof. intros Hc Hr. simpl. rewrite Hc, Hr. reflexivity. Qed.

(** A page with fewer results than [per_page] is the last request. *)
Lemma request_short_page st data rs :
  listing e (length (requested st)) (page st) = Body (JDict data) ->
  PyDict.lookup data "results" = Some (JList rs) ->
  Z.of_nat (length rs) < per_page ->
  exists st', request e per_page max_retries st = Break st'
              /\ requested st' = requested st ++ [page st]
              /\ all_shallow st' = all_shallow st ++ rs.
Proof.
  intros Hl Hres Hlen. unfold request. rewrite Hl, Hres.
  destruct rs as [|r rs]; cbn [truthy negb py_iter].
  - eexists; repeat split; simpl; auto using app_nil_r.
  - destruct (write_page e (page st)).
    + destruct (Z.ltb_spec (Z.of_nat (length (r :: rs))) per_page) as [_|Hge];
        [|lia].
      eexists; repeat split.
    + eexists; repeat split.
Qed.

(** A full page that could be written moves on to the next page. *)
Lemma request_full_page st data rs :
  listing e (length (requested st)) (page st) = Body (JDict data) ->
  PyDict.lookup data "results" = Some (JList rs) ->
  rs <> [] ->
  per_page <= Z.of_nat (length rs) ->
  write_page e (page st) = true ->
  request e per_page max_retries st
  = Continue {| all_shallow := all_shallow st ++ rs; page := page st + 1; retries := 0;
                requested := requested st ++ [page st]; sleeps := sleeps st;
                written := written st ++ [page st] |}.
Proof.
  intros Hl Hres Hne Hlen Hw. unfold request. rewrite Hl, Hres.
  destruct rs as [|r rs]; [congruence|]. cbn [truthy negb py_iter]. rewrite Hw.
  destruct (Z.ltb_spec (Z.of_nat (length (r :: rs))) per_page) as [Hlt|_];
    [lia|]. reflexivity.
Qed.

(** A response that is not a dict with a [results] key is the last
    request, and adds nothing. *)
Lemma request_invalid st data :
  listing e (length (requested st)) (page st) = Body data ->
  (forall d, data = JDict d -> PyDict.lookup d "results" = None) ->
  exists st', request e per_page max_retries st = Break st'
              /\ requested st' = requested st ++ [page st]
              /\ all_shallow st' = all_shallow st.
Proof.
  intros Hl Hinv. unfold request. rewrite Hl.
  destruct data as [| | | | | |d]; try (eexists; repeat split; fail).
  rewrite (Hinv d eq_refl). eexists; repeat split.
Qed.

(** A transient failure within the retry budget asks for the same page
    again after sleeping [2 ^ retries]. *)
Lemma request_retry st :
  transient (listing e (length (requested st)) (page st)) ->
  retries st + 1 < max_retries ->
  request e per_page max_retries st
  = Continue {| all_shallow := all_shallow st; page := page st;
                retries := retries st + 1;
                requested := requested st ++ [page st];
                sleeps := sleeps st ++ [2 ^ (retries st + 1)];
                written := written st |}.
Proof.
  intros [Hl|Hl] Hr; unfold request; rewrite Hl;
    destruct (Z.leb_spec max_retries (retries st + 1)); try lia; reflexivity.
Qed.

(** A transient failure that uses up the budget ends the loop and keeps
    what was accumulated. *)
Lemma request_give_up st :
  transient (listing e (length (requested st)) (page st)) ->
  max_retries <= retries st + 1 ->
  request e per_page max_retries st
  = Break {| all_shallow := all_shallow st; page := page st;
             retries := retries st + 1;
             requested := requested st ++ [page st];
             sleeps := sleeps st; written := written st |}.
Proof.
  intros [Hl|Hl] Hr; unfold request; rewrite Hl;
    destruct (Z.leb_spec max_retries (retries st + 1)); try lia; reflexivity.
Qed.

End Pagination.

Section Enrichment.

Import Fetcher.

Lemma submit_all_numbered shallow :
  Forall is_dict shallow -> submit_all shallow = Some (numbered shallow).
Proof.
  induction 1 as [|doc shallow Hd _ IH]; [reflexivity|].
  destruct doc; try contradiction. simpl. rewrite IH.
  unfold numbered at 1. simpl. destruct (truthy (doc_number items)); reflexivity.
Qed.

Lemma numbered_filter shallow :
  map fst (numbered shallow) = List.filter has_number shallow.
Proof.
  induction shallow as [|doc shallow IH]; [reflexivity|].
  unfold numbered in *. destruct doc; simpl; try exact IH.
  destruct (truthy (doc_number items)); simpl; [f_equal|]; exact IH.
Qed.

(** Visiting the tasks in submission order gives one result per task. *)
Lemma task_results_in_order e pre l :
  omap (task_result e (pre ++ l)) (seq (length pre) (length l))
  = imap (fun i => enriched e (length pre + i)) l.
Proof.
  revert pre. induction l as [|x l IH]; intros pre; [reflexivity|].
  simpl. unfold task_result at 1.
  rewrite nth_error_app2, Nat.sub_diag by lia. simpl. destruct x as [doc num].
  unfold enriched at 1. simpl. rewrite Nat.add_0_r. f_equal.
  replace (pre ++ (doc, num) :: l) with ((pre ++ [(doc, num)]) ++ l)
    by (by rewrite <- app_assoc).
  replace (S (length pre)) with (length (pre ++ [(doc, num)]))
    by (rewrite length_app; simpl; lia).
  etrans; [exact (IH (pre ++ [(doc, num)]))|]. apply imap_ext. intros i y _. simpl.
  rewrite length_app. simpl. f_equal. lia.
Qed.

(** The enrichment stage on dict records: one merged record per record
    that has a document number, in completion order. *)
Lemma enrich_returns e shallow :
  Forall is_dict shallow ->
  completion e (length (numbered shallow)) ≡ₚ seq 0 (length (numbered shallow)) ->
  write_full e = true ->
  exists out, enrich e shallow = Returned out
              /\ out ≡ₚ imap (enriched e) (numbered shallow).
Proof.
  intros Hd Hp Hw. unfold enrich.
  destruct shallow as [|doc shallow]; [exists []; split; reflexivity|].
  rewrite (submit_all_numbered _ Hd), Hw.
  set (fs := numbered (doc :: shallow)) in *.
  eexists; split; [reflexivity|].
  rewrite Hp. pose proof (task_results_in_order e [] fs) as H.
  simpl in H. rewrite H. reflexivity.
Qed.

Lemma lookup_set d k v k' :
  PyDict.lookup (PyDict.set d k v) k'
  = if String.eqb k k' then Some v else PyDict.lookup d k'.
Proof.
  induction d as [|[k0 v0] d IH]; simpl.
  - reflexivity.
  - destruct (String.eqb_spec k0 k) as [->|Hne]; simpl.
    + destruct (String.eqb_spec k k'); reflexivity.
    + destruct (String.eqb_spec k0 k') as [->|Hne'].
      * destruct (String.eqb_spec k k'); [congruence|reflexivity].
      * exact IH.
Qed.

Lemma lookup_absent (f : PyDict.t) k :
  k ∉ map fst f -> PyDict.lookup f k = None.
Proof.
  induction f as [|[k0 v0] f IH]; simpl; [reflexivity|]. intros Hk.
  apply not_elem_of_cons in Hk as [Hne Hk].
  destruct (String.eqb_spec k0 k); [congruence|auto].
Qed.

(** The merge rule: a field of the detail record wins, any other field
    of the shallow record stays. *)
Lemma lookup_merge (s f : PyDict.t) k :
  NoDup (map fst f) ->
  PyDict.lookup (PyDict.merge s f) k
  = match PyDict.lookup f k with
    | Some v => Some v
    | None => PyDict.lookup s k
    end.
Proof.
  unfold PyDict.merge. revert s.
  induction f as [|[k0 v0] f IH]; intros s Hnd; [reflexivity|].
  apply NoDup_cons in Hnd as [Hk Hnd]. simpl. rewrite (IH _ Hnd), lookup_set.
  destruct (String.eqb_spec k0 k) as [->|Hne].
  - rewrite (lookup_absent f k Hk). reflexivity.
  - reflexivity.
Qed.

Lemma merged_failure e i doc num :
  (forall j, detail e i num <> Body j) ->
  enriched e i (doc, num) = doc.
Proof.
  intros Hf. unfold enriched, fetch_full_document. simpl.
  destruct (detail e i num) as [j| | |]; [destruct (Hf j eq_refl)|..];
    destruct doc; reflexivity.
Qed.

End Enrichment.

Section PaginationClaims.

Import Fetcher.
Local Open Scope Z_scope.

Lemma nonempty_of_length {A} (l : list A) (n : nat) :
  length l = S n -> l <> [].
Proof. destruct l; simpl; congruence. Qed.

(** C3. Pagination termination: the loop makes no request after a page
    with fewer results than [per_page], none once the page number is
    above a configured [max_pages], and none after a response that is
    not a dict with a [results] key; on stub pages of 100, 100 and 45
    records with [per_page = 100] it requests pages 1, 2, 3 and no
    other, and accumulates the 245 records. *)
Theorem pagination_termination :
  (forall e per_page max_pages max_retries st fuel data rs,
      cap_exceeded max_pages (page st) = false ->
      listing e (length (requested st)) (page st) = Body (JDict data) ->
      PyDict.lookup data "results" = Some (JList rs) ->
      Z.of_nat (length rs) < per_page ->
      exists st',
        paginate (S fuel) e per_page max_pages max_retries st = Some st'
        /\ requested st' = requested st ++ [page st]
        /\ all_shallow st' = all_shallow st ++ rs)
  /\ (forall e per_page max_retries st fuel m,
         m <> 0 -> m < page st ->
         paginate (S fuel) e per_page (Some m) max_retries st = Some st)
  /\ (forall e per_page max_pages max_retries st fuel data,
         cap_exceeded max_pages (page st) = false ->
         listing e (length (requested st)) (page st) = Body data ->
         (forall d, data = JDict d -> PyDict.lookup d "results" = None) ->
         exists st',
           paginate (S fuel) e per_page max_pages max_retries st = Some st'
           /\ requested st' = requested st ++ [page st]
           /\ all_shallow st' = all_shallow st)
  /\ (forall e max_retries fuel data1 data2 data3 rs1 rs2 rs3,
         listing e 0 1 = Body (JDict data1) ->
         listing e 1 2 = Body (JDict data2) ->
         listing e 2 3 = Body (JDict data3) ->
         PyDict.lookup data1 "results" = Some (JList rs1) ->
         PyDict.lookup data2 "results" = Some (JList rs2) ->
         PyDict.lookup data3 "results" = Some (JList rs3) ->
         length rs1 = 100%nat -> length rs2 = 100%nat -> length rs3 = 45%nat ->
         write_page e 1 = true -> write_page e 2 = true ->
         exists st,
           paginate (S (S (S fuel))) e 100 None max_retries init = Some st
           /\ requested st = [1; 2; 3]
           /\ all_shallow st = rs1 ++ rs2 ++ rs3
           /\ length (all_shallow st) = 245%nat).
Proof.
  repeat apply conj.
  - intros e per_page max_pages max_retries st fuel data rs Hc Hl Hres Hlen.
    destruct (request_short_page e per_page max_retries st data rs Hl Hres Hlen)
      as (st' & Hr & Hq & Ha).
    exists st'. split; [|split]; [|assumption..].
    eapply paginate_break; eauto.
  - intros e per_page max_retries st fuel m Hm Hlt. simpl.
    destruct (Z.eqb_spec m 0); [contradiction|].
    destruct (Z.ltb_spec m (page st)); [reflexivity|lia].
  - intros e per_page max_pages max_retries st fuel data Hc Hl Hinv.
    destruct (request_invalid e per_page max_retries st data Hl Hinv)
      as (st' & Hr & Hq & Ha).
    exists st'. split; [|split]; [|assumption..].
    eapply paginate_break; eauto.
  - intros e max_retries fuel data1 data2 data3 rs1 rs2 rs3
           Hl1 Hl2 Hl3 Hr1 Hr2 Hr3 Hn1 Hn2 Hn3 Hw1 Hw2.
    erewrite paginate_continue;
      [|reflexivity
       |eapply (request_full_page e 100 max_retries init data1 rs1);
        eauto using nonempty_of_length; rewrite Hn1; lia].
    erewrite paginate_continue;
      [|reflexivity
       |eapply (request_full_page _ 100 max_retries _ data2 rs2);
        eauto using nonempty_of_length; rewrite Hn2; lia].
    match goal with
    | |- exists st, paginate _ _ _ _ _ ?s = _ /\ _ =>
        destruct (request_short_page e 100 max_retries s data3 rs3)
          as (st' & Hr & Hq & Ha); [exact Hl3|exact Hr3|rewrite Hn3; lia|]
    end.
    exists st'. split; [eapply paginate_break; eauto|].
    split; [exact Hq|]. split; [rewrite Ha; simpl; by rewrite <- app_assoc|].
    rewrite Ha. simpl. rewrite !length_app, Hn1, Hn2, Hn3. reflexivity.
Qed.

(** C4. Retry bound and partial success: a transient failure leaves the
    page number and the accumulated records as they are and, within the
    budget, sleeps 2^retries seconds before asking again; with
    [max_retries = 3] a page that fails three times in a row is
    requested exactly three times (sleeping 2 and 4 seconds), after
    which the loop ends with the records of the earlier pages, which
    [fetch_documents] goes on to enrich and return (one merged record
    for each of them that has a document number). *)
Theorem retry_bound_partial_success :
  (forall e per_page max_retries st,
      transient (listing e (length (requested st)) (page st)) ->
      exists st',
        (request e per_page max_retries st = Continue st'
         /\ retries st + 1 < max_retries
         /\ sleeps st' = sleeps st ++ [2 ^ (retries st + 1)]
         \/ request e per_page max_retries st = Break st'
            /\ max_retries <= retries st + 1
            /\ sleeps st' = sleeps st)
        /\ page st' = page st
        /\ retries st' = retries st + 1
        /\ all_shallow st' = all_shallow st
        /\ requested st' = requested st ++ [page st])
  /\ (forall e per_page max_pages st fuel,
         cap_exceeded max_pages (page st) = false ->
         retries st = 0 ->
         (forall i, (i < 3)%nat ->
                    transient (listing e (length (requested st) + i) (page st))) ->
         exists st',
           paginate (S (S (S fuel))) e per_page max_pages 3 st = Some st'
           /\ requested st' = requested st ++ [page st; page st; page st]
           /\ sleeps st' = sleeps st ++ [2; 4]
           /\ all_shallow st' = all_shallow st)
  /\ (forall e per_page fuel data1 rs1,
         listing e 0 1 = Body (JDict data1) ->
         PyDict.lookup data1 "results" = Some (JList rs1) ->
         rs1 <> [] -> per_page <= Z.of_nat (length rs1) ->
         write_page e 1 = true ->
         (forall i, (i < 3)%nat -> transient (listing e (1 + i) 2)) ->
         fetch_documents (S (S (S (S fuel)))) e per_page None 3
         = Some (enrich e rs1)
         /\ (Forall is_dict rs1 ->
             completion e (length (numbered rs1)) ≡ₚ seq 0 (length (numbered rs1)) ->
             write_full e = true ->
             exists out,
               fetch_documents (S (S (S (S fuel)))) e per_page None 3
               = Some (Returned out)
               /\ out ≡ₚ imap (enriched e) (numbered rs1))).
Proof.
  repeat apply conj.
  - intros e per_page max_retries st Ht.
    destruct (Z.lt_ge_cases (retries st + 1) max_retries) as [Hlt|Hge].
    + eexists. split; [left; split; [apply request_retry; assumption|]|];
        repeat split; assumption.
    + eexists. split; [right; split; [apply request_give_up; assumption|]|];
        repeat split; assumption.
  - intros e per_page max_pages st fuel Hc Hr Ht.
    pose proof (Ht 0%nat ltac:(lia)) as H0. rewrite Nat.add_0_r in H0.
    erewrite paginate_continue; [|exact Hc|apply request_retry; [exact H0|lia]].
    erewrite paginate_continue; [|exact Hc|apply request_retry; simpl].
    2:{ rewrite length_app; simpl. apply (Ht 1%nat); lia. }
    2:{ lia. }
    erewrite paginate_break; [|exact Hc|apply request_give_up; simpl].
    2:{ rewrite !length_app; simpl. rewrite <- Nat.add_assoc. apply (Ht 2%nat); lia. }
    2:{ lia. }
    eexists; split; [reflexivity|]. simpl. rewrite Hr.
    repeat split; by rewrite <- ?app_assoc.
  - intros e per_page fuel data1 rs1 Hl Hres Hne Hlen Hw Ht.
    assert (Hrun : fetch_documents (S (S (S (S fuel)))) e per_page None 3
                   = Some (enrich e rs1)); [|split; [exact Hrun|]].
    2:{ intros Hd Hp Hwf.
        destruct (enrich_returns e rs1 Hd Hp Hwf) as (out & Ho & Hperm).
        exists out. split; [by rewrite Hrun, Ho|exact Hperm]. }
    unfold fetch_documents.
    erewrite paginate_continue;
      [|reflexivity|eapply (request_full_page e per_page 3 init data1 rs1); eauto].
    erewrite paginate_continue; [|reflexivity|apply request_retry; simpl].
    2:{ apply (Ht 0%nat); lia. }
    2:{ lia. }
    erewrite paginate_continue; [|reflexivity|apply request_retry; simpl].
    2:{ apply (Ht 1%nat); lia. }
    2:{ lia. }
    erewrite paginate_break; [|reflexivity|apply request_give_up; simpl].
    2:{ apply (Ht 2%nat); lia. }
    2:{ lia. }
    reflexivity.
Qed.

End PaginationClaims.


(** C7 (amended). Enrichment of a list of shallow records (dicts): every
    record that has a document number appears exactly once in the output,
    whatever the order in which the detail requests complete, as the
    shallow record overlaid with the detail record requested for that
    number (a detail field wins over a shallow field of the same key,
    other shallow fields stay), and unmodified when its detail request
    fails. *)
Theorem enrichment_merge_rule (e : Fetcher.env) (shallow : list json) :
  Forall is_dict shallow ->
  Fetcher.completion e (length (numbered shallow))
    ≡ₚ seq 0 (length (numbered shallow)) ->
  Fetcher.write_full e = true ->
  (exists out,
      Fetcher.enrich e shallow = Returned out
      /\ out ≡ₚ imap (enriched e) (numbered shallow))
  /\ map fst (numbered shallow) = List.filter has_number shallow
  /\ (forall i s num f k,
         Fetcher.detail e i num = Fetcher.Body (JDict f) -> NoDup (map fst f) ->
         exists m, enriched e i (JDict s, num) = JDict m
                   /\ PyDict.lookup m k = match PyDict.lookup f k with
                                          | Some v => Some v
                                          | None => PyDict.lookup s k
                                          end)
  /\ (forall i doc num,
         (forall j, Fetcher.detail e i num <> Fetcher.Body j) ->
         enriched e i (doc, num) = doc).
Proof.
  intros Hd Hp Hw. split; [|split; [|split]].
  - apply enrich_returns; assumption.
  - apply numbered_filter.
  - intros i s num f k Hdet Hnd. exists (PyDict.merge s f). split.
    + unfold enriched, Fetcher.fetch_full_document. simpl. rewrite Hdet.
      destruct f; reflexivity.
    + apply lookup_merge; assumption.
  - intros. apply merged_failure; assumption.
Qed.

(** C7, as stated, fails: a shallow record that has neither
    [document_number] nor [id] is left out of the output. *)
Lemma enrichment_drops_unnumbered_record :
  Fetcher.enrich Sample.offline [Sample.unnumbered] = Returned []
  /\ ~ In Sample.unnumbered [].
Proof. split; [reflexivity|intros []]. Qed.

(** ** Persistence *)

Section PersistenceFacts.

Import Store Persistence.
Local Open Scope Z_scope.

Variable x : externals.

Lemma convert_params_length params vs :
  convert_params params = Some vs -> length vs = length params.
Proof.
  revert vs. induction params as [|p params IH]; simpl; intros vs H.
  - inv H. reflexivity.
  - destruct (to_mysql p); [|discriminate].
    destruct (convert_params params) as [vs'|]; [|discriminate].
    inv H. simpl. f_equal. apply IH. reflexivity.
Qed.

(** The upsert statement has 19 markers, and [values] 20 entries. *)
Lemma insert_sql_markers : count_markers insert_sql = 19%nat.
Proof. vm_compute. reflexivity. Qed.

Lemma values_length d doc_num h : length (values x d doc_num h) = 20%nat.
Proof. reflexivity. Qed.

(** Hence the upsert never reaches the server. *)
Lemma upsert_raises d doc_num h st :
  cursor_execute x insert_sql (values x d doc_num h) st = None.
Proof.
  unfold cursor_execute.
  destruct (convert_params (values x d doc_num h)) as [vs|] eqn:E; [|reflexivity].
  apply convert_params_length in E. rewrite values_length in E.
  rewrite insert_sql_markers, E. reflexivity.
Qed.

(** What the body of the loop does to one dict, case by case. *)
Lemma process_dict_cases d st :
  let skipped := {| store := store st; processed_count := processed_count st;
                    skipped_count := skipped_count st + 1 |} in
  process_dict x d st = (NoNumber, skipped)
  \/ process_dict x d st = (Failed, skipped)
  \/ process_dict x d st = (Unchanged, st).
Proof.
  unfold process_dict.
  destruct (truthy (Fetcher.doc_number d)); simpl; [|auto].
  destruct (select_content_hash x (store st) (Fetcher.doc_number d)) as [row|]; [|auto].
  match goal with |- context [if ?c then _ else _] => destruct c end; [auto|].
  rewrite upsert_raises. auto.
Qed.

(** A document that has no row yet goes down the upsert path, and
    fails there. *)
Lemma process_dict_new_document d st :
  truthy (Fetcher.doc_number d) = true ->
  select_content_hash x (store st) (Fetcher.doc_number d) = Some None ->
  process_dict x d st
  = (Failed, {| store := store st; processed_count := processed_count st;
                skipped_count := skipped_count st + 1 |}).
Proof.
  intros Ht Hs. unfold process_dict. rewrite Ht, Hs. cbn [negb].
  rewrite upsert_raises. reflexivity.
Qed.

Lemma process_dict_store d st : store (snd (process_dict x d st)) = store st.
Proof.
  destruct (process_dict_cases d st) as [H|[H|H]]; rewrite H; reflexivity.
Qed.

Lemma process_loop_store docs : forall st st',
  process_loop x docs st = Some st' -> store st' = store st.
Proof.
  induction docs as [|doc docs IH]; intros st st' H; simpl in H.
  - inv H. reflexivity.
  - destruct doc; try discriminate.
    rewrite (IH _ _ H). apply process_dict_store.
Qed.

(** No call of [process_documents] changes the store. *)
Lemma process_documents_store d docs :
  store_after d (process_documents x d docs) = d.
Proof.
  unfold process_documents. destruct docs as [|doc docs]; [reflexivity|].
  destruct (connect_ok x); [|reflexivity].
  destruct (process_loop x (doc :: docs) _) as [st|] eqn:E; [|reflexivity].
  destruct (commit_ok x); [|reflexivity].
  simpl. apply (process_loop_store _ _ _ E).
Qed.

Lemma count_verdict_cons v w l :
  count_verdict v (w :: l) = (if verdict_eqb v w then 1 else 0) + count_verdict v l.
Proof.
  unfold count_verdict. simpl. destruct (verdict_eqb v w); simpl length; lia.
Qed.

Lemma process_loop_counts docs : forall st st',
  process_loop x docs st = Some st' ->
  length (verdicts x docs st) = length docs
  /\ processed_count st' = processed_count st + count_verdict Upserted (verdicts x docs st)
  /\ skipped_count st'
     = skipped_count st + count_verdict NoNumber (verdicts x docs st)
       + count_verdict Failed (verdicts x docs st).
Proof.
  induction docs as [|doc docs IH]; intros st st' H; simpl in H.
  - inv H. unfold count_verdict; simpl. repeat split; lia.
  - destruct doc; try discriminate.
    destruct (IH _ _ H) as (Hl & Hp & Hs). simpl verdicts.
    rewrite !count_verdict_cons, Hp, Hs. simpl length. rewrite Hl.
    destruct (process_dict_cases items st) as [E|[E|E]]; rewrite E; simpl;
      repeat split; lia.
Qed.

End PersistenceFacts.

(** C9. Skip accounting: a document whose recomputed digest equals the
    digest stored for its id is skipped without any write and without
    touching either counter; over a batch [processed_count] counts the
    upserts and [skipped_count] the documents without number and the
    failures, so the documents skipped as unchanged are those that neither
    count includes. *)
Theorem unchanged_skip_accounting (x : Store.externals) :
  (forall d st h,
      truthy (Fetcher.doc_number d) = true ->
      Store.select_content_hash x (Persistence.store st) (Fetcher.doc_number d)
      = Some (Some (Some h)) ->
      h = Persistence._compute_content_hash (JDict d) ->
      Persistence.process_dict x d st = (Persistence.Unchanged, st))
  /\ (forall docs st st',
         Persistence.process_loop x docs st = Some st' ->
         let vs := verdicts x docs st in
         length vs = length docs
         /\ Persistence.processed_count st'
            = (Persistence.processed_count st + count_verdict Persistence.Upserted vs)%Z
         /\ Persistence.skipped_count st'
            = (Persistence.skipped_count st + count_verdict Persistence.NoNumber vs
               + count_verdict Persistence.Failed vs)%Z).
Proof.
  split.
  - intros d st h Ht Hs ->. unfold Persistence.process_dict.
    rewrite Ht, Hs, String.eqb_refl. reflexivity.
  - intros docs st st' H. apply process_loop_counts. exact H.
Qed.

(** C1, on the code: the upsert statement has 19 markers for its 20
    values, so the first pass over a new document stores nothing; on the
    second pass no digest is found for it and the document goes down the
    upsert path again, where it fails, instead of being skipped as
    unchanged. *)
Theorem second_pass_finds_no_digest (x : Store.externals) :
  let after_first :=
    Persistence.store_after Store.empty
      (Persistence.process_documents x Store.empty [SampleDocs.notice]) in
  after_first = Store.empty
  /\ Store.select_content_hash x after_first (JStr "2024-00001") = Some None
  /\ fst (Persistence.process_dict x SampleDocs.notice_fields
            {| Persistence.store := after_first;
               Persistence.processed_count := 0;
               Persistence.skipped_count := 0 |})
     = Persistence.Failed.
Proof.
  cbv zeta. rewrite process_documents_store.
  split; [reflexivity|]. split; [reflexivity|].
  rewrite process_dict_new_document; reflexivity.
Qed.

(** C8, on the code: processing a document with the agencies EPA and FDA
    leaves the agencies relation without any row for it, since the
    upsert that precedes the agency inserts raises. *)
Theorem agencies_not_inserted (x : Store.externals) :
  Store.agency_rows
    (Persistence.store_after Store.empty
       (Persistence.process_documents x Store.empty [SampleDocs.rule]))
  = []
  /\ verdicts x [SampleDocs.rule]
       {| Persistence.store := Store.empty;
          Persistence.processed_count := 0;
          Persistence.skipped_count := 0 |}
     = [Persistence.Failed].
Proof.
  rewrite process_documents_store. split; [reflexivity|].
  cbn [verdicts SampleDocs.rule].
  rewrite process_dict_new_document; reflexivity.
Qed.

(** ** Search *)

Section Search.

Import Store Query.
Local Open Scope Z_scope.

Lemma like_percent p s :
  like (String "%" p) s
  = like p s || match s with
                | EmptyString => false
                | String _ s' => like (String "%" p) s'
                end.
Proof. destruct s; reflexivity. Qed.

Lemma like_literal c p s :
  Ascii.eqb c "%" = false -> Ascii.eqb c "_" = false -> Ascii.eqb c "\" = false ->
  like (String c p) s
  = match s with
    | String a s' => ci_eqb a c && like p s'
    | EmptyString => false
    end.
Proof. intros H1 H2 H3. simpl. rewrite H1, H2, H3. reflexivity. Qed.

Lemma like_any s : like "%" s = true.
Proof.
  induction s as [|a s IH]; [reflexivity|].
  rewrite like_percent, IH. apply orb_true_r.
Qed.

(** A pattern made of a wildcard-free text and a final percent sign
    matches the strings that start with the text, case ignored. *)
Lemma like_prefix q : forall s,
  no_wildcards q = true ->
  like (q +:+ "%") s = PyStr.startswith (PyStr.lower q) (PyStr.lower s).
Proof.
  induction q as [|c q IH]; intros s Hq.
  - simpl String.append. rewrite like_any. reflexivity.
  - simpl in Hq. apply andb_true_iff in Hq as [Hq Hq'].
    apply andb_true_iff in Hq as [Hq H3]. apply andb_true_iff in Hq as [H1 H2].
    apply negb_true_iff in H1, H2, H3.
    change (String c q +:+ "%") with (String c (q +:+ "%")).
    rewrite (like_literal c _ s H1 H2 H3).
    destruct s as [|a s]; [reflexivity|]. simpl. rewrite (IH s Hq').
    unfold ci_eqb.
    destruct (ascii_dec (PyStr.lower_char c) (PyStr.lower_char a)) as [E|E].
    + rewrite E, Ascii.eqb_refl. reflexivity.
    + destruct (Ascii.eqb_spec (PyStr.lower_char a) (PyStr.lower_char c));
        [exfalso; congruence|reflexivity].
Qed.

(** The fallback pattern of a wildcard-free query matches the strings
    that contain the query, case ignored. *)
Lemma like_contains q s :
  no_wildcards q = true ->
  like ("%" +:+ q +:+ "%") s = ci_contains q s.
Proof.
  intros Hq. change ("%" +:+ q +:+ "%") with (String "%" (q +:+ "%")).
  unfold ci_contains.
  induction s as [|a s IH].
  - rewrite like_percent, like_prefix by assumption. reflexivity.
  - rewrite like_percent, like_prefix, IH by assumption. reflexivity.
Qed.

Lemma fallback_where_contains q r :
  no_wildcards q = true ->
  fallback_where ("%" +:+ q +:+ "%") r = some_column_contains q r.
Proof.
  intros Hq. unfold fallback_where, some_column_contains, like_col, column_contains.
  destruct (title r), (abstract r), (excerpt r), (full_text r), (raw_json r);
    rewrite ?like_contains by assumption; reflexivity.
Qed.

Lemma date_leb_total a b : date_leb a b = true \/ date_leb b a = true.
Proof.
  destruct a as [[y1 m1] d1], b as [[y2 m2] d2]. unfold date_leb.
  rewrite !orb_true_iff, !andb_true_iff, !orb_true_iff, !andb_true_iff,
    !Z.ltb_lt, !Z.eqb_eq, !Z.leb_le. lia.
Qed.

Lemma date_leb_trans a b c :
  date_leb a b = true -> date_leb b c = true -> date_leb a c = true.
Proof.
  destruct a as [[y1 m1] d1], b as [[y2 m2] d2], c as [[y3 m3] d3]. unfold date_leb.
  rewrite !orb_true_iff, !andb_true_iff, !orb_true_iff, !andb_true_iff,
    !Z.ltb_lt, !Z.eqb_eq, !Z.leb_le. lia.
Qed.

#[local] Instance newer_first_total : Total newer_first.
Proof.
  intros a b. unfold newer_first, odate_leb.
  destruct (publication_date a), (publication_date b); auto using date_leb_total.
Qed.

#[local] Instance newer_first_trans : Transitive newer_first.
Proof.
  intros a b c. unfold newer_first, odate_leb.
  destruct (publication_date a), (publication_date b), (publication_date c);
    try congruence; eauto using date_leb_trans.
Qed.

Lemma ordered_desc rows : StronglySorted newer_first (order_by_publication_date_desc rows).
Proof. apply StronglySorted_merge_sort; apply _. Qed.

Lemma StronglySorted_take {A} (R : relation A) n l :
  StronglySorted R l -> StronglySorted R (take n l).
Proof.
  intros H. rewrite <- (take_drop n l) in H. by apply StronglySorted_app_1_l in H.
Qed.

Lemma selected_rows_sorted x d query agency lim :
  StronglySorted newer_first (selected_rows x d query agency lim).
Proof.
  unfold selected_rows. destruct (connect_ok x); [|constructor].
  destruct (text_where x d (PyStr.strip query)); [|constructor].
  destruct ((lim <? 0) || (max_limit <? lim)); [constructor|].
  apply StronglySorted_take, ordered_desc.
Qed.

Lemma hits_sorted rows :
  StronglySorted newer_first rows ->
  StronglySorted hit_newer_first (map select_columns rows).
Proof.
  induction 1 as [|r rows _ IH Hr]; simpl; constructor; [exact IH|].
  apply Forall_forall. intros h Hh. apply list_elem_of_In, in_map_iff in Hh as (r' & <- & Hr').
  rewrite Forall_forall in Hr. apply Hr. by apply list_elem_of_In.
Qed.

(** In fallback mode the text condition is the [LIKE] disjunction. *)
Lemma text_where_fallback x d q :
  q <> "" -> probe_ok x = false \/ fulltext_indexes d = [] ->
  text_where x d q = Some (fallback_where ("%" +:+ q +:+ "%")).
Proof.
  intros Hq Hf. unfold text_where.
  destruct (String.eqb_spec q ""); [contradiction|]. simpl.
  destruct Hf as [->| ->]; [reflexivity|]. destruct (probe_ok x); reflexivity.
Qed.

Lemma selected_rows_satisfy x d query agency lim cond r :
  text_where x d (PyStr.strip query) = Some cond ->
  In r (selected_rows x d query agency lim) ->
  In r (documents d) /\ cond r = true /\ agency_where agency r = true.
Proof.
  intros Hc. unfold selected_rows. rewrite Hc.
  destruct (connect_ok x); [|intros []].
  destruct ((lim <? 0) || (max_limit <? lim)); [intros []|].
  intros Hin. apply list_elem_of_In, elem_of_take in Hin as (i & Hi & _).
  apply list_elem_of_lookup_2 in Hi. unfold order_by_publication_date_desc in Hi.
  rewrite merge_sort_Permutation in Hi.
  apply list_elem_of_In, filter_In in Hi as [Hd Hb].
  apply andb_true_iff in Hb. tauto.
Qed.

Lemma limit_in_range lim :
  0 <= lim <= max_limit -> (lim <? 0) || (max_limit <? lim) = false.
Proof.
  intros H. apply orb_false_iff. split; [apply Z.ltb_ge|apply Z.ltb_ge]; lia.
Qed.

(** With a limit that the server takes, the statement returns the first
    rows of the ordered selection. *)
Lemma selected_rows_take x d query agency lim cond :
  text_where x d (PyStr.strip query) = Some cond ->
  connect_ok x = true -> 0 <= lim <= max_limit ->
  selected_rows x d query agency lim
  = take (Z.to_nat lim)
         (order_by_publication_date_desc
            (List.filter (fun r => cond r && agency_where agency r) (documents d))).
Proof.
  intros Hc Hconn Hlim. unfold selected_rows.
  by rewrite Hconn, Hc, limit_in_range.
Qed.

(** The percent sign stands for any run of characters. *)
Lemma like_percent_run p s :
  like (String "%" p) s = true <-> exists n, like p (PyStr.drop n s) = true.
Proof.
  induction s as [|c s IH].
  - rewrite like_percent, orb_false_r. split.
    + intros H. by exists O.
    + intros [n H]. by destruct n.
  - rewrite like_percent, orb_true_iff, IH. split.
    + intros [H|[n H]]; [by exists O|by exists (S n)].
    + intros [[|n] H]; [by left|right; by exists n].
Qed.

Lemma skip_continuation_plain s : collation_text s = true -> skip_continuation s = s.
Proof.
  destruct s as [|c s]; [reflexivity|]. unfold collation_text. simpl.
  intros H. apply andb_true_iff in H as [H _].
  assert (Hc : Fetcher.is_continuation c = false).
  { unfold Fetcher.is_continuation, collation_char in *.
    apply andb_false_iff. rewrite !Z.leb_gt.
    apply orb_true_iff in H as [H|H]; apply andb_true_iff in H as [H1 H2];
      apply Z.leb_le in H1, H2; lia. }
  by rewrite Hc.
Qed.

(** The underscore stands for one character. *)
Lemma like_underscore_one p s :
  collation_text s = true ->
  (like (String "_" p) s = true <-> exists c s', s = String c s' /\ like p s' = true).
Proof.
  intros Hs. change (like (String "_" p) s)
    with (match skip_char s with Some s' => like p s' | None => false end).
  destruct s as [|c s]; simpl.
  - split; [discriminate|]. intros (c & s' & H & _). discriminate H.
  - assert (Ht : collation_text s = true).
    { unfold collation_text in *. simpl in Hs. by apply andb_true_iff in Hs as [_ Hs]. }
    rewrite (skip_continuation_plain s Ht). split.
    + intros H. by exists c, s.
    + intros (c' & s' & Heq & H). by injection Heq as <- <-.
Qed.

End Search.

(** C5 (amended). Fallback search and ordering, for a query and stored
    texts of printable ASCII characters (on which the tables' collation
    compares as [Query.ci_eqb] does) and a limit that the server takes:
    when no fulltext index is present (or the probe fails) and the
    stripped query is non-empty and has no percent sign, underscore or
    backslash, [_query_mysql] returns only documents of which the title,
    abstract, excerpt, full text or raw payload contains the query as a
    case-insensitive substring, namely the first [limit] of all such
    documents (that pass the agency filter) in descending order of
    publication date.  A percent sign or an underscore in the query acts
    as a wildcard: the rows returned are those of which a searched
    column matches the pattern made of the query between two percent
    signs, where a percent sign stands for any run of characters and an
    underscore for any one character; so the query [%] finds every text
    and the query [_] every text that is not empty.  In every search
    mode the returned rows are the first [limit] of the rows that the
    text condition of that mode and the agency filter select, taken in
    descending order of publication date; they are always in that order
    and never more than [limit]. *)
Theorem fallback_search_ordering (x : Store.externals) (d : Store.db)
        (query : string) (agency : option string) (lim : Z) :
  let q := PyStr.strip query in
  (collation_text query = true ->
   (forall r, In r (Store.documents d) -> collation_row r = true) ->
   (q <> "" -> no_wildcards q = true ->
    Store.probe_ok x = false \/ Store.fulltext_indexes d = [] ->
    (forall r, In r (Query.selected_rows x d query agency lim) ->
               In r (Store.documents d) /\ some_column_contains q r = true)
    /\ (Store.connect_ok x = true -> (0 <= lim <= Query.max_limit)%Z ->
        exists full,
          full ≡ₚ List.filter (fun r => some_column_contains q r
                                        && Query.agency_where agency r)
                              (Store.documents d)
          /\ StronglySorted Query.newer_first full
          /\ Query.selected_rows x d query agency lim = take (Z.to_nat lim) full))
   /\ (q <> "" ->
       Store.probe_ok x = false \/ Store.fulltext_indexes d = [] ->
       forall r, In r (Query.selected_rows x d query agency lim) ->
                 In r (Store.documents d)
                 /\ Query.fallback_where ("%" +:+ q +:+ "%") r = true)
   /\ (forall p s,
          collation_text p = true -> collation_text s = true ->
          (Query.like (String "%" p) s = true
           <-> exists n, Query.like p (PyStr.drop n s) = true)
          /\ (Query.like (String "_" p) s = true
              <-> exists c s', s = String c s' /\ Query.like p s' = true)
          /\ Query.like ("%" +:+ "%" +:+ "%") s = true
          /\ Query.like ("%" +:+ "_" +:+ "%") s = negb (String.eqb s ""))
   /\ (forall cond,
          Query.text_where x d q = Some cond ->
          Store.connect_ok x = true -> (0 <= lim <= Query.max_limit)%Z ->
          exists full,
            full ≡ₚ List.filter (fun r => cond r && Query.agency_where agency r)
                                (Store.documents d)
            /\ StronglySorted Query.newer_first full
            /\ Query.selected_rows x d query agency lim = take (Z.to_nat lim) full))
  /\ StronglySorted hit_newer_first (Query._query_mysql x d query agency lim)
  /\ length (Query._query_mysql x d query agency lim) <= Z.to_nat lim.
Proof.
  intros q. split; [|split].
  - intros _ _. split; [|split; [|split]].
    + intros Hq Hw Hf.
      pose proof (text_where_fallback x d q Hq Hf) as Hc. split.
      * intros r Hr.
        destruct (selected_rows_satisfy x d query agency lim _ r Hc Hr) as (Hd & Hr' & _).
        split; [exact Hd|]. by rewrite <- fallback_where_contains.
      * intros Hconn Hlim.
        exists (Query.order_by_publication_date_desc
                  (List.filter (fun r => some_column_contains q r
                                         && Query.agency_where agency r)
                               (Store.documents d))).
        split; [apply merge_sort_Permutation|]. split; [apply ordered_desc|].
        rewrite (selected_rows_take x d query agency lim _ Hc Hconn Hlim).
        do 2 f_equal. apply List.filter_ext. intros r.
        by rewrite fallback_where_contains.
    + intros Hq Hf r Hr.
      pose proof (text_where_fallback x d q Hq Hf) as Hc.
      destruct (selected_rows_satisfy x d query agency lim _ r Hc Hr) as (Hd & Hr' & _).
      by split.
    + intros p s _ Hs. split; [apply like_percent_run|].
      split; [by apply like_underscore_one|]. split.
      * change ("%" +:+ "%" +:+ "%") with (String "%" "%%").
        apply like_percent_run. exists O. apply like_percent_run. exists O. apply like_any.
      * change ("%" +:+ "_" +:+ "%") with (String "%" (String "_" "%")).
        destruct s as [|c s]; [reflexivity|].
        change (negb (String.eqb (String c s) "")) with true.
        apply like_percent_run. exists O. apply like_underscore_one; [exact Hs|].
        exists c, s. split; [reflexivity|apply like_any].
    + intros cond Hc Hconn Hlim.
      exists (Query.order_by_publication_date_desc
                (List.filter (fun r => cond r && Query.agency_where agency r)
                             (Store.documents d))).
      split; [apply merge_sort_Permutation|]. split; [apply ordered_desc|].
      by apply selected_rows_take.
  - apply hits_sorted, selected_rows_sorted.
  - unfold Query._query_mysql, Query.selected_rows. rewrite length_map.
    destruct (Store.connect_ok x); [|simpl; lia].
    destruct (Query.text_where x d (PyStr.strip query)); [|simpl; lia].
    destruct ((lim <? 0) || (Query.max_limit <? lim))%Z; [simpl; lia|].
    rewrite length_take. lia.
Qed.

(** C5, as stated, fails: the query [%] makes the fallback statement
    return a document none of whose searched columns contains a percent
    sign. *)
Lemma wildcard_query_matches_unrelated_document :
  Query.selected_rows SampleDocs.idle_server SampleDocs.store_with_notice "%" None 25
  = [SampleDocs.notice_row]
  /\ some_column_contains "%" SampleDocs.notice_row = false.
Proof. split; vm_compute; reflexivity. Qed.

(** ** The intent gate *)

Section Gate.

Import Intent.

Lemma accepts_iff n r : accepts n r = true <-> meets_threshold n r.
Proof.
  unfold accepts, meets_threshold.
  rewrite orb_true_iff, !andb_true_iff, !Qle_bool_iff, Nat.leb_le, Nat.ltb_lt.
  reflexivity.
Qed.

Lemma dispatch_falls_through ps msg lower :
  command msg lower = None -> dispatch ps msg lower = None.
Proof.
  intros H. induction ps as [|p ps IH]; simpl; [reflexivity|].
  destruct (_ || _); assumption.
Qed.

Lemma command_none msg lower :
  PyStr.startswith "recent" lower = false ->
  PyStr.startswith "find " lower = false ->
  PyStr.startswith "search " lower = false ->
  lower <> "help" ->
  command msg lower = None.
Proof.
  intros H1 H2 H3 H4. unfold command. rewrite H1, H2, H3.
  destruct (String.eqb_spec lower "help"); [contradiction|reflexivity].
Qed.

(** Past the commands, [chat] is the gate. *)
Lemma chat_gate m message :
  PyStr.strip message <> "" ->
  command (PyStr.strip message) (PyStr.strip (PyStr.lower (PyStr.strip message))) = None ->
  chat m message = gate m (PyStr.strip (PyStr.lower (PyStr.strip message))).
Proof.
  intros Hne Hc. unfold chat.
  destruct (String.eqb_spec (PyStr.strip message) ""); [contradiction|].
  rewrite (dispatch_falls_through _ _ _ Hc). reflexivity.
Qed.

Lemma gate_decides m lower :
  findall lower <> [] ->
  gate m lower
  = if accepts (length (findall lower))
               (overlap_ratio (list_to_set (findall lower)) (domain_tokens m))
    then Run lower None 25 else Text refusal_message.
Proof. unfold gate. destruct (findall lower); [congruence|reflexivity]. Qed.

Lemma search_prefix_excludes lower :
  PyStr.startswith "search " lower = true ->
  PyStr.startswith "recent" lower = false /\ PyStr.startswith "find " lower = false.
Proof.
  destruct lower as [|c lower]; [discriminate|].
  change (PyStr.startswith "search " (String c lower))
    with (if ascii_dec "s" c then PyStr.startswith "earch " lower else false).
  destruct (ascii_dec "s" c) as [<-|]; [|discriminate]. intros _. split; reflexivity.
Qed.

(** An input that starts with the search command goes to the search,
    whatever the snapshot holds. *)
Lemma chat_search m message :
  PyStr.startswith "search " (PyStr.strip (PyStr.lower (PyStr.strip message))) = true ->
  PyStr.strip (PyStr.drop 7 (PyStr.strip message)) <> "" ->
  chat m message = Run (PyStr.strip (PyStr.drop 7 (PyStr.strip message))) None 25.
Proof.
  intros Hs Hq. unfold chat.
  destruct (String.eqb_spec (PyStr.strip message) "") as [E|_].
  { rewrite E in Hs. discriminate. }
  cbn [cmd_prefixes dispatch]. rewrite Hs, orb_true_r. unfold command.
  destruct (search_prefix_excludes _ Hs) as [-> ->]. rewrite Hs.
  destruct (String.eqb_spec (PyStr.strip (PyStr.drop 7 (PyStr.strip message))) "");
    [contradiction|reflexivity].
Qed.

End Gate.

(** C6. Intent gating thresholds, for messages and snapshots of ASCII
    text (on which [strip], [lower] and the token expression are those
    of Python): an input that is not a command is
    accepted as a search query (the lowercased input is searched) exactly
    when its overlap ratio is at least 0.33 for at most 2 tokens and at
    least 0.18 for more than 2 tokens, and, having a token, is answered
    with the fixed refusal message otherwise; at 2 tokens a ratio
    of 0.33 passes the test and 0.32 does not, at 5 tokens 0.18 passes
    and 0.17 does not; an input that starts with the search command is
    searched whatever the overlap, as is [search pesticide]; and [hello],
    when no domain token equals it, gets the refusal message, which lists
    the four command forms. *)
Theorem intent_gating_thresholds :
  (forall m message,
      let msg := PyStr.strip message in
      let lower := PyStr.strip (PyStr.lower msg) in
      let tokens := Intent.findall lower in
      let ratio := Intent.overlap_ratio (list_to_set tokens) (Intent.domain_tokens m) in
      ascii_text message = true -> ascii_meta m = true ->
      msg <> "" ->
      PyStr.startswith "recent" lower = false ->
      PyStr.startswith "find " lower = false ->
      PyStr.startswith "search " lower = false ->
      lower <> "help" ->
      (Intent.chat m message = Intent.Run lower None 25
       <-> meets_threshold (length tokens) ratio)
      /\ (~ meets_threshold (length tokens) ratio -> tokens <> [] ->
          Intent.chat m message = Intent.Text Intent.refusal_message))
  /\ (Intent.accepts 2 (33 # 100) = true /\ Intent.accepts 2 (32 # 100) = false
      /\ Intent.accepts 5 (18 # 100) = true /\ Intent.accepts 5 (17 # 100) = false)
  /\ (forall m message,
         let msg := PyStr.strip message in
         ascii_text message = true ->
         PyStr.startswith "search " (PyStr.strip (PyStr.lower msg)) = true ->
         PyStr.strip (PyStr.drop 7 msg) <> "" ->
         Intent.chat m message = Intent.Run (PyStr.strip (PyStr.drop 7 msg)) None 25)
  /\ (forall m, Intent.chat m "search pesticide" = Intent.Run "pesticide" None 25)
  /\ (forall m, ascii_meta m = true -> "hello" ∉ Intent.domain_tokens m ->
                Intent.chat m "hello" = Intent.Text Intent.refusal_message)
  /\ forallb (fun form => PyStr.contains form Intent.refusal_message)
             ["`search <keyword>`"; "`find <agency>`"; "`recent <N>`"; "`help`"]
     = true.
Proof.
  split; [|split; [|split; [|split; [|split; [|reflexivity]]]]].
  - intros m message msg lower tokens ratio _ _ Hne H1 H2 H3 H4.
    assert (Hgate : Intent.chat m message = Intent.gate m lower)
      by (apply chat_gate; [exact Hne|by apply command_none]).
    destruct (Intent.findall lower) as [|t ts] eqn:Ht.
    { subst tokens. rewrite Hgate. unfold Intent.gate. rewrite Ht. split.
      - split; [intros H; discriminate H|].
        intros [[_ H]|[H _]]; [|simpl in H; lia].
        exfalso. revert H. unfold ratio, Intent.overlap_ratio. cbn [list_to_set].
        rewrite (left_absorb_L ∅ (∩)), size_empty. by vm_compute.
      - intros _ H. congruence. }
    assert (Hchat : Intent.chat m message
                    = if Intent.accepts (length tokens) ratio
                      then Intent.Run lower None 25
                      else Intent.Text Intent.refusal_message).
    { rewrite Hgate. subst tokens ratio. rewrite <- Ht. apply gate_decides.
      rewrite Ht. discriminate. }
    rewrite Hchat. rewrite <- accepts_iff.
    destruct (Intent.accepts (length tokens) ratio); split.
    + tauto.
    + intros H; exfalso; by apply H.
    + split; intros H; discriminate H.
    + reflexivity.
  - repeat split.
  - intros m message msg _. apply chat_search.
  - intros m. apply (chat_search m "search pesticide"); [reflexivity|discriminate].
  - intros m _ Hh.
    change (Intent.chat m "hello") with (Intent.gate m "hello").
    rewrite gate_decides by discriminate.
    change (Intent.findall "hello") with ["hello"].
    unfold Intent.overlap_ratio.
    replace ((list_to_set ["hello"] : gset string) ∩ Intent.domain_tokens m)
      with (∅ : gset string).
    { rewrite size_empty. reflexivity. }
    symmetry. apply leibniz_equiv, elem_of_equiv_empty. intros y.
    rewrite elem_of_intersection, elem_of_list_to_set, list_elem_of_singleton.
    intros [-> Hy]. contradiction.
Qed.

Section RepeatedWord.

Import Intent.

Ltac ascii_cases c :=
  destruct c as [[] [] [] [] [] [] [] []]; vm_compute; try reflexivity; try discriminate.

Lemma lower_char_not_upper c : PyStr.is_upper (PyStr.lower_char c) = false.
Proof. ascii_cases c. Qed.

Lemma lower_char_id c : PyStr.is_upper c = false -> PyStr.lower_char c = c.
Proof. unfold PyStr.lower_char. intros ->. reflexivity. Qed.

Lemma token_char_not_space c : is_token_char c = true -> PyStr.is_space c = false.
Proof. ascii_cases c. Qed.

Lemma token_char_not_blank c : is_token_char c = true -> Ascii.eqb c " " = false.
Proof. ascii_cases c. Qed.

Lemma append_cons c a b : String c a +:+ b = String c (a +:+ b).
Proof. reflexivity. Qed.

Lemma append_empty_l b : "" +:+ b = b.
Proof. reflexivity. Qed.

Lemma append_empty_r s : s +:+ "" = s.
Proof.
  induction s as [|c s IH]; [reflexivity|]. rewrite append_cons. f_equal. exact IH.
Qed.

Lemma append_assoc a b c : (a +:+ b) +:+ c = a +:+ (b +:+ c).
Proof.
  induction a as [|x a IH]; [reflexivity|]. rewrite !append_cons. f_equal. exact IH.
Qed.

Lemma token_chars_snoc cur c :
  token_chars cur = true -> is_token_char c = true -> PyStr.is_upper c = false ->
  token_chars (cur +:+ String c "") = true.
Proof.
  intros Hcur Hc Hu. induction cur as [|a cur IH].
  - rewrite append_empty_l. simpl. rewrite Hc, Hu. reflexivity.
  - rewrite append_cons. simpl in *.
    apply andb_true_iff in Hcur as [-> Hcur]. simpl. auto.
Qed.

Lemma no_upper_lower s : no_upper (PyStr.lower s) = true.
Proof.
  induction s as [|c s IH]; simpl; [reflexivity|].
  by rewrite lower_char_not_upper, IH.
Qed.

(** The tokens that [findall] finds in a text without capital letters
    are non-empty runs of token characters. *)
Lemma findall_go_elem s : forall cur w,
  no_upper s = true -> token_chars cur = true ->
  In w (findall_go cur s) -> w <> "" /\ token_chars w = true.
Proof.
  induction s as [|c s IH]; intros cur w Hs Hcur; simpl.
  - destruct (String.eqb_spec cur ""); simpl; [tauto|].
    intros [<-|[]]. auto.
  - simpl in Hs. apply andb_true_iff in Hs as [Hc Hs]. apply negb_true_iff in Hc.
    destruct (is_token_char c) eqn:Ht.
    + apply IH; [exact Hs|]. by apply token_chars_snoc.
    + destruct (String.eqb_spec cur ""); simpl.
      * apply IH; auto.
      * intros [<-|H]; [auto|]. revert H. apply IH; auto.
Qed.

Lemma vocabulary_elem l w :
  w ∈ vocabulary l -> w <> "" /\ token_chars w = true.
Proof.
  unfold vocabulary. rewrite elem_of_union_list.
  intros (X & HX & Hw). apply list_elem_of_In, in_map_iff in HX as (k & <- & _).
  apply elem_of_list_to_set, list_elem_of_In in Hw.
  apply (findall_go_elem _ "" w) in Hw; auto using no_upper_lower.
Qed.

Lemma domain_token_shape m w :
  w ∈ domain_tokens m -> w <> "" /\ token_chars w = true.
Proof.
  unfold domain_tokens. rewrite !elem_of_union.
  intros [[H|H]|H]; eauto using vocabulary_elem.
Qed.

Lemma findall_go_word w : forall cur rest,
  token_chars w = true ->
  findall_go cur (w +:+ rest) = findall_go (cur +:+ w) rest.
Proof.
  induction w as [|c w IH]; intros cur rest Hw.
  - by rewrite append_empty_l, append_empty_r.
  - rewrite append_cons. simpl in Hw |- *. apply andb_true_iff in Hw as [Hc Hw].
    apply andb_true_iff in Hc as [Hc _]. rewrite Hc, (IH _ _ Hw).
    by rewrite append_assoc.
Qed.

Lemma repeat_word_step w n :
  repeat_word w (S (S n)) = w +:+ String " " (repeat_word w (S n)).
Proof. reflexivity. Qed.

Lemma findall_repeat_word w n :
  token_chars w = true -> w <> "" ->
  findall (repeat_word w (S n)) = repeat w (S n).
Proof.
  intros Hw Hne. induction n as [|n IH].
  - change (repeat_word w 1) with w. unfold findall.
    rewrite <- (append_empty_r w) at 1. rewrite findall_go_word by assumption.
    rewrite append_empty_l. simpl.
    destruct (String.eqb_spec w ""); [contradiction|reflexivity].
  - rewrite repeat_word_step. unfold findall in *.
    rewrite findall_go_word by assumption.
    rewrite append_empty_l. simpl findall_go at 1.
    destruct (String.eqb_spec w ""); [contradiction|]. rewrite IH. reflexivity.
Qed.

Lemma lower_token w : token_chars w = true -> PyStr.lower w = w.
Proof.
  induction w as [|c w IH]; simpl; [reflexivity|]. intros H.
  apply andb_true_iff in H as [Hc Hw]. apply andb_true_iff in Hc as [_ Hu].
  apply negb_true_iff in Hu. by rewrite lower_char_id, IH.
Qed.

Lemma lower_append a b : PyStr.lower (a +:+ b) = PyStr.lower a +:+ PyStr.lower b.
Proof.
  induction a as [|c a IH]; [reflexivity|]. rewrite append_cons. simpl.
  rewrite append_cons. f_equal. exact IH.
Qed.

Lemma lower_repeat_word w n :
  token_chars w = true -> PyStr.lower (repeat_word w (S n)) = repeat_word w (S n).
Proof.
  intros Hw. induction n as [|n IH].
  - by apply lower_token.
  - rewrite repeat_word_step, lower_append. simpl PyStr.lower at 2.
    rewrite IH, lower_token by assumption. reflexivity.
Qed.

Lemma rstrip_id s : ends_without_space s = true -> PyStr.rstrip s = s.
Proof.
  induction s as [|c s IH]; [discriminate|]. simpl.
  destruct s as [|c' s]; [intros H; apply negb_true_iff in H; by rewrite H|].
  intros H. rewrite (IH H). reflexivity.
Qed.

Lemma ends_without_space_append a b :
  ends_without_space b = true -> ends_without_space (a +:+ b) = true.
Proof.
  intros Hb. induction a as [|c a IH]; [exact Hb|].
  rewrite append_cons. simpl. destruct (a +:+ b) eqn:E; [|exact IH].
  destruct a; [rewrite append_empty_l in E; subst b; discriminate Hb
              |rewrite append_cons in E; discriminate E].
Qed.

Lemma ends_without_space_token w :
  token_chars w = true -> w <> "" -> ends_without_space w = true.
Proof.
  induction w as [|c w IH]; [congruence|]. intros H _. simpl in H.
  apply andb_true_iff in H as [Hc Hw]. apply andb_true_iff in Hc as [Hc _].
  destruct w as [|c' w].
  - simpl. by rewrite token_char_not_space.
  - apply IH; [exact Hw|discriminate].
Qed.

Lemma strip_repeat_word w n :
  token_chars w = true -> w <> "" ->
  PyStr.strip (repeat_word w (S n)) = repeat_word w (S n).
Proof.
  intros Hw Hne. unfold PyStr.strip.
  assert (Hl : PyStr.lstrip (repeat_word w (S n)) = repeat_word w (S n)).
  { destruct w as [|c w]; [congruence|]. simpl in Hw.
    apply andb_true_iff in Hw as [Hc _]. apply andb_true_iff in Hc as [Hc _].
    destruct n; [|rewrite repeat_word_step]; simpl;
      by rewrite (token_char_not_space c Hc). }
  rewrite Hl. clear Hl. apply rstrip_id. induction n as [|n IH].
  - by apply ends_without_space_token.
  - rewrite repeat_word_step. apply ends_without_space_append.
    simpl. destruct (repeat_word w (S n)) eqn:E; [discriminate IH|exact IH].
Qed.

Lemma token_no_space w : token_chars w = true -> no_space w = true.
Proof.
  induction w as [|c w IH]; simpl; [reflexivity|]. intros H.
  apply andb_true_iff in H as [Hc Hw]. apply andb_true_iff in Hc as [Hc _].
  by rewrite token_char_not_blank, IH.
Qed.

Lemma startswith_cons a p b s :
  PyStr.startswith (String a p) (String b s)
  = if ascii_dec a b then PyStr.startswith p s else false.
Proof. reflexivity. Qed.

(** A prefix without a space is found at the start of a spaced text
    exactly when it is found at the start of its first word. *)
Lemma startswith_first_word p : forall w rest,
  no_space p = true ->
  PyStr.startswith p (w +:+ String " " rest) = PyStr.startswith p w.
Proof.
  induction p as [|a p IH]; intros w rest Hp; [reflexivity|].
  simpl in Hp. apply andb_true_iff in Hp as [Ha Hp]. apply negb_true_iff in Ha.
  destruct w as [|b w].
  - rewrite append_empty_l, startswith_cons.
    destruct (ascii_dec a " ") as [->|]; [discriminate Ha|reflexivity].
  - rewrite append_cons, !startswith_cons.
    destruct (ascii_dec a b); [by apply IH|reflexivity].
Qed.

(** A command word followed by a space starts a spaced text exactly
    when it is the first word. *)
Lemma startswith_command p : forall w rest,
  no_space p = true -> no_space w = true ->
  PyStr.startswith (p +:+ " ") (w +:+ String " " rest) = String.eqb p w.
Proof.
  induction p as [|a p IH]; intros w rest Hp Hw.
  - rewrite append_empty_l. destruct w as [|b w]; [reflexivity|].
    rewrite append_cons, startswith_cons. simpl in Hw.
    apply andb_true_iff in Hw as [Hb _]. apply negb_true_iff in Hb.
    destruct (ascii_dec " " b) as [<-|]; [discriminate Hb|reflexivity].
  - simpl in Hp. apply andb_true_iff in Hp as [Ha Hp]. apply negb_true_iff in Ha.
    rewrite append_cons. destruct w as [|b w].
    + rewrite append_empty_l, startswith_cons.
      destruct (ascii_dec a " ") as [->|]; [discriminate Ha|reflexivity].
    + rewrite append_cons, startswith_cons.
      simpl in Hw. apply andb_true_iff in Hw as [_ Hw].
      change (String a p =? String b w)%string
        with (Ascii.eqb a b && (p =? w)%string).
      destruct (ascii_dec a b) as [<-|Hne].
      * rewrite Ascii.eqb_refl. by apply IH.
      * destruct (Ascii.eqb_spec a b); [contradiction|reflexivity].
Qed.

Lemma spaced_text_not_word w rest : forall p,
  no_space p = true -> w +:+ String " " rest <> p.
Proof.
  induction w as [|b w IH]; intros p Hp; (destruct p as [|a p]; [discriminate|]);
    simpl in Hp; apply andb_true_iff in Hp as [Ha Hp]; apply negb_true_iff in Ha;
    rewrite ?append_empty_l, ?append_cons; intros E; inv E.
  eapply IH; [exact Hp|reflexivity].
Qed.

Lemma command_repeat_word w n :
  token_chars w = true ->
  PyStr.startswith "recent" w = false -> w <> "find" -> w <> "search" ->
  command (repeat_word w (S (S n))) (repeat_word w (S (S n))) = None.
Proof.
  intros Hw Hr Hf Hs. rewrite repeat_word_step.
  pose proof (token_no_space w Hw) as Hns. apply command_none.
  - by rewrite startswith_first_word.
  - change "find " with ("find" +:+ " "). rewrite startswith_command by auto.
    destruct (String.eqb_spec "find" w); congruence.
  - change "search " with ("search" +:+ " "). rewrite startswith_command by auto.
    destruct (String.eqb_spec "search" w); congruence.
  - by apply spaced_text_not_word.
Qed.

Lemma set_of_repeat (w : string) n :
  (list_to_set (repeat w (S n)) : gset string) = {[ w ]}.
Proof.
  induction n as [|n IH].
  - simpl. apply (right_id_L ∅ (∪)).
  - change (repeat w (S (S n))) with (w :: repeat w (S n)).
    cbn [list_to_set]. rewrite IH. apply (idemp_L (∪)).
Qed.

Lemma ratio_of_repeat m (w : string) n :
  w ∈ domain_tokens m ->
  overlap_ratio (list_to_set (repeat w (S n))) (domain_tokens m) = 1 # 1.
Proof.
  intros Hw. unfold overlap_ratio. rewrite set_of_repeat.
  replace ({[w]} ∩ domain_tokens m) with ({[w]} : gset string).
  - rewrite size_singleton. reflexivity.
  - apply leibniz_equiv. intros y.
    rewrite elem_of_intersection, elem_of_singleton. split; [intros ->; auto|tauto].
Qed.

End RepeatedWord.

(** C10 (amended). Token count versus distinct tokens, for a snapshot of
    ASCII text (whose vocabulary is then the one that Python computes):
    for an input that
    consists of one domain-vocabulary word written three or more times,
    [chat] counts every repetition when it chooses the threshold (so the
    branch for more than 2 tokens, with threshold 0.18, is taken) but
    computes the ratio over the single distinct token (so the ratio is
    1), and, unless the word starts with [recent] or is [find] or
    [search], which makes the input a command, the input is accepted. *)
Theorem repeated_word_accepted (m : Intent.meta) (w : string) (n : nat) :
  ascii_meta m = true ->
  w ∈ Intent.domain_tokens m ->
  3 <= n ->
  PyStr.startswith "recent" w = false -> w <> "find" -> w <> "search" ->
  let input := repeat_word w n in
  let tokens := Intent.findall (PyStr.strip (PyStr.lower (PyStr.strip input))) in
  length tokens = n
  /\ size (list_to_set tokens : gset string) = 1
  /\ Intent.overlap_ratio (list_to_set tokens) (Intent.domain_tokens m) = 1 # 1
  /\ (n <=? 2)%nat = false
  /\ Qle_bool Intent.OVERLAP_THRESHOLD (1 # 1) = true
  /\ Intent.chat m input = Intent.Run input None 25.
Proof.
  intros _ Hw Hn Hr Hf Hs.
  destruct (domain_token_shape m w Hw) as [Hne Ht].
  destruct n as [|[|n]]; [lia..|]. intros input tokens.
  assert (Hstrip : PyStr.strip input = input) by (by apply strip_repeat_word).
  assert (Hlower : PyStr.strip (PyStr.lower (PyStr.strip input)) = input).
  { rewrite Hstrip. unfold input. by rewrite lower_repeat_word. }
  assert (Htok : tokens = repeat w (S (S n))).
  { unfold tokens. rewrite Hlower. by apply findall_repeat_word. }
  rewrite Htok. split; [apply repeat_length|].
  split; [by rewrite set_of_repeat, size_singleton|].
  split; [by apply ratio_of_repeat|].
  split; [destruct n; [lia|reflexivity]|].
  split; [reflexivity|].
  assert (Hfi : Intent.findall input = repeat w (S (S n)))
    by (by apply findall_repeat_word).
  rewrite chat_gate.
  - rewrite Hlower, gate_decides.
    + rewrite Hfi, ratio_of_repeat, repeat_length by assumption.
      destruct n; [lia|reflexivity].
    + rewrite Hfi. discriminate.
  - rewrite Hstrip. intros E. pose proof (findall_repeat_word w (S n) Ht Hne) as H.
    fold input in H. rewrite E in H. discriminate H.
  - rewrite Hlower, Hstrip. by apply command_repeat_word.
Qed.

(** C10, as stated, fails: [recent] can be a domain-vocabulary word, and
    the input made of it three times is taken for the [recent] command and
    answered with its usage message. *)
Lemma repeated_recent_is_a_command :
  "recent" ∈ Intent.domain_tokens SampleMeta.snapshot
  /\ Intent.chat SampleMeta.snapshot (repeat_word "recent" 3)
     = Intent.Text "Usage: recent <N>".
Proof.
  split; [|reflexivity].
  apply (bool_decide_unpack _). vm_compute. exact I.
Qed.

(** ** The properties at sample inputs *)

(** C2 on two spellings of one document. *)
Lemma digest_determinism_witness :
  Persistence._compute_content_hash SampleRuns.doc_listed
  = Persistence._compute_content_hash SampleRuns.doc_reordered.
Proof.
  apply digest_determinism.
  - simpl. repeat split; apply (bool_decide_unpack _); vm_compute; exact I.
  - eapply same_dict; [apply Permutation_rev|]. simpl.
    repeat constructor.
    eapply same_dict; [apply Permutation_rev|]. simpl. repeat constructor.
Defined.

(** C3 on the stub pages of 100, 100 and 45 records, on a page cap of 2
    and on an error body. *)
Lemma pagination_termination_witness :
  (exists st',
      Fetcher.paginate 1 Sample.stub_pages 100 None 3 SampleRuns.after_two_pages = Some st'
      /\ Fetcher.requested st' = [1; 2; 3]%Z
      /\ Fetcher.all_shallow st' = SampleRuns.records 200 ++ SampleRuns.records 45)
  /\ Fetcher.paginate 1 Sample.stub_pages 100 (Some 2%Z) 3 SampleRuns.after_two_pages
     = Some SampleRuns.after_two_pages
  /\ (exists st',
         Fetcher.paginate 1 SampleRuns.error_body 100 None 3 Fetcher.init = Some st'
         /\ Fetcher.requested st' = [1%Z]
         /\ Fetcher.all_shallow st' = [])
  /\ (exists st,
         Fetcher.paginate 3 Sample.stub_pages 100 None 3 Fetcher.init = Some st
         /\ Fetcher.requested st = [1; 2; 3]%Z
         /\ Fetcher.all_shallow st
            = SampleRuns.records 100 ++ SampleRuns.records 100 ++ SampleRuns.records 45
         /\ length (Fetcher.all_shallow st) = 245).
Proof.
  destruct pagination_termination as (Hshort & Hcap & Hinvalid & Hstub).
  split; [|split; [|split]].
  - apply (Hshort Sample.stub_pages 100%Z None 3%Z SampleRuns.after_two_pages 0
                  [("count", JInt 245); ("results", JList (SampleRuns.records 45))]);
      [reflexivity|reflexivity|reflexivity|vm_compute; reflexivity].
  - apply (Hcap Sample.stub_pages 100%Z 3%Z SampleRuns.after_two_pages 0 2%Z);
      [discriminate|reflexivity].
  - apply (Hinvalid SampleRuns.error_body 100%Z None 3%Z Fetcher.init 0
                    (JDict [("errors", JStr "bad request")]));
      [reflexivity|reflexivity|].
    intros d E. injection E as <-. reflexivity.
  - apply (Hstub Sample.stub_pages 3%Z 0
                 [("count", JInt 245); ("results", JList (SampleRuns.records 100))]
                 [("count", JInt 245); ("results", JList (SampleRuns.records 100))]
                 [("count", JInt 245); ("results", JList (SampleRuns.records 45))]);
      reflexivity.
Defined.

(** C4 on an endpoint whose second page always fails. *)
Lemma retry_bound_partial_success_witness :
  (exists st',
      (Fetcher.request Sample.failing_second_page 100 3 SampleRuns.after_first_page
       = Fetcher.Continue st'
       /\ (Fetcher.retries SampleRuns.after_first_page + 1 < 3)%Z
       /\ Fetcher.sleeps st' = [2%Z]
       \/ Fetcher.request Sample.failing_second_page 100 3 SampleRuns.after_first_page
          = Fetcher.Break st'
          /\ (3 <= Fetcher.retries SampleRuns.after_first_page + 1)%Z
          /\ Fetcher.sleeps st' = [])
      /\ Fetcher.page st' = 2%Z
      /\ Fetcher.retries st' = 1%Z
      /\ Fetcher.all_shallow st' = SampleRuns.records 100
      /\ Fetcher.requested st' = [1; 2]%Z)
  /\ (exists st',
         Fetcher.paginate 3 Sample.failing_second_page 100 None 3
                          SampleRuns.after_first_page = Some st'
         /\ Fetcher.requested st' = [1; 2; 2; 2]%Z
         /\ Fetcher.sleeps st' = [2; 4]%Z
         /\ Fetcher.all_shallow st' = SampleRuns.records 100)
  /\ Fetcher.fetch_documents 4 Sample.failing_second_page 100 None 3
     = Some (Fetcher.enrich Sample.failing_second_page (SampleRuns.records 100))
  /\ (exists out,
         Fetcher.fetch_documents 4 Sample.failing_second_page 100 None 3
         = Some (Returned out)
         /\ out ≡ₚ imap (enriched Sample.failing_second_page)
                        (numbered (SampleRuns.records 100))).
Proof.
  destruct retry_bound_partial_success as (Hstep & Hthree & Hreturn).
  split; [|split].
  - apply (Hstep Sample.failing_second_page 100%Z 3%Z SampleRuns.after_first_page).
    left. reflexivity.
  - apply (Hthree Sample.failing_second_page 100%Z None SampleRuns.after_first_page 0);
      [reflexivity|reflexivity|]. intros i _. left. reflexivity.
  - destruct (Hreturn Sample.failing_second_page 100%Z 0
                       [("count", JInt 245); ("results", JList (SampleRuns.records 100))]
                       (SampleRuns.records 100)) as [Hrun Hout];
      [reflexivity|reflexivity|discriminate|vm_compute; discriminate|reflexivity| |].
    + intros i _. left. reflexivity.
    + split; [exact Hrun|]. apply Hout.
      * apply Forall_forall. intros r Hr.
        apply list_elem_of_In, repeat_spec in Hr. subst r. exact I.
      * change (length (numbered (SampleRuns.records 100))) with 100.
        symmetry. apply (Permutation_rev (seq 0 100)).
      * reflexivity.
Defined.

(** C5 (amended) on the query [meeting] against a store that holds one
    document. *)
Lemma fallback_search_ordering_witness :
  ((forall r,
       In r (Query.selected_rows SampleDocs.idle_server SampleDocs.store_with_notice
                                 " Meeting " None 25) ->
       In r (Store.documents SampleDocs.store_with_notice)
       /\ some_column_contains "Meeting" r = true)
   /\ exists full,
       full ≡ₚ List.filter (fun r => some_column_contains "Meeting" r
                                     && Query.agency_where None r)
                           (Store.documents SampleDocs.store_with_notice)
       /\ StronglySorted Query.newer_first full
       /\ Query.selected_rows SampleDocs.idle_server SampleDocs.store_with_notice
                              " Meeting " None 25
          = take 25 full)
  /\ (forall r,
         In r (Query.selected_rows SampleDocs.idle_server SampleDocs.store_with_notice
                                   "N_tice%Meet" None 25) ->
         In r (Store.documents SampleDocs.store_with_notice)
         /\ Query.fallback_where "%N_tice%Meet%" r = true)
  /\ Query.like "%_%" "Notice of Meeting" = true
  /\ (exists full,
         full ≡ₚ List.filter (fun r => Query.agency_where (Some "EPA") r)
                             (Store.documents SampleDocs.store_with_notice)
         /\ StronglySorted Query.newer_first full
         /\ Query.selected_rows SampleDocs.idle_server SampleDocs.store_with_notice
                                "" (Some "EPA") 5
            = take 5 full)
  /\ StronglySorted hit_newer_first
       (Query._query_mysql SampleDocs.idle_server SampleDocs.store_with_notice
                           " Meeting " None 25)
  /\ length (Query._query_mysql SampleDocs.idle_server SampleDocs.store_with_notice
                                " Meeting " None 25) <= 25.
Proof.
  assert (Hstore : forall r, In r (Store.documents SampleDocs.store_with_notice) ->
                             collation_row r = true).
  { intros r [<-|[]]. vm_compute. reflexivity. }
  destruct (fallback_search_ordering SampleDocs.idle_server SampleDocs.store_with_notice
                                     " Meeting " None 25)
    as (Hmeeting & Hsorted & Hlimit).
  destruct (Hmeeting eq_refl Hstore) as (Hfallback & _ & Hlike & _).
  destruct (fallback_search_ordering SampleDocs.idle_server SampleDocs.store_with_notice
                                     "N_tice%Meet" None 25) as (Hpattern & _).
  destruct (Hpattern eq_refl Hstore) as (_ & Hwild & _).
  destruct (fallback_search_ordering SampleDocs.idle_server SampleDocs.store_with_notice
                                     "" (Some "EPA") 5) as (Hempty & _).
  destruct (Hempty eq_refl Hstore) as (_ & _ & _ & Hlisting).
  split; [|split; [|split; [|split; [|split; [exact Hsorted|exact Hlimit]]]]].
  - destruct Hfallback as [Hrows Hfull];
      [discriminate|reflexivity|right; reflexivity|].
    split; [exact Hrows|]. apply Hfull; [reflexivity|vm_compute; split; discriminate].
  - apply Hwild; [discriminate|right; reflexivity].
  - destruct (Hlike "" "Notice of Meeting" eq_refl eq_refl) as (_ & _ & _ & H). exact H.
  - apply (Hlisting (fun _ => true));
      [reflexivity|reflexivity|vm_compute; split; discriminate].
Defined.

(** C6 on a three-token input, on [search pesticide] and on [hello]. *)
Lemma intent_gating_thresholds_witness :
  (Intent.chat SampleMeta.snapshot " New pesticide RULE "
   = Intent.Run "new pesticide rule" None 25
   <-> meets_threshold 3 (2 # 3))
  /\ Intent.chat SampleMeta.snapshot "Search  Pesticide" = Intent.Run "Pesticide" None 25
  /\ Intent.chat SampleMeta.snapshot "hello" = Intent.Text Intent.refusal_message.
Proof.
  destruct intent_gating_thresholds as (Hgate & _ & Hsearch & _ & Hhello & _).
  split; [|split].
  - apply (Hgate SampleMeta.snapshot " New pesticide RULE ");
      try reflexivity; discriminate.
  - apply (Hsearch SampleMeta.snapshot "Search  Pesticide");
      [reflexivity|reflexivity|discriminate].
  - apply (Hhello SampleMeta.snapshot); [reflexivity|].
    apply (bool_decide_unpack _). vm_compute. exact I.
Defined.

(** C7 (amended) on three shallow records, the second without a document
    number, the detail request of the third failing. *)
Lemma enrichment_merge_rule_witness :
  (exists out,
      Fetcher.enrich Sample.one_detail SampleRuns.mixed_records = Returned out
      /\ out ≡ₚ imap (enriched Sample.one_detail) (numbered SampleRuns.mixed_records))
  /\ map fst (numbered SampleRuns.mixed_records)
     = List.filter has_number SampleRuns.mixed_records
  /\ (exists m,
         enriched Sample.one_detail 0
                  (JDict [("title", JStr "Notice"); ("document_number", JStr "2024-00001")],
                   JStr "2024-00001")
         = JDict m
         /\ PyDict.lookup m "title" = Some (JStr "Notice of Meeting"))
  /\ enriched Sample.one_detail 1 (Sample.record "2024-00002" "Rule", JStr "2024-00002")
     = Sample.record "2024-00002" "Rule".
Proof.
  destruct (enrichment_merge_rule Sample.one_detail SampleRuns.mixed_records)
    as (Hout & Hnum & Hmerge & Hfail).
  - repeat constructor.
  - change (length (numbered SampleRuns.mixed_records)) with 2.
    symmetry. apply (Permutation_rev (seq 0 2)).
  - reflexivity.
  - split; [exact Hout|]. split; [exact Hnum|]. split.
    + apply (Hmerge 0 _ (JStr "2024-00001")
                    [("title", JStr "Notice of Meeting");
                     ("full_text", JStr "The committee meets.")] "title");
        [reflexivity|]. apply (bool_decide_unpack _). vm_compute. exact I.
    + apply Hfail. intros j E. discriminate E.
Defined.

(** C9 on a batch of a stored and unchanged document, a new document and
    a record without document number. *)
Lemma unchanged_skip_accounting_witness :
  Persistence.process_dict SampleDocs.idle_server SampleDocs.notice_fields
    {| Persistence.store := SampleDocs.store_with_notice;
       Persistence.processed_count := 0; Persistence.skipped_count := 0 |}
  = (Persistence.Unchanged,
     {| Persistence.store := SampleDocs.store_with_notice;
        Persistence.processed_count := 0; Persistence.skipped_count := 0 |})
  /\ (let vs := verdicts SampleDocs.idle_server SampleRuns.batch
                  {| Persistence.store := SampleDocs.store_with_notice;
                     Persistence.processed_count := 0;
                     Persistence.skipped_count := 0 |} in
      length vs = 3
      /\ 0%Z = (0 + count_verdict Persistence.Upserted vs)%Z
      /\ 2%Z = (0 + count_verdict Persistence.NoNumber vs
                + count_verdict Persistence.Failed vs)%Z).
Proof.
  destruct (unchanged_skip_accounting SampleDocs.idle_server) as (Hskip & Hcount).
  split.
  - apply (Hskip SampleDocs.notice_fields _
                 (Persistence._compute_content_hash SampleDocs.notice));
      [reflexivity|vm_compute; reflexivity|reflexivity].
  - apply (Hcount SampleRuns.batch
                  {| Persistence.store := SampleDocs.store_with_notice;
                     Persistence.processed_count := 0;
                     Persistence.skipped_count := 0 |}
                  {| Persistence.store := SampleDocs.store_with_notice;
                     Persistence.processed_count := 0;
                     Persistence.skipped_count := 2 |}).
    vm_compute. reflexivity.
Defined.

(** C10 (amended) on the word [rule] written three times. *)
Lemma repeated_word_accepted_witness :
  length (Intent.findall (PyStr.strip (PyStr.lower (PyStr.strip (repeat_word "rule" 3))))) = 3
  /\ size (list_to_set
             (Intent.findall (PyStr.strip (PyStr.lower (PyStr.strip (repeat_word "rule" 3)))))
           : gset string) = 1
  /\ Intent.overlap_ratio
       (list_to_set
          (Intent.findall (PyStr.strip (PyStr.lower (PyStr.strip (repeat_word "rule" 3))))))
       (Intent.domain_tokens SampleMeta.snapshot) = 1 # 1
  /\ (3 <=? 2)%nat = false
  /\ Qle_bool Intent.OVERLAP_THRESHOLD (1 # 1) = true
  /\ Intent.chat SampleMeta.snapshot (repeat_word "rule" 3)
     = Intent.Run (repeat_word "rule" 3) None 25.
Proof.
  apply (repeated_word_accepted SampleMeta.snapshot "rule" 3).
  - reflexivity.
  - apply (bool_decide_unpack _). vm_compute. exact I.
  - lia.
  - reflexivity.
  - discriminate.
  - discriminate.
Defined.

(* ===================================================================== *)
(** * Part III: further properties of the code                            *)
(* ===================================================================== *)

(** ** The further models on known values *)

(** What Python gives for the same inputs. *)
Lemma tokenize_known_answers :
  Helpers._tokenize "Pesticide Tolerances for Apples -- 'quoted' U.S. 2024"
  = ["pesticide"; "tolerances"; "for"; "apples"; ""; "quoted"; "u"; "s"; "2024"]
  /\ Helpers._tokenize "that's it's don't -rule- rule' 'rule"
     = ["that's"; "it's"; "don't"; "rule"; "rule"; "rule"]
  /\ Helpers._tokenize "" = []
  /\ Helpers.get_top_keywords
       (Some ["Pesticide Tolerances for Apples -- 'quoted' U.S. 2024";
              "AIR-quality; air--quality 'tis -x- 12345 notice Notice";
              "tolerances Tolerances apples";
              "that's it's don't -rule- rule' 'rule"]) 5 4
     = ["tolerances"; "rule"; "apples"; "pesticide"; "quoted"].
Proof. repeat split; vm_compute; reflexivity. Qed.

Lemma topic_known_answers :
  map Presentation._topic_from_title
      [Some "Repair Station"; Some "Medicare and Health"; Some "MEDICARE";
       Some "Syntax"; Some "Plain"; Some ""; None]
  = ["Air Quality"; "Health"; "Healthcare"; "Tax"; "General"; "General"; "General"].
Proof. vm_compute. reflexivity. Qed.

(** The text of [run] for the three sample rows, by its length and
    digest. *)
Lemma run_known_answer :
  exists out,
    Presentation.run SampleDocs.idle_server SampleTitles.epa_codec SampleRows.three_rows
                     "" None 25 = Returned out
    /\ String.length out = 493
    /\ Sha256.hexdigest out
       = "a4ca503ef3a9d26a3176065b5caeee46e1f7c4e242e65d75382c807daa555023".
Proof. eexists. split; [vm_compute; reflexivity|]. split; vm_compute; reflexivity. Qed.

(** ** [process_documents] on any batch *)

Section PersistenceMore.

Import Store Persistence.
Local Open Scope Z_scope.

Variable x : externals.

Lemma verdicts_length docs : forall st st',
  process_loop x docs st = Some st' -> length (verdicts x docs st) = length docs.
Proof. intros st st' H. by destruct (process_loop_counts x docs st st' H) as [? _]. Qed.

Lemma verdicts_never_upserted docs : forall st,
  count_verdict Upserted (verdicts x docs st) = 0.
Proof.
  induction docs as [|doc docs IH]; intros st; [reflexivity|].
  destruct doc; try reflexivity. cbn [verdicts]. rewrite count_verdict_cons, IH.
  destruct (process_dict_cases x items st) as [E|[E|E]]; rewrite E; reflexivity.
Qed.

Lemma verdicts_partition docs : forall st,
  count_verdict NoNumber (verdicts x docs st) + count_verdict Failed (verdicts x docs st)
  + count_verdict Unchanged (verdicts x docs st)
  = Z.of_nat (length (verdicts x docs st)).
Proof.
  induction docs as [|doc docs IH]; intros st; [reflexivity|].
  destruct doc; try reflexivity. cbn [verdicts]. rewrite !count_verdict_cons.
  cbn [length]. rewrite Nat2Z.inj_succ, <- IH.
  destruct (process_dict_cases x items st) as [E|[E|E]]; rewrite E; simpl; lia.
Qed.

Lemma process_loop_raises docs : forall st,
  process_loop x docs st = None <-> ~ Forall is_dict docs.
Proof.
  induction docs as [|doc docs IH]; intros st; simpl.
  - split; [discriminate|]. intros H. destruct H. constructor.
  - destruct doc; try (split; [intros _ H; inv H; contradiction|reflexivity]).
    rewrite IH. split; intros H H'; apply H.
    + by inv H'.
    + constructor; [exact I|exact H'].
Qed.

Lemma process_loop_returns docs : forall st st',
  process_loop x docs st = Some st' -> Forall is_dict docs.
Proof.
  induction docs as [|doc docs IH]; intros st st' H; [constructor|].
  simpl in H. destruct doc; try discriminate H.
  constructor; [exact I|]. eapply IH, H.
Qed.

End PersistenceMore.

(** X1. Whatever the batch, the store and the server, a call of
    [process_documents] leaves every table as it was; when it commits,
    it reports zero processed documents, and its skipped count together
    with the documents found unchanged makes up the batch. *)
Theorem process_documents_writes_nothing (x : Store.externals) (d : Store.db)
        (docs : list json) :
  Persistence.store_after d (Persistence.process_documents x d docs) = d
  /\ forall st,
      Persistence.process_documents x d docs = Persistence.Committed st ->
      Persistence.processed_count st = 0%Z
      /\ (Persistence.skipped_count st
          + count_verdict Persistence.Unchanged
              (verdicts x docs {| Persistence.store := d;
                                  Persistence.processed_count := 0;
                                  Persistence.skipped_count := 0 |})
          = Z.of_nat (length docs))%Z.
Proof.
  split; [apply process_documents_store|].
  intros st. unfold Persistence.process_documents.
  destruct docs as [|doc docs]; [discriminate|].
  destruct (Store.connect_ok x); [|discriminate].
  destruct (Persistence.process_loop x (doc :: docs) _) as [st'|] eqn:E; [|discriminate].
  destruct (Store.commit_ok x); [|discriminate]. intros H. injection H as ->.
  destruct (process_loop_counts x _ _ _ E) as (Hl & Hp & Hs).
  rewrite verdicts_never_upserted in Hp. split; [rewrite Hp; reflexivity|].
  rewrite Hs, <- Hl. cbn [Persistence.skipped_count].
  pose proof (verdicts_partition x (doc :: docs)
                {| Persistence.store := d; Persistence.processed_count := 0;
                   Persistence.skipped_count := 0 |}) as Hv.
  lia.
Qed.

(** X2. On a reachable store, a call of [process_documents] with a
    non-empty batch raises (and commits nothing) exactly when some record
    of the batch is not a JSON object; a record without document number,
    or one whose upsert fails, does not abort the batch. *)
Theorem process_documents_raises_iff (x : Store.externals) (d : Store.db)
        (docs : list json) :
  docs <> [] -> Store.connect_ok x = true -> Store.commit_ok x = true ->
  (Persistence.process_documents x d docs = Persistence.Aborted
   <-> ~ Forall is_dict docs)
  /\ (Forall is_dict docs ->
      exists st, Persistence.process_documents x d docs = Persistence.Committed st).
Proof.
  intros Hne Hc Hm. unfold Persistence.process_documents.
  destruct docs as [|doc docs]; [congruence|]. rewrite Hc, Hm.
  destruct (Persistence.process_loop x (doc :: docs) _) as [st|] eqn:E.
  - assert (Hd : Forall is_dict (doc :: docs))
      by (eapply process_loop_returns, E).
    split; [split; [discriminate|contradiction]|]. intros _. by exists st.
  - apply process_loop_raises in E. split; [tauto|contradiction].
Qed.

(** ** The pagination loop as a whole *)

Section PaginationMore.

Import Fetcher.
Local Open Scope Z_scope.

Variables (e : env) (per_page : Z) (max_retries : Z).

Lemma request_cases st :
  match request e per_page max_retries st with
  | Break st' => stopped st st'
  | Continue st' => advanced st st' \/ retried max_retries st st'
  end.
Proof.
  unfold request, stopped, advanced, retried.
  destruct (listing e (length (requested st)) (page st)) as [data| | |].
  - destruct data as [| | | | | |d]; try (repeat split; auto; fail).
    destruct (PyDict.lookup d "results") as [results|]; [|repeat split; auto].
    destruct (truthy results); cbn [negb]; [|repeat split; auto].
    destruct (py_iter results) as [rs|]; [|repeat split; auto].
    destruct (write_page e (page st)); [|repeat split; auto].
    destruct (Z.of_nat (length rs) <? per_page); [repeat split; auto|].
    left. repeat split.
  - destruct (Z.leb_spec max_retries (retries st + 1)); [repeat split; auto|].
    right. repeat split; auto.
  - destruct (Z.leb_spec max_retries (retries st + 1)); [repeat split; auto|].
    right. repeat split; auto.
  - repeat split; auto.
Qed.

(** With a page cap the loop ends within the budget of requests. *)
Lemma paginate_within_budget m (Hm : 0 < m) : forall fuel st,
  0 <= retries st < Z.max max_retries 1 ->
  budget m (Z.max max_retries 1) st < Z.of_nat fuel ->
  exists st',
    paginate fuel e per_page (Some m) max_retries st = Some st'
    /\ Z.of_nat (length (requested st'))
       <= Z.of_nat (length (requested st)) + budget m (Z.max max_retries 1) st.
Proof.
  set (r := Z.max max_retries 1).
  induction fuel as [|fuel IH]; intros st Hr Hb.
  - exfalso. unfold budget in Hb. destruct (Z.leb_spec (page st) m); simpl in Hb; nia.
  - cbn [paginate cap_exceeded].
    destruct (Z.eqb_spec m 0); [lia|]. cbn [negb andb].
    unfold budget in *. destruct (Z.ltb_spec m (page st)) as [Hgt|Hle].
    + exists st. split; [reflexivity|]. destruct (Z.leb_spec (page st) m); lia.
    + destruct (Z.leb_spec (page st) m) as [_|]; [|lia].
      pose proof (request_cases st) as Hc.
      destruct (request e per_page max_retries st) as [st'|st'].
      * exists st'. split; [reflexivity|].
        destruct Hc as (_ & _ & Hq & _). rewrite Hq, length_app. simpl. nia.
      * assert (Hstep : 0 <= retries st' < r
                        /\ (if page st' <=? m
                            then (m - page st') * r + (r - retries st') else 0)
                           + 1 <= (m - page st) * r + (r - retries st)
                        /\ length (requested st') = S (length (requested st))).
        { destruct Hc as [(Hp & Hr' & _ & Hq & _)|(Hp & Hr' & Hlt & _ & Hq & _)];
            rewrite Hp, Hr', Hq, length_app; simpl.
          - split; [lia|]. split; [|lia]. destruct (Z.leb_spec (page st + 1) m); nia.
          - split; [lia|]. split; [|lia]. destruct (Z.leb_spec (page st) m); nia. }
        destruct Hstep as (Hr1 & Hdec & Hlen).
        destruct (IH st' Hr1) as (st'' & Hrun & Hreq); [lia|].
        exists st''. split; [exact Hrun|]. rewrite Hlen in Hreq. lia.
Qed.

(** Without a cap the loop goes on for as long as full pages arrive. *)
Lemma paginate_endless max_pages :
  endless e per_page -> max_pages = None \/ max_pages = Some 0 ->
  forall fuel st, paginate fuel e per_page max_pages max_retries st = None.
Proof.
  intros He Hcap. induction fuel as [|fuel IH]; intros st; [reflexivity|].
  destruct (He (length (requested st)) (page st)) as (data & rs & Hl & Hres & Hne & Hlen & Hw).
  rewrite (paginate_continue e per_page max_pages max_retries fuel st _
             ltac:(destruct Hcap as [-> | ->]; reflexivity)
             (request_full_page e per_page max_retries st data rs Hl Hres Hne Hlen Hw)).
  apply IH.
Qed.

(** Every sleep of the loop is a power of two within the retry budget,
    and the written pages are the pages 1, 2, ... without a gap. *)
Lemma paginate_invariants max_pages : forall fuel st st',
  paginate fuel e per_page max_pages max_retries st = Some st' ->
  0 <= retries st ->
  Forall (fun s => exists k, 1 <= k < max_retries /\ s = 2 ^ k) (sleeps st) ->
  written st = pages_upto (Z.to_nat (page st - 1)) -> 1 <= page st ->
  Forall (fun s => exists k, 1 <= k < max_retries /\ s = 2 ^ k) (sleeps st')
  /\ written st' = pages_upto (length (written st'))
  /\ page st' - 1 <= Z.of_nat (length (written st')) <= page st'.
Proof.
  assert (Hnext : forall p, 1 <= p ->
            pages_upto (Z.to_nat (p - 1)) ++ [p] = pages_upto (Z.to_nat (p + 1 - 1))).
  { intros p Hp. unfold pages_upto.
    replace (Z.to_nat (p + 1 - 1)) with (S (Z.to_nat (p - 1))) by lia.
    rewrite seq_S, map_app. simpl. do 2 f_equal. lia. }
  assert (Hlen : forall n, length (pages_upto n) = n).
  { intros n. unfold pages_upto. by rewrite length_map, length_seq. }
  induction fuel as [|fuel IH]; intros st st' Hrun Hr Hs Hw Hp; [discriminate|].
  cbn [paginate] in Hrun. destruct (cap_exceeded max_pages (page st)).
  { injection Hrun as <-. split; [exact Hs|]. rewrite Hw, Hlen. split; [reflexivity|lia]. }
  pose proof (request_cases st) as Hc.
  destruct (request e per_page max_retries st) as [st1|st1].
  - injection Hrun as <-. destruct Hc as (Hp1 & Hs1 & _ & Hw1).
    rewrite Hs1, Hp1. split; [exact Hs|].
    destruct Hw1 as [-> | ->].
    + rewrite Hw, Hlen. split; [reflexivity|lia].
    + rewrite Hw, Hnext, !Hlen by lia. split; [reflexivity|lia].
  - destruct Hc as [(Hp1 & Hr1 & Hs1 & _ & Hw1)|(Hp1 & Hr1 & Hlt & Hs1 & _ & Hw1 & _)].
    + apply (IH st1 st' Hrun); rewrite ?Hp1, ?Hr1, ?Hs1, ?Hw1; try lia; try assumption.
      rewrite Hw. by apply Hnext.
    + apply (IH st1 st' Hrun); rewrite ?Hp1, ?Hr1, ?Hs1, ?Hw1; try lia; try assumption.
      apply Forall_app. split; [exact Hs|]. constructor; [|constructor].
      exists (retries st + 1). split; [lia|reflexivity].
Qed.

End PaginationMore.

(** X3. Termination under a page cap: with [max_pages = m > 0] the
    pagination loop ends for every listing endpoint, after at most
    [m * max(max_retries, 1)] requests. *)
Theorem paginate_terminates_with_cap (e : Fetcher.env) (per_page m max_retries : Z)
        (fuel : nat) :
  (0 < m)%Z -> (m * Z.max max_retries 1 < Z.of_nat fuel)%Z ->
  exists st,
    Fetcher.paginate fuel e per_page (Some m) max_retries Fetcher.init = Some st
    /\ (Z.of_nat (length (Fetcher.requested st)) <= m * Z.max max_retries 1)%Z.
Proof.
  intros Hm Hfuel.
  destruct (paginate_within_budget e per_page max_retries m Hm fuel Fetcher.init)
    as (st & Hrun & Hreq).
  - simpl. lia.
  - unfold budget. simpl. destruct (Z.leb_spec 1 m); lia.
  - exists st. split; [exact Hrun|].
    unfold budget in Hreq. simpl in Hreq. destruct (Z.leb_spec 1 m); lia.
Qed.

(** X4. Without a page cap ([max_pages] absent, or 0, which counts as
    absent) the loop never ends on an endpoint that answers every request
    with a full page: no amount of iterations reaches a [break]. *)
Theorem paginate_never_ends_without_cap (e : Fetcher.env) (per_page max_retries : Z)
        (max_pages : option Z) (fuel : nat) :
  endless e per_page -> max_pages = None \/ max_pages = Some 0%Z ->
  Fetcher.paginate fuel e per_page max_pages max_retries Fetcher.init = None
  /\ Fetcher.fetch_documents fuel e per_page max_pages max_retries = None.
Proof.
  intros He Hcap.
  assert (H : Fetcher.paginate fuel e per_page max_pages max_retries Fetcher.init = None)
    by (by apply paginate_endless).
  split; [exact H|]. unfold Fetcher.fetch_documents. by rewrite H.
Qed.

(** X5. Backoff bound: every [time.sleep] of a run of the pagination
    loop lasts [2 ^ k] seconds for some [1 <= k < max_retries], hence at
    least 2 and at most [2 ^ (max_retries - 1)] seconds. *)
Theorem backoff_bounded (e : Fetcher.env) (per_page max_retries : Z)
        (max_pages : option Z) (fuel : nat) (st : Fetcher.fetch_state) :
  Fetcher.paginate fuel e per_page max_pages max_retries Fetcher.init = Some st ->
  Forall (fun s => (exists k, 1 <= k < max_retries /\ s = 2 ^ k)
                   /\ 2 <= s <= 2 ^ (max_retries - 1))%Z
         (Fetcher.sleeps st).
Proof.
  intros Hrun.
  destruct (paginate_invariants e per_page max_retries max_pages fuel _ _ Hrun)
    as (Hs & _); [simpl; lia|constructor|reflexivity|simpl; lia|].
  eapply Forall_impl; [exact Hs|]. intros s (k & Hk & ->).
  split; [by exists k|]. split.
  - change 2%Z with (2 ^ 1)%Z at 1. apply Z.pow_le_mono_r; lia.
  - apply Z.pow_le_mono_r; lia.
Qed.

(** X6. Raw page files: when the pagination loop ends, the pages whose
    raw file was written are exactly the pages 1, ..., k in this order,
    where k is the last page asked for or the one before it. *)
Theorem written_pages_without_gap (e : Fetcher.env) (per_page max_retries : Z)
        (max_pages : option Z) (fuel : nat) (st : Fetcher.fetch_state) :
  Fetcher.paginate fuel e per_page max_pages max_retries Fetcher.init = Some st ->
  Fetcher.written st = pages_upto (length (Fetcher.written st))
  /\ (Fetcher.page st - 1 <= Z.of_nat (length (Fetcher.written st)) <= Fetcher.page st)%Z.
Proof.
  intros Hrun.
  destruct (paginate_invariants e per_page max_retries max_pages fuel _ _ Hrun)
    as (_ & Hw); [simpl; lia|constructor|reflexivity|simpl; lia|exact Hw].
Qed.

(** ** The enrichment stage and the merge of two records *)

Section EnrichmentMore.

Import Fetcher.

Lemma submit_all_returns shallow : forall fs,
  submit_all shallow = Some fs -> Forall is_dict shallow.
Proof.
  induction shallow as [|doc shallow IH]; intros fs H; [constructor|].
  destruct doc as [| | | | | |d]; try discriminate H.
  simpl in H. destruct (submit_all shallow) as [fs'|]; [|discriminate H].
  constructor; [exact I|]. by apply (IH fs').
Qed.

Lemma submit_all_raises shallow :
  submit_all shallow = None <-> ~ Forall is_dict shallow.
Proof.
  split.
  - intros H Hall. rewrite (submit_all_numbered shallow Hall) in H. discriminate H.
  - intros H. destruct (submit_all shallow) as [fs|] eqn:E; [|reflexivity].
    destruct H. by apply (submit_all_returns shallow fs).
Qed.

Lemma keys_set (d : PyDict.t) k v :
  PyDict.keys (PyDict.set d k v)
  = if decide (k ∈ PyDict.keys d) then PyDict.keys d else PyDict.keys d ++ [k].
Proof.
  unfold PyDict.keys. induction d as [|[k0 v0] d IH]; simpl.
  - destruct (decide (k ∈ [])) as [H|_]; [inversion H|reflexivity].
  - destruct (String.eqb_spec k0 k) as [->|Hne]; simpl.
    + destruct (decide (k ∈ k :: map fst d)) as [_|H]; [reflexivity|].
      destruct H. constructor.
    + rewrite IH. destruct (decide (k ∈ map fst d)) as [Hin|Hnin].
      * destruct (decide (k ∈ k0 :: map fst d)) as [_|H]; [reflexivity|].
        destruct H. by constructor.
      * destruct (decide (k ∈ k0 :: map fst d)) as [H|_]; [|reflexivity].
        apply elem_of_cons in H as [->|H]; [congruence|contradiction].
Qed.

Lemma filter_new_keys (s : list string) k (l : list string) :
  k ∉ l -> filter (fun x => x ∉ s ++ [k]) l = filter (fun x => x ∉ s) l.
Proof.
  induction l as [|x l IH]; intros Hk; [reflexivity|].
  apply not_elem_of_cons in Hk as [Hne Hk].
  rewrite !filter_cons, IH by exact Hk.
  destruct (decide (x ∉ s ++ [k])) as [H1|H1], (decide (x ∉ s)) as [H2|H2];
    try reflexivity; exfalso.
  - apply H1. apply elem_of_app. left. by apply dec_stable.
  - apply H1. intros H. apply elem_of_app in H as [H|H]; [contradiction|].
    apply list_elem_of_singleton in H. congruence.
Qed.

Lemma keys_merge (s f : PyDict.t) :
  NoDup (PyDict.keys f) ->
  PyDict.keys (PyDict.merge s f)
  = PyDict.keys s ++ filter (fun k => k ∉ PyDict.keys s) (PyDict.keys f).
Proof.
  revert s. induction f as [|[k v] f IH]; intros s Hnd.
  - simpl. by rewrite app_nil_r.
  - apply NoDup_cons in Hnd as [Hk Hnd].
    change (PyDict.merge s ((k, v) :: f)) with (PyDict.merge (PyDict.set s k v) f).
    rewrite IH, keys_set by exact Hnd.
    change (PyDict.keys ((k, v) :: f)) with (k :: PyDict.keys f).
    rewrite filter_cons.
    destruct (decide (k ∈ PyDict.keys s)) as [Hin|Hnin].
    + destruct (decide (k ∉ PyDict.keys s)) as [H|_]; [contradiction|reflexivity].
    + destruct (decide (k ∉ PyDict.keys s)) as [_|H]; [|contradiction].
      rewrite filter_new_keys by exact Hk. by rewrite <- app_assoc.
Qed.

End EnrichmentMore.

(** X7. Failure of the enrichment stage: for a non-empty list of shallow
    records, [fetch_documents] raises exactly when some record is not a
    dict (the [doc.get] of the submission loop) or the file of merged
    documents cannot be written; a failed detail request, whatever the
    document, never makes it raise.  An empty list returns the empty list
    without writing a file. *)
Theorem enrich_raises_iff (e : Fetcher.env) (shallow : list json) :
  (Fetcher.enrich e shallow = Raised
   <-> shallow <> [] /\ (~ Forall is_dict shallow \/ Fetcher.write_full e = false))
  /\ Fetcher.enrich e [] = Returned [].
Proof.
  split; [|reflexivity].
  destruct shallow as [|doc shallow]; [split; [discriminate|intros [H _]; by destruct H]|].
  unfold Fetcher.enrich.
  pose proof (submit_all_raises (doc :: shallow)) as Hs.
  destruct (Fetcher.submit_all (doc :: shallow)) as [fs|].
  - destruct (Fetcher.write_full e); split.
    + discriminate.
    + intros [_ [H|H]]; [|discriminate]. apply Hs in H. discriminate.
    + intros _. split; [discriminate|by right].
    + reflexivity.
  - split; [|reflexivity]. intros _. split; [discriminate|]. left. by apply Hs.
Qed.

(** X8. Field order of a merged record: the merge [{**shallow, **full}]
    keeps the shallow record's keys in their order and appends the keys
    that only the detail record has, in the detail record's order; no key
    occurs twice when none did in the shallow record. *)
Theorem merge_key_order (s f : PyDict.t) :
  NoDup (PyDict.keys f) ->
  PyDict.keys (PyDict.merge s f)
  = PyDict.keys s ++ filter (fun k => k ∉ PyDict.keys s) (PyDict.keys f)
  /\ (NoDup (PyDict.keys s) -> NoDup (PyDict.keys (PyDict.merge s f))).
Proof.
  intros Hf. split; [by apply keys_merge|]. intros Hs.
  rewrite keys_merge by exact Hf. apply NoDup_app. split; [exact Hs|]. split.
  - intros k Hk Hk'. apply list_elem_of_filter in Hk' as [Hn _]. contradiction.
  - by apply NoDup_filter.
Qed.

(** ** The listing mode and the letter case of a search *)

Section SearchMore.

Import Store Query.
Local Open Scope Z_scope.

Ltac by_cases_of c :=
  destruct c as [[] [] [] [] [] [] [] []]; vm_compute; try reflexivity; try discriminate.

Lemma sorted_app_elem {A} (R : relation A) (l1 l2 : list A) :
  StronglySorted R (l1 ++ l2) -> forall a b, a ∈ l1 -> b ∈ l2 -> R a b.
Proof.
  induction l1 as [|x l1 IH]; intros Hs a b Ha Hb; [inversion Ha|].
  simpl in Hs. apply StronglySorted_inv in Hs as [Hs Hx].
  apply elem_of_cons in Ha as [->|Ha]; [|by apply IH].
  rewrite Forall_forall in Hx. apply Hx. apply elem_of_app. by right.
Qed.

Lemma filter_all {A} (f : A -> bool) (l : list A) :
  (forall a, f a = true) -> List.filter f l = l.
Proof.
  intros Hf. induction l as [|a l IH]; [reflexivity|]. simpl. by rewrite Hf, IH.
Qed.

Lemma filter_pointwise {A} (f g : A -> bool) (l : list A) :
  (forall a, f a = g a) -> List.filter f l = List.filter g l.
Proof.
  intros Hf. induction l as [|a l IH]; [reflexivity|]. simpl. by rewrite Hf, IH.
Qed.

Lemma lower_char_idem c : PyStr.lower_char (PyStr.lower_char c) = PyStr.lower_char c.
Proof. by_cases_of c. Qed.

Lemma lower_char_keeps_wildcards c :
  Ascii.eqb (PyStr.lower_char c) "%" = Ascii.eqb c "%"
  /\ Ascii.eqb (PyStr.lower_char c) "_" = Ascii.eqb c "_"
  /\ Ascii.eqb (PyStr.lower_char c) "\" = Ascii.eqb c "\".
Proof. by_cases_of c; repeat split. Qed.

Lemma lower_char_keeps_space c : PyStr.is_space (PyStr.lower_char c) = PyStr.is_space c.
Proof. by_cases_of c. Qed.

Lemma ci_eqb_lower a c : ci_eqb a (PyStr.lower_char c) = ci_eqb a c.
Proof. unfold ci_eqb. by rewrite lower_char_idem. Qed.

Lemma like_cons c p :
  like (String c p)
  = if Ascii.eqb c "%" then
      fix any (s : string) : bool :=
        like p s || match s with
                    | EmptyString => false
                    | String _ s' => any s'
                    end
    else if Ascii.eqb c "_" then
      fun s => match skip_char s with
               | Some s' => like p s'
               | None => false
               end
    else if Ascii.eqb c "\" then
      match p with
      | String c2 p'' =>
          fun s => match s with
                   | String a s' => ci_eqb a c2 && like p'' s'
                   | EmptyString => false
                   end
      | EmptyString =>
          fun s => match s with
                   | String a s' => ci_eqb a c && like p s'
                   | EmptyString => false
                   end
      end
    else
      fun s => match s with
               | String a s' => ci_eqb a c && like p s'
               | EmptyString => false
               end.
Proof. reflexivity. Qed.

(** The letter case of the pattern does not matter. *)
Lemma like_lower_pattern n : forall p s,
  (String.length p <= n)%nat -> like (PyStr.lower p) s = like p s.
Proof.
  induction n as [|n IH]; intros p s Hn.
  - destruct p; [reflexivity|simpl in Hn; lia].
  - destruct p as [|c p]; [reflexivity|]. simpl in Hn.
    change (PyStr.lower (String c p)) with (String (PyStr.lower_char c) (PyStr.lower p)).
    rewrite !like_cons.
    destruct (lower_char_keeps_wildcards c) as (-> & -> & ->).
    destruct (Ascii.eqb c "%") eqn:E1.
    { induction s as [|a s IHs].
      - by rewrite IH by lia.
      - rewrite IH by lia. by rewrite IHs. }
    destruct (Ascii.eqb c "_") eqn:E2.
    { destruct (skip_char s); [apply IH; lia|reflexivity]. }
    destruct (Ascii.eqb c "\") eqn:E3.
    { destruct p as [|c2 p].
      - change (PyStr.lower "") with "". cbv beta iota.
        destruct s as [|a s]; [reflexivity|]. by rewrite ci_eqb_lower.
      - change (PyStr.lower (String c2 p))
          with (String (PyStr.lower_char c2) (PyStr.lower p)). cbv beta iota.
        destruct s as [|a s]; [reflexivity|]. rewrite ci_eqb_lower.
        rewrite IH by (simpl in Hn; lia). reflexivity. }
    destruct s as [|a s]; [reflexivity|]. rewrite ci_eqb_lower.
    rewrite IH by lia. reflexivity.
Qed.

Lemma lower_empty s : PyStr.lower s = "" <-> s = "".
Proof. destruct s; split; intros H; try reflexivity; discriminate H. Qed.

Lemma lstrip_lower s : PyStr.lstrip (PyStr.lower s) = PyStr.lower (PyStr.lstrip s).
Proof.
  induction s as [|c s IH]; [reflexivity|]. simpl.
  rewrite lower_char_keeps_space. destruct (PyStr.is_space c); [exact IH|reflexivity].
Qed.

Lemma rstrip_lower s : PyStr.rstrip (PyStr.lower s) = PyStr.lower (PyStr.rstrip s).
Proof.
  induction s as [|c s IH]; [reflexivity|]. simpl.
  rewrite IH, lower_char_keeps_space.
  destruct (PyStr.rstrip s); simpl; [destruct (PyStr.is_space c)|]; reflexivity.
Qed.

Lemma strip_lower s : PyStr.strip (PyStr.lower s) = PyStr.lower (PyStr.strip s).
Proof. unfold PyStr.strip. by rewrite lstrip_lower, rstrip_lower. Qed.

Lemma lower_pattern q :
  "%" +:+ PyStr.lower q +:+ "%" = PyStr.lower ("%" +:+ q +:+ "%").
Proof.
  change ("%" +:+ PyStr.lower q +:+ "%") with (String "%" (PyStr.lower q +:+ "%")).
  change ("%" +:+ q +:+ "%") with (String "%" (q +:+ "%")).
  change (PyStr.lower (String "%" (q +:+ "%")))
    with (String "%" (PyStr.lower (q +:+ "%"))).
  f_equal. induction q as [|c q IH]; [reflexivity|].
  change (PyStr.lower (String c q) +:+ "%")
    with (String (PyStr.lower_char c) (PyStr.lower q +:+ "%")).
  change (PyStr.lower (String c q +:+ "%"))
    with (String (PyStr.lower_char c) (PyStr.lower (q +:+ "%"))).
  by rewrite IH.
Qed.

Lemma fallback_where_lower q r :
  fallback_where ("%" +:+ PyStr.lower q +:+ "%") r = fallback_where ("%" +:+ q +:+ "%") r.
Proof.
  rewrite lower_pattern. unfold fallback_where, like_col.
  destruct (title r), (abstract r), (excerpt r), (full_text r), (raw_json r);
    rewrite ?(like_lower_pattern _ _ _ (Nat.le_refl _)); reflexivity.
Qed.

Lemma query_lower x d query agency lim :
  probe_ok x = false \/ fulltext_indexes d = [] ->
  _query_mysql x d (PyStr.lower query) agency lim = _query_mysql x d query agency lim.
Proof.
  intros Hf. unfold _query_mysql, selected_rows. f_equal.
  destruct (connect_ok x); [|reflexivity].
  rewrite strip_lower.
  destruct (String.eqb_spec (PyStr.strip query) "") as [Hq|Hq].
  - rewrite Hq. reflexivity.
  - rewrite !text_where_fallback; try assumption; [|by rewrite lower_empty].
    destruct ((lim <? 0) || (max_limit <? lim))%Z; [reflexivity|]. do 2 f_equal.
    apply filter_pointwise. intros r. by rewrite fallback_where_lower.
Qed.

End SearchMore.

(** X9. Listing mode: with an empty (or blank) query and no agency
    filter, as [recent N] and a [find] without agency ask for, and a
    limit from 0 to 2^64 - 1, [_query_mysql] returns [limit] documents,
    or all when there are fewer, whatever indexes exist, and no document
    left out is newer than a returned one: the result is the [limit] most
    recent documents.  With a larger limit, as [recent] followed by more
    than twenty digits gives, or a negative one, the server refuses the
    statement and the result is empty. *)
Theorem listing_returns_most_recent (x : Store.externals) (d : Store.db)
        (query : string) (agency : option string) (lim : Z) :
  PyStr.strip query = "" -> agency = None \/ agency = Some "" ->
  Store.connect_ok x = true ->
  ((0 <= lim <= Query.max_limit)%Z ->
   exists rows rest,
     Query._query_mysql x d query agency lim = map Query.select_columns rows
     /\ rows ++ rest ≡ₚ Store.documents d
     /\ length rows = Nat.min (Z.to_nat lim) (length (Store.documents d))
     /\ forall a b, a ∈ rows -> b ∈ rest -> Query.newer_first a b)
  /\ ((lim < 0 \/ Query.max_limit < lim)%Z ->
      Query._query_mysql x d query agency lim = []).
Proof.
  intros Hq Ha Hc.
  assert (Hcond : Query.text_where x d (PyStr.strip query) = Some (fun _ => true)).
  { rewrite Hq. unfold Query.text_where. reflexivity. }
  split.
  - intros Hl.
    set (sorted := Query.order_by_publication_date_desc (Store.documents d)).
    assert (Hsel : Query.selected_rows x d query agency lim = take (Z.to_nat lim) sorted).
    { rewrite (selected_rows_take x d query agency lim _ Hcond Hc Hl).
      rewrite filter_all; [reflexivity|]. intros r. by destruct Ha as [-> | ->]. }
    assert (Hp : sorted ≡ₚ Store.documents d) by apply merge_sort_Permutation.
    exists (take (Z.to_nat lim) sorted), (drop (Z.to_nat lim) sorted).
    split; [unfold Query._query_mysql; by rewrite Hsel|]. split; [|split].
    + by rewrite take_drop.
    + rewrite length_take, (Permutation_length Hp). reflexivity.
    + apply sorted_app_elem. rewrite take_drop. apply ordered_desc.
  - intros Hl. unfold Query._query_mysql, Query.selected_rows. rewrite Hc, Hcond.
    assert (E : ((lim <? 0) || (Query.max_limit <? lim))%Z = true).
    { apply orb_true_iff. destruct Hl; [left; by apply Z.ltb_lt|right; by apply Z.ltb_lt]. }
    by rewrite E.
Qed.

(** X10. Letter case of a search: when the fallback statement is used (no
    fulltext index, or the probe fails), the result of [_query_mysql]
    does not depend on the letter case of the query, so the lowercased
    text that the gate of [chat] passes on finds what the text as typed
    finds. *)
Theorem fallback_search_ignores_case (x : Store.externals) (d : Store.db)
        (query : string) (agency : option string) (lim : Z) :
  Store.probe_ok x = false \/ Store.fulltext_indexes d = [] ->
  Query._query_mysql x d (PyStr.lower query) agency lim
  = Query._query_mysql x d query agency lim.
Proof. apply query_lower. Qed.

(** ** The commands and the gate of [chat] *)

Section GateMore.

Import Intent.

(** The loop over the prefixes adds nothing to the tests of its body. *)
Lemma dispatch_is_command msg lower :
  dispatch cmd_prefixes msg lower = command msg lower.
Proof.
  destruct (command msg lower) as [r|] eqn:E; [|by apply dispatch_falls_through].
  cbn [dispatch cmd_prefixes]. rewrite E.
  destruct (String.eqb lower (PyStr.strip "search ") || PyStr.startswith "search " lower)
    eqn:T1; [reflexivity|].
  destruct (String.eqb lower (PyStr.strip "find ") || PyStr.startswith "find " lower)
    eqn:T2; [reflexivity|].
  destruct (String.eqb lower (PyStr.strip "recent") || PyStr.startswith "recent" lower)
    eqn:T3; [reflexivity|].
  destruct (String.eqb lower (PyStr.strip "help") || PyStr.startswith "help" lower)
    eqn:T4; [reflexivity|].
  exfalso.
  apply orb_false_iff in T1 as [_ T1], T2 as [_ T2], T3 as [_ T3], T4 as [T4 _].
  unfold command in E. rewrite T1, T2, T3 in E.
  change (PyStr.strip "help") with "help" in T4. rewrite T4 in E. discriminate E.
Qed.

Lemma chat_cases m message :
  chat m message
  = if String.eqb (PyStr.strip message) "" then Text prompt_message
    else match command (PyStr.strip message)
                       (PyStr.strip (PyStr.lower (PyStr.strip message))) with
         | Some r => r
         | None => gate m (PyStr.strip (PyStr.lower (PyStr.strip message)))
         end.
Proof. unfold chat. by rewrite dispatch_is_command. Qed.

Lemma vocabulary_mono (l l' : list string) :
  l ⊆ l' -> vocabulary l ⊆ vocabulary l'.
Proof.
  intros Hl t Ht. unfold vocabulary in *.
  apply elem_of_union_list in Ht as (X & HX & Ht).
  apply list_elem_of_fmap in HX as (k & -> & Hk).
  apply elem_of_union_list. eexists. split; [|exact Ht].
  apply list_elem_of_fmap. exists k. split; [reflexivity|]. by apply Hl.
Qed.

Lemma domain_tokens_mono m m' :
  keywords m ⊆ keywords m' -> agencies m ⊆ agencies m' ->
  document_types m ⊆ document_types m' ->
  domain_tokens m ⊆ domain_tokens m'.
Proof.
  intros Hk Ha Ht. unfold domain_tokens.
  repeat apply union_mono; by apply vocabulary_mono.
Qed.

Lemma accepts_mono n (k k' : nat) (den : positive) :
  k <= k' -> accepts n (Z.of_nat k # den) = true -> accepts n (Z.of_nat k' # den) = true.
Proof.
  intros Hk. unfold accepts, Qle_bool, SHORT_INPUT_THRESHOLD, OVERLAP_THRESHOLD.
  cbn [Qnum Qden].
  rewrite !orb_true_iff, !andb_true_iff, !Z.leb_le, Nat.leb_le, Nat.ltb_lt. lia.
Qed.

Lemma overlap_mono (T D D' : gset string) :
  D ⊆ D' -> size (T ∩ D) <= size (T ∩ D').
Proof.
  intros H. apply subseteq_size. intros t Ht.
  apply elem_of_intersection in Ht as [H1 H2]. apply elem_of_intersection. auto.
Qed.

Lemma accepts_all n (T : gset string) (D : gset string) :
  T ⊆ D -> T ≠ ∅ -> accepts n (overlap_ratio T D) = true.
Proof.
  intros HT Hne. unfold overlap_ratio.
  rewrite (subseteq_intersection_1_L T D HT).
  assert (Hs : size T <> 0) by (intros H; apply size_empty_inv in H; by apply leibniz_equiv in H).
  unfold accepts, Qle_bool, SHORT_INPUT_THRESHOLD, OVERLAP_THRESHOLD. cbn [Qnum Qden].
  replace (Z.pos (Pos.of_nat (Nat.max 1 (size T)))) with (Z.of_nat (size T)) by lia.
  destruct (Nat.leb_spec n 2) as [H|H].
  - replace (33 * Z.of_nat (size T) <=? Z.of_nat (size T) * 100)%Z with true
      by (symmetry; apply Z.leb_le; lia). reflexivity.
  - replace (2 <? n)%nat with true by (symmetry; apply Nat.ltb_lt; lia).
    replace (18 * Z.of_nat (size T) <=? Z.of_nat (size T) * 100)%Z with true
      by (symmetry; apply Z.leb_le; lia). apply orb_true_r.
Qed.

Lemma accepts_none n (T : gset string) (D : gset string) :
  T ∩ D = ∅ -> accepts n (overlap_ratio T D) = false.
Proof.
  intros HT. unfold overlap_ratio. rewrite HT, size_empty.
  unfold accepts, Qle_bool, SHORT_INPUT_THRESHOLD, OVERLAP_THRESHOLD. cbn [Qnum Qden].
  replace (33 * Z.pos (Pos.of_nat (Nat.max 1 (size T))) <=? Z.of_nat 0 * 100)%Z
    with false by (symmetry; apply Z.leb_gt; lia).
  replace (18 * Z.pos (Pos.of_nat (Nat.max 1 (size T))) <=? Z.of_nat 0 * 100)%Z
    with false by (symmetry; apply Z.leb_gt; lia).
  by rewrite !andb_false_r.
Qed.


End GateMore.

(** X11. The gate is monotone in the vocabulary: an input that [chat]
    passes on to the search with one metadata snapshot is passed on, with
    the same query, filter and limit, with every snapshot that has at
    least its keywords, agency names and document types. *)
Theorem chat_monotone_in_vocabulary (m m' : Intent.meta) (message : string)
        (q : string) (a : option string) (l : Z) :
  Intent.keywords m ⊆ Intent.keywords m' ->
  Intent.agencies m ⊆ Intent.agencies m' ->
  Intent.document_types m ⊆ Intent.document_types m' ->
  Intent.chat m message = Intent.Run q a l ->
  Intent.chat m' message = Intent.Run q a l.
Proof.
  intros Hk Ha Ht. rewrite !chat_cases.
  destruct (String.eqb _ ""); [auto|].
  destruct (Intent.command _ _); [auto|].
  unfold Intent.gate. destruct (Intent.findall _) as [|t ts]; [auto|].
  set (T := list_to_set (t :: ts) : gset string).
  destruct (Intent.accepts _ (Intent.overlap_ratio T (Intent.domain_tokens m))) eqn:E;
    [|discriminate].
  unfold Intent.overlap_ratio in *.
  rewrite (accepts_mono _ _ _ _
             (overlap_mono T _ _ (domain_tokens_mono m m' Hk Ha Ht)) E).
  auto.
Qed.

(** X12. The two ends of the gate, for an input of ASCII characters and
    a snapshot of ASCII text: an input that is not a command and has
    a token is refused when none of its tokens is in the domain
    vocabulary, as is every such input while the snapshot is empty (the
    snapshot of an unreachable or empty database), and is passed on to
    the search, lowercased, when all of its tokens are. *)
Theorem gate_extremes (m : Intent.meta) (message : string) :
  let msg := PyStr.strip message in
  let lower := PyStr.strip (PyStr.lower msg) in
  let tokens := Intent.findall lower in
  ascii_text message = true -> ascii_meta m = true ->
  Intent.command msg lower = None -> tokens <> [] ->
  ((forall t, t ∈ tokens -> t ∉ Intent.domain_tokens m) ->
   Intent.chat m message = Intent.Text Intent.refusal_message)
  /\ (Intent.keywords m = [] -> Intent.agencies m = [] -> Intent.document_types m = [] ->
      Intent.chat m message = Intent.Text Intent.refusal_message)
  /\ ((forall t, t ∈ tokens -> t ∈ Intent.domain_tokens m) ->
      Intent.chat m message = Intent.Run lower None 25).
Proof.
  intros msg lower tokens _ _ Hc Ht.
  assert (Hchat : Intent.chat m message
                  = if Intent.accepts (length tokens)
                         (Intent.overlap_ratio (list_to_set tokens) (Intent.domain_tokens m))
                    then Intent.Run lower None 25
                    else Intent.Text Intent.refusal_message).
  { rewrite chat_cases. fold msg lower. rewrite Hc.
    destruct (String.eqb_spec msg "") as [E|_].
    - exfalso. apply Ht. subst tokens lower. rewrite E. reflexivity.
    - by apply gate_decides. }
  assert (Hnone : (forall t, t ∈ tokens -> t ∉ Intent.domain_tokens m) ->
                  Intent.chat m message = Intent.Text Intent.refusal_message).
  { intros Hn. rewrite Hchat, accepts_none; [reflexivity|].
    apply leibniz_equiv. apply elem_of_equiv_empty. intros t H.
    apply elem_of_intersection in H as [H1 H2].
    apply elem_of_list_to_set in H1. by apply (Hn t). }
  split; [exact Hnone|]. split.
  - intros Hk Ha Hd. apply Hnone. intros t _.
    unfold Intent.domain_tokens, Intent.vocabulary. rewrite Hk, Ha, Hd. simpl.
    rewrite !elem_of_union. intros [[H|H]|H]; by apply elem_of_empty in H.
  - intros Hall. rewrite Hchat, accepts_all; [reflexivity| |].
    + intros t H. apply elem_of_list_to_set in H. by apply Hall.
    + destruct tokens as [|t ts]; [congruence|]. simpl. intros H.
      assert (Hin : t ∈ (∅ : gset string))
        by (rewrite <- H; apply elem_of_union_l, elem_of_singleton; reflexivity).
      by apply elem_of_empty in Hin.
Qed.


(** ** The usage lines, and the router beside [chat] *)

Section Commands.

Import Intent.

Ltac by_cases_on c :=
  destruct c as [[] [] [] [] [] [] [] []]; vm_compute; try reflexivity; try discriminate.

Lemma lower_lower s : PyStr.lower (PyStr.lower s) = PyStr.lower s.
Proof.
  induction s as [|c s IH]; [reflexivity|]. simpl. by rewrite lower_char_idem, IH.
Qed.

Lemma rstrip_head c r :
  PyStr.is_space c = false -> exists r', PyStr.rstrip (String c r) = String c r'.
Proof.
  intros Hc. simpl. destruct (PyStr.rstrip r); rewrite ?Hc; eauto.
Qed.

Lemma lstrip_head s :
  PyStr.lstrip s = "" \/ exists c r, PyStr.lstrip s = String c r /\ PyStr.is_space c = false.
Proof.
  induction s as [|c s IH]; [by left|]. simpl.
  destruct (PyStr.is_space c) eqn:E; [exact IH|]. right. eauto.
Qed.

Lemma rstrip_end s : PyStr.rstrip s = "" \/ ends_without_space (PyStr.rstrip s) = true.
Proof.
  induction s as [|c s IH]; [by left|]. simpl.
  destruct IH as [-> |IH].
  - destruct (PyStr.is_space c) eqn:E; [by left|]. right. simpl. by rewrite E.
  - right. destruct (PyStr.rstrip s) as [|d t]; [discriminate|]. exact IH.
Qed.

Lemma strip_end s : PyStr.strip s = "" \/ ends_without_space (PyStr.strip s) = true.
Proof. apply rstrip_end. Qed.

Lemma strip_strip s : PyStr.strip (PyStr.strip s) = PyStr.strip s.
Proof.
  unfold PyStr.strip at 1.
  assert (Hl : PyStr.lstrip (PyStr.strip s) = PyStr.strip s).
  { unfold PyStr.strip. destruct (lstrip_head s) as [-> |(c & r & -> & Hc)]; [reflexivity|].
    destruct (rstrip_head c r Hc) as [r' ->]. simpl. by rewrite Hc. }
  rewrite Hl. destruct (strip_end s) as [-> |H]; [reflexivity|]. by apply rstrip_id.
Qed.

(** The lowercased text that [chat] looks at is the lowercased message. *)
Lemma chat_lower message :
  PyStr.strip (PyStr.lower (PyStr.strip message)) = PyStr.lower (PyStr.strip message).
Proof. by rewrite strip_lower, strip_strip. Qed.

Lemma rstrip_empty_end c t :
  PyStr.is_space c = true -> PyStr.rstrip t = "" -> ends_without_space (String c t) = false.
Proof.
  revert c. induction t as [|d t IH]; intros c Hc Ht.
  - simpl. by rewrite Hc.
  - simpl in Ht. destruct (PyStr.rstrip t) eqn:E; [|discriminate Ht].
    destruct (PyStr.is_space d) eqn:Hd; [|discriminate Ht].
    change (ends_without_space (String c (String d t)))
      with (ends_without_space (String d t)).
    by apply IH.
Qed.

Lemma strip_empty_rstrip s : PyStr.strip s = "" -> PyStr.rstrip s = "".
Proof.
  unfold PyStr.strip. induction s as [|d s IH]; [reflexivity|]. simpl.
  destruct (PyStr.is_space d) eqn:Hd.
  - intros H. rewrite (IH H). reflexivity.
  - simpl. rewrite Hd. auto.
Qed.

(** After a command word and its space, a stripped message has an
    argument. *)
Lemma argument_not_empty (p : string) : forall msg,
  ends_without_space p = false -> p <> "" ->
  PyStr.startswith p (PyStr.lower msg) = true ->
  ends_without_space msg = true ->
  PyStr.strip (PyStr.drop (String.length p) msg) <> "".
Proof.
  induction p as [|a p IH]; intros msg Hp Hne Hs Hm; [congruence|].
  destruct msg as [|c msg]; [discriminate Hs|].
  change (PyStr.lower (String c msg)) with (String (PyStr.lower_char c) (PyStr.lower msg)) in Hs.
  rewrite startswith_cons in Hs.
  destruct (ascii_dec a (PyStr.lower_char c)) as [Ha|]; [|discriminate Hs].
  change (PyStr.drop (String.length (String a p)) (String c msg))
    with (PyStr.drop (String.length p) msg).
  destruct p as [|b p].
  - simpl in Hp. apply negb_false_iff in Hp.
    rewrite Ha, lower_char_keeps_space in Hp.
    intros E. apply strip_empty_rstrip in E.
    rewrite (rstrip_empty_end c msg Hp E) in Hm. discriminate Hm.
  - destruct msg as [|c' msg]; [discriminate Hs|].
    apply IH; [exact Hp|discriminate|exact Hs|exact Hm].
Qed.

End Commands.

(** X14. Dead usage lines: [chat] never answers with the usage line of
    [find] or of [search], whatever the input.  The message is stripped
    before the prefix is tested, so, for an input of ASCII characters,
    after [find ] or [search ] there is always an argument, which is
    searched for as typed; the bare words [find] and [search] go to the
    gate instead. *)
Theorem chat_never_prints_find_or_search_usage (m : Intent.meta) (message : string) :
  let msg := PyStr.strip message in
  Intent.chat m message <> Intent.Text "Usage: find <agency>"
  /\ Intent.chat m message <> Intent.Text "Usage: search <keyword>"
  /\ (ascii_text message = true ->
      PyStr.startswith "find " (PyStr.lower msg) = true ->
      PyStr.strip (PyStr.drop 5 msg) <> ""
      /\ Intent.chat m message = Intent.Run "" (Some (PyStr.strip (PyStr.drop 5 msg))) 25)
  /\ (ascii_text message = true ->
      PyStr.startswith "search " (PyStr.lower msg) = true ->
      PyStr.strip (PyStr.drop 7 msg) <> ""
      /\ Intent.chat m message = Intent.Run (PyStr.strip (PyStr.drop 7 msg)) None 25).
Proof.
  intros msg.
  cut (Intent.chat m message <> Intent.Text "Usage: find <agency>"
       /\ Intent.chat m message <> Intent.Text "Usage: search <keyword>"
       /\ (PyStr.startswith "find " (PyStr.lower msg) = true ->
           PyStr.strip (PyStr.drop 5 msg) <> ""
           /\ Intent.chat m message
              = Intent.Run "" (Some (PyStr.strip (PyStr.drop 5 msg))) 25)
       /\ (PyStr.startswith "search " (PyStr.lower msg) = true ->
           PyStr.strip (PyStr.drop 7 msg) <> ""
           /\ Intent.chat m message
              = Intent.Run (PyStr.strip (PyStr.drop 7 msg)) None 25)).
  { intros (H1 & H2 & H3 & H4). split; [exact H1|]. split; [exact H2|].
    split; intros _ Hs; [exact (H3 Hs)|exact (H4 Hs)]. }
  rewrite chat_cases, chat_lower. fold msg.
  destruct (String.eqb_spec msg "") as [E|Hne].
  { rewrite E. repeat split; discriminate. }
  assert (Hend : ends_without_space msg = true)
    by (destruct (strip_end message); [contradiction|assumption]).
  unfold Intent.command.
  destruct (PyStr.startswith "recent" (PyStr.lower msg)) eqn:Hr.
  { assert (Hno : PyStr.startswith "find " (PyStr.lower msg) = false
                  /\ PyStr.startswith "search " (PyStr.lower msg) = false).
    { destruct (PyStr.lower msg) as [|c l]; [discriminate Hr|].
      rewrite startswith_cons in Hr. destruct (ascii_dec "r" c) as [<-|]; [|discriminate Hr].
      split; reflexivity. }
    destruct Hno as [Hf Hs]. rewrite Hf, Hs.
    destruct (PyStr.split msg) as [|w [|n [|]]];
      try (repeat split; discriminate).
    destruct (PyStr.isdigit n); repeat split; discriminate. }
  destruct (PyStr.startswith "find " (PyStr.lower msg)) eqn:Hf.
  { pose proof (argument_not_empty "find " _ eq_refl ltac:(discriminate) Hf Hend) as Ha.
    change (String.length "find ") with 5 in Ha.
    assert (Hs : PyStr.startswith "search " (PyStr.lower msg) = false).
    { destruct (PyStr.lower msg) as [|c l]; [discriminate Hf|].
      rewrite startswith_cons in Hf. destruct (ascii_dec "f" c) as [<-|]; [|discriminate Hf].
      reflexivity. }
    rewrite Hs.
    destruct (String.eqb_spec (PyStr.strip (PyStr.drop 5 msg)) ""); [contradiction|].
    repeat split; try discriminate; assumption. }
  destruct (PyStr.startswith "search " (PyStr.lower msg)) eqn:Hs.
  { pose proof (argument_not_empty "search " _ eq_refl ltac:(discriminate) Hs Hend) as Ha.
    change (String.length "search ") with 7 in Ha.
    destruct (String.eqb_spec (PyStr.strip (PyStr.drop 7 msg)) ""); [contradiction|].
    repeat split; try discriminate; assumption. }
  destruct (String.eqb _ "help"); [repeat split; discriminate|].
  unfold Intent.gate. destruct (Intent.findall _); [repeat split; discriminate|].
  destruct (Intent.accepts _ _); repeat split; discriminate.
Qed.

(** X15. The router beside [chat], for an input of ASCII characters and
    a snapshot of ASCII text: whenever [chat] runs a search, for a
    command or past the gate, [RouterAgent.handle] runs a search with the
    same filter and limit and a query that differs at most in letter
    case, which the fallback statement ignores; the exceptions are the
    inputs [/help] and [commands], for which [handle] returns the help
    coroutine.  What [chat] refuses, [handle] searches as typed. *)
Theorem router_agrees_with_chat (m : Intent.meta) (message : string) :
  ascii_text message = true -> ascii_meta m = true ->
  (forall q a l,
      Intent.chat m message = Intent.Run q a l ->
      (Router.handle message = Router.HelpCoroutine
       /\ (PyStr.lower (PyStr.strip message) = "/help"
           \/ PyStr.lower (PyStr.strip message) = "commands"))
      \/ exists q',
          Router.handle message = Router.Answer (Intent.Run q' a l)
          /\ PyStr.lower q' = PyStr.lower q
          /\ forall x d,
              Store.probe_ok x = false \/ Store.fulltext_indexes d = [] ->
              Query._query_mysql x d q' a l = Query._query_mysql x d q a l)
  /\ (Intent.chat m message = Intent.Text Intent.refusal_message ->
      Router.handle message = Router.HelpCoroutine
      \/ Router.handle message
         = Router.Answer (Intent.Run (PyStr.strip message) None 25)).
Proof.
  intros _ _.
  rewrite chat_cases, chat_lower. unfold Router.handle, Intent.command.
  set (msg := PyStr.strip message). set (lower := PyStr.lower msg).
  destruct (String.eqb msg ""); [split; [intros q a k H|intros H]; discriminate H|].
  destruct (String.eqb_spec lower "help") as [Eh|Nh].
  { rewrite Eh. split; [intros q a k H|intros H]; discriminate H. }
  destruct (String.eqb_spec lower "/help") as [E1|N1].
  { split; [intros q a k _|intros _]; left; auto. }
  destruct (String.eqb_spec lower "commands") as [E2|N2].
  { split; [intros q a k _|intros _]; left; auto. }
  cbn [orb].
  assert (Hsame : forall q a l, exists q',
             Router.Answer (Intent.Run q a l) = Router.Answer (Intent.Run q' a l)
             /\ PyStr.lower q' = PyStr.lower q
             /\ forall x d,
                 Store.probe_ok x = false \/ Store.fulltext_indexes d = [] ->
                 Query._query_mysql x d q' a l = Query._query_mysql x d q a l)
    by (intros q a l; exists q; auto).
  destruct (PyStr.startswith "recent" lower).
  { destruct (PyStr.split msg) as [|w [|n [|]]];
      try (split; [intros q a k H|intros H]; discriminate H).
    destruct (PyStr.isdigit n); (split; [intros q a k H|intros H; discriminate H]);
      [|discriminate H]. injection H as <- <- <-. right. apply Hsame. }
  destruct (PyStr.startswith "find " lower).
  { destruct (String.eqb _ ""); (split; [intros q a k H|intros H; discriminate H]);
      [discriminate H|]. injection H as <- <- <-. right. apply Hsame. }
  destruct (PyStr.startswith "search " lower).
  { destruct (String.eqb _ ""); (split; [intros q a k H|intros H; discriminate H]);
      [discriminate H|]. injection H as <- <- <-. right. apply Hsame. }
  unfold Intent.gate. destruct (Intent.findall lower) as [|t ts].
  { split; [intros q a k H|intros H]; discriminate H. }
  destruct (Intent.accepts _ _); (split; [intros q a k H|intros H]);
    try discriminate H; [|by right].
  injection H as <- <- <-. right. exists msg. split; [reflexivity|].
  split; [subst lower; by rewrite lower_lower|].
  intros x d Hf. subst lower. symmetry. by apply query_lower.
Qed.

(** ** Topics, records and the text of a result *)

Section PresentationFacts.

Import Presentation.

Lemma first_topic_spec (m : list (string * string)) (t : string) :
  NoDup (map snd m) -> "General" ∉ map snd m ->
  (first_topic m t = "General" <-> forall k v, (k, v) ∈ m -> PyStr.contains k t = false)
  /\ (forall i k v, m !! i = Some (k, v) ->
        (first_topic m t = v
         <-> PyStr.contains k t = true
             /\ forall j k' v', j < i -> m !! j = Some (k', v') ->
                                PyStr.contains k' t = false))
  /\ first_topic m t ∈ "General" :: map snd m.
Proof.
  induction m as [|[k0 v0] m IH]; intros Hnd Hg.
  - split; [|split].
    + split; [intros _ k v H; inversion H|reflexivity].
    + intros i k v H. destruct i; discriminate H.
    + simpl. constructor.
  - simpl in Hnd, Hg. apply NoDup_cons in Hnd as [Hv0 Hnd].
    apply not_elem_of_cons in Hg as [Hg0 Hg].
    destruct (IH Hnd Hg) as (IH1 & IH2 & IH3). simpl.
    destruct (PyStr.contains k0 t) eqn:E0.
    + split; [|split].
      * split; [congruence|]. intros H. rewrite (H k0 v0) in E0; [discriminate|].
        constructor.
      * intros [|i] k v Hi; simpl in Hi.
        -- injection Hi as <- <-. split; [|reflexivity]. intros _. split; [exact E0|].
           intros j k' v' Hj. lia.
        -- split.
           ++ intros <-. destruct Hv0. apply list_elem_of_fmap. exists (k, v0).
              split; [reflexivity|]. by apply list_elem_of_lookup_2 in Hi.
           ++ intros [_ H]. rewrite (H 0 k0 v0) in E0; [discriminate|lia|reflexivity].
      * right. by left.
    + split; [|split].
      * rewrite IH1. split.
        -- intros H k v Hin. apply elem_of_cons in Hin as [Heq|Hin];
             [injection Heq as -> ->; exact E0|by apply (H k v)].
        -- intros H k v Hin. apply (H k v). by right.
      * intros [|i] k v Hi; simpl in Hi.
        -- injection Hi as <- <-. split; [|intros [H _]; congruence].
           intros H. exfalso. apply Hv0. rewrite <- H.
           apply elem_of_cons in IH3 as [IH3|IH3]; [congruence|exact IH3].
        -- rewrite (IH2 i k v Hi). split; intros [Hk H]; (split; [exact Hk|]).
           ++ intros [|j] k' v' Hj Hl; simpl in Hl.
              ** by injection Hl as <- <-.
              ** apply (H j k' v'); [lia|exact Hl].
           ++ intros j k' v' Hj Hl. apply (H (S j) k' v'); [lia|exact Hl].
      * apply elem_of_cons in IH3 as [IH3|IH3]; [rewrite IH3; by left|]. right. by right.
Qed.

Lemma concat_cons_nonempty (x : string) (l : list string) :
  String.concat "" (x :: l) = x +:+ String.concat "" l.
Proof. destruct l; simpl; [by rewrite append_empty_r|reflexivity]. Qed.

Lemma concat_app (l1 l2 : list string) :
  String.concat "" (l1 ++ l2) = String.concat "" l1 +:+ String.concat "" l2.
Proof.
  induction l1 as [|x l1 IH]; [reflexivity|].
  change ((x :: l1) ++ l2) with (x :: (l1 ++ l2)).
  by rewrite !concat_cons_nonempty, IH, append_assoc.
Qed.

Lemma chars_go_spec s : forall cur,
  String.concat "" (Fetcher.chars_go cur s) = cur +:+ s
  /\ Forall (fun ch => ch <> "") (Fetcher.chars_go cur s).
Proof.
  induction s as [|c s IH]; intros cur; simpl.
  - destruct (String.eqb_spec cur "") as [->|Hne]; [by split|].
    split; [simpl; by rewrite append_empty_r|]. by repeat constructor.
  - destruct (Fetcher.is_continuation c).
    + destruct (IH (cur +:+ String c "")) as [H1 H2]. split; [|exact H2].
      rewrite H1, append_assoc. reflexivity.
    + destruct (String.eqb_spec cur "") as [->|Hne].
      * destruct (IH (String c "")) as [H1 H2]. split; [|exact H2]. rewrite H1. reflexivity.
      * destruct (IH (String c "")) as [H1 H2]. split; [|by constructor].
        rewrite concat_cons_nonempty, H1. reflexivity.
Qed.

Lemma concat_chars s : String.concat "" (Fetcher.chars s) = s.
Proof. exact (proj1 (chars_go_spec s "")). Qed.

Lemma chars_nonempty s : s <> "" -> Fetcher.chars s <> [].
Proof.
  intros Hs H. pose proof (concat_chars s) as Hc. rewrite H in Hc. simpl in Hc. congruence.
Qed.

Lemma str_or_nonempty a b : b <> "" -> str_or a b <> "".
Proof.
  intros Hb. unfold str_or. destruct a as [s|]; [|exact Hb].
  destruct (String.eqb_spec s ""); assumption.
Qed.

Lemma all_continuation_snoc cur c :
  all_continuation cur = true -> Fetcher.is_continuation c = true ->
  all_continuation (cur +:+ String c "") = true.
Proof.
  intros Hc Hi. induction cur as [|a cur IH]; simpl in *; [by rewrite Hi|].
  apply andb_true_iff in Hc as [-> Hc]. by apply IH.
Qed.

Lemma char_tail_snoc cur c :
  char_tail cur = true -> Fetcher.is_continuation c = true ->
  char_tail (cur +:+ String c "") = true.
Proof.
  destruct cur as [|a cur]; [discriminate|]. simpl. apply all_continuation_snoc.
Qed.

Lemma chars_go_shape s : forall cur,
  cur = "" \/ char_tail cur = true ->
  match Fetcher.chars_go cur s with
  | [] => True
  | ch :: l => char_tail ch = true
               /\ (cur <> "" -> exists t, ch = cur +:+ t)
               /\ Forall (fun ch => char_bytes ch = true) l
  end.
Proof.
  induction s as [|c s IH]; intros cur Hcur; simpl.
  - destruct (String.eqb_spec cur "") as [->|Hne]; [exact I|].
    destruct Hcur as [->|Hcur]; [congruence|].
    split; [exact Hcur|]. split; [|constructor].
    intros _. exists "". by rewrite append_empty_r.
  - destruct (Fetcher.is_continuation c) eqn:Ec.
    + assert (Hc : char_tail (cur +:+ String c "") = true).
      { destruct Hcur as [->|Hcur]; [reflexivity|]. by apply char_tail_snoc. }
      specialize (IH _ (or_intror Hc)).
      destruct (Fetcher.chars_go (cur +:+ String c "") s) as [|ch l]; [exact I|].
      destruct IH as (H1 & H2 & H3). split; [exact H1|]. split; [|exact H3].
      intros _. destruct H2 as [t ->]; [by destruct cur|].
      exists (String c t). by rewrite append_assoc.
    + specialize (IH (String c "") (or_intror eq_refl)).
      assert (Hl : Forall (fun ch => char_bytes ch = true)
                          (Fetcher.chars_go (String c "") s)).
      { destruct (Fetcher.chars_go (String c "") s) as [|ch l]; [constructor|].
        destruct IH as (H1 & H2 & H3). destruct H2 as [t ->]; [discriminate|].
        constructor; [|exact H3]. rewrite append_cons in *. simpl in *. by rewrite Ec. }
      destruct (String.eqb_spec cur "") as [->|Hne].
      * destruct (Fetcher.chars_go (String c "") s) as [|ch l]; [exact I|].
        destruct IH as (H1 & _ & H3). split; [exact H1|]. split; [congruence|exact H3].
      * destruct Hcur as [->|Hcur]; [congruence|]. split; [exact Hcur|].
        split; [|exact Hl]. intros _. exists "". by rewrite append_empty_r.
Qed.

Lemma chars_go_continuation r : forall cur rest,
  all_continuation r = true ->
  Fetcher.chars_go cur (r +:+ rest) = Fetcher.chars_go (cur +:+ r) rest.
Proof.
  induction r as [|c r IH]; intros cur rest Hr.
  - by rewrite append_empty_l, append_empty_r.
  - simpl in Hr. apply andb_true_iff in Hr as [Hc Hr].
    rewrite append_cons. simpl. rewrite Hc, IH by exact Hr.
    by rewrite append_assoc.
Qed.

Lemma chars_go_concat (l : list string) : forall cur,
  cur <> "" -> Forall (fun ch => char_bytes ch = true) l ->
  Fetcher.chars_go cur (String.concat "" l) = cur :: l.
Proof.
  induction l as [|ch l IH]; intros cur Hcur Hl.
  - simpl. by destruct (String.eqb_spec cur "").
  - apply Forall_cons in Hl as [Hch Hl]. rewrite concat_cons_nonempty.
    destruct ch as [|c r]; [discriminate|]. simpl in Hch.
    apply andb_true_iff in Hch as [Hc Hr]. apply negb_true_iff in Hc.
    rewrite append_cons. simpl. rewrite Hc.
    destruct (String.eqb_spec cur ""); [contradiction|]. f_equal.
    rewrite chars_go_continuation by exact Hr. by apply IH.
Qed.

Lemma chars_concat (ch : string) (l : list string) :
  char_tail ch = true -> Forall (fun ch => char_bytes ch = true) l ->
  Fetcher.chars (String.concat "" (ch :: l)) = ch :: l.
Proof.
  intros Hch Hl. rewrite concat_cons_nonempty. unfold Fetcher.chars.
  destruct ch as [|c r]; [discriminate|]. simpl in Hch. rewrite append_cons. simpl.
  assert (H : Fetcher.chars_go (String c "") (r +:+ String.concat "" l) = String c r :: l).
  { rewrite chars_go_continuation by exact Hch. by apply chars_go_concat. }
  destruct (Fetcher.is_continuation c); exact H.
Qed.

Lemma take_chars_spec n s :
  char_count (take_chars n s) = Nat.min n (char_count s)
  /\ (exists rest, s = take_chars n s +:+ rest)
  /\ (char_count s <= n -> take_chars n s = s)
  /\ (0 < n -> s <> "" -> take_chars n s <> "").
Proof.
  unfold take_chars, char_count. split; [|split; [|split]].
  - pose proof (chars_go_shape s "" (or_introl eq_refl)) as Hs.
    fold (Fetcher.chars s) in Hs.
    destruct (Fetcher.chars s) as [|ch l]; [by destruct n|].
    destruct n; [reflexivity|]. destruct Hs as (Hch & _ & Hl).
    simpl take. rewrite chars_concat; [|exact Hch|by apply Forall_take].
    simpl. by rewrite length_take.
  - exists (String.concat "" (drop n (Fetcher.chars s))).
    rewrite <- concat_app, take_drop. symmetry. apply concat_chars.
  - intros H. rewrite take_ge by exact H. apply concat_chars.
  - intros Hn Hs. pose proof (chars_nonempty s Hs) as Hc.
    pose proof (proj2 (chars_go_spec s "")) as Hall. fold (Fetcher.chars s) in Hall.
    destruct (Fetcher.chars s) as [|ch l]; [congruence|].
    destruct n; [lia|]. simpl take. rewrite concat_cons_nonempty.
    apply Forall_cons in Hall as [Hch _]. destruct ch; [congruence|discriminate].
Qed.

Lemma add_to_group_keys g t it :
  map fst (add_to_group g t it)
  = if decide (t ∈ map fst g) then map fst g else map fst g ++ [t].
Proof.
  induction g as [|[t0 items0] g IH]; simpl.
  - destruct (decide (t ∈ [])) as [H|_]; [inversion H|reflexivity].
  - destruct (String.eqb_spec t0 t) as [->|Hne]; simpl.
    + destruct (decide (t ∈ t :: map fst g)) as [_|H]; [reflexivity|].
      destruct H. constructor.
    + rewrite IH. destruct (decide (t ∈ map fst g)) as [Hin|Hnin].
      * destruct (decide (t ∈ t0 :: map fst g)) as [_|H]; [reflexivity|].
        destruct H. by constructor.
      * destruct (decide (t ∈ t0 :: map fst g)) as [H|_]; [|reflexivity].
        apply elem_of_cons in H as [->|H]; [congruence|contradiction].
Qed.

Lemma add_to_group_elem g t it t' items' :
  NoDup (map fst g) -> (t', items') ∈ add_to_group g t it ->
  (t' <> t /\ (t', items') ∈ g)
  \/ (t' = t /\ ((exists items, (t, items) ∈ g /\ items' = items ++ [it])
                \/ ((t ∉ map fst g) /\ items' = [it]))).
Proof.
  induction g as [|[t0 items0] g IH]; simpl; intros Hnd Hin.
  - apply list_elem_of_singleton in Hin. injection Hin as -> ->.
    right. split; [reflexivity|]. right. split; [|reflexivity]. intros H; inversion H.
  - apply NoDup_cons in Hnd as [Ht0 Hnd].
    destruct (String.eqb_spec t0 t) as [->|Hne].
    + apply elem_of_cons in Hin as [Heq|Hin].
      * injection Heq as -> ->. right. split; [reflexivity|]. left.
        exists items0. split; [constructor|reflexivity].
      * left. split; [|by constructor].
        intros ->. apply Ht0. apply list_elem_of_fmap. by exists (t, items').
    + apply elem_of_cons in Hin as [Heq|Hin].
      * injection Heq as -> ->. left. split; [exact Hne|constructor].
      * destruct (IH Hnd Hin) as [[H1 H2]|[-> [(items & H1 & H2)|[H1 H2]]]].
        -- left. split; [exact H1|by constructor].
        -- right. split; [reflexivity|]. left. exists items. split; [by constructor|exact H2].
        -- right. split; [reflexivity|]. right. split; [|exact H2].
           intros H. apply elem_of_cons in H as [H|H]; [congruence|contradiction].
Qed.

Lemma add_to_group_items g t it :
  concat (map snd (add_to_group g t it)) ≡ₚ concat (map snd g) ++ [it].
Proof.
  induction g as [|[t0 items0] g IH]; simpl; [reflexivity|].
  destruct (String.eqb t0 t); simpl.
  - rewrite <- !app_assoc. apply Permutation_app_head. apply Permutation_app_comm.
  - rewrite IH. by rewrite app_assoc.
Qed.

Section Grouping.

Variables (T : Query.hit -> string) (F : Query.hit -> record).

Lemma grouping_step rows g r :
  grouping T F rows g -> grouping T F (rows ++ [r]) (add_to_group g (T r) (F r)).
Proof.
  intros (Hnd & Hel & Hcov & Hperm). split; [|split; [|split]].
  - rewrite add_to_group_keys. destruct (decide (T r ∈ map fst g)); [exact Hnd|].
    apply NoDup_app. split; [exact Hnd|]. split; [|apply NoDup_singleton].
    intros t Ht Ht'. apply list_elem_of_singleton in Ht'. congruence.
  - intros t items Hin. rewrite List.filter_app, map_app. simpl.
    apply add_to_group_elem in Hin as [[Hne Hin]|[-> [(items0 & Hin & ->)|[Hn ->]]]];
      [| | |exact Hnd].
    + destruct (Hel t items Hin) as [H1 H2].
      destruct (String.eqb_spec (T r) t); [congruence|].
      simpl. rewrite app_nil_r. by split.
    + destruct (Hel _ items0 Hin) as [H1 H2]. rewrite String.eqb_refl. simpl.
      split; [by destruct items0|]. by rewrite <- H2.
    + rewrite String.eqb_refl. split; [discriminate|].
      assert (Hnone : List.filter (fun r0 => String.eqb (T r0) (T r)) rows = []).
      { destruct (List.filter _ rows) as [|r0 l] eqn:E; [reflexivity|]. exfalso.
        assert (Hr0 : In r0 (List.filter (fun r0 => String.eqb (T r0) (T r)) rows))
          by (rewrite E; by left).
        apply filter_In in Hr0 as [Hr0 Heq]. apply String.eqb_eq in Heq.
        apply Hn. rewrite <- Heq. apply Hcov. by apply list_elem_of_In. }
      rewrite Hnone. reflexivity.
  - intros r0 Hr0. rewrite add_to_group_keys.
    apply elem_of_app in Hr0 as [Hr0|Hr0].
    + destruct (decide (T r ∈ map fst g)); [by apply Hcov|].
      apply elem_of_app. left. by apply Hcov.
    + apply list_elem_of_singleton in Hr0 as ->.
      destruct (decide (T r ∈ map fst g)); [assumption|].
      apply elem_of_app. right. constructor.
  - rewrite add_to_group_items, map_app, Hperm. reflexivity.
Qed.

Lemma grouping_fold rows : forall done g,
  grouping T F done g ->
  grouping T F (done ++ rows)
           (fold_left (fun grouped r => add_to_group grouped (T r) (F r)) rows g).
Proof.
  induction rows as [|r rows IH]; intros done g Hg; simpl.
  - by rewrite app_nil_r.
  - replace (done ++ r :: rows) with ((done ++ [r]) ++ rows)
      by (by rewrite <- app_assoc).
    apply IH. by apply grouping_step.
Qed.

Lemma grouping_all rows :
  grouping T F rows
           (fold_left (fun grouped r => add_to_group grouped (T r) (F r)) rows []).
Proof.
  apply (grouping_fold rows [] []). split; [constructor|]. split; [|split].
  - intros t items H. inversion H.
  - intros r H. inversion H.
  - reflexivity.
Qed.

End Grouping.

Lemma elem_of_concat {A} (a : A) (ls : list (list A)) :
  a ∈ concat ls <-> exists l, a ∈ l /\ l ∈ ls.
Proof.
  rewrite list_elem_of_In, in_concat. split; intros (l & H1 & H2); exists l;
    rewrite ?list_elem_of_In in *; tauto.
Qed.

Lemma mapM_None {A B} (f : A -> option B) (l : list A) :
  mapM f l = None <-> exists a, a ∈ l /\ f a = None.
Proof.
  induction l as [|a l IH].
  - split; [discriminate|]. intros (a & Ha & _). inversion Ha.
  - simpl. destruct (f a) as [b|] eqn:E; simpl.
    + destruct (mapM f l) as [k|]; simpl.
      * split; [discriminate|]. intros (a' & Ha & Hf).
        apply elem_of_cons in Ha as [->|Ha]; [congruence|].
        destruct IH as [_ IH]. discriminate IH. eauto.
      * split; [|reflexivity]. intros _. destruct IH as [IH _].
        destruct (IH eq_refl) as (a' & Ha & Hf). exists a'. split; [by right|exact Hf].
    + split; [|reflexivity]. intros _. exists a. split; [by left|exact E].
Qed.

Lemma agencies_text_None l : agencies_text l = None <-> all_strings l = false.
Proof.
  unfold agencies_text. destruct l as [|j l]; [split; discriminate|].
  set (l' := j :: l). clearbody l'.
  assert (H : mapM as_str l' = None <-> all_strings l' = false).
  { rewrite mapM_None. unfold all_strings. split.
    - intros (a & Ha & Hf). apply not_true_iff_false. intros Hall.
      rewrite forallb_forall in Hall. specialize (Hall a).
      rewrite <- list_elem_of_In in Hall. specialize (Hall Ha).
      destruct a; simpl in Hf; discriminate.
    - intros Hall. induction l' as [|a l' IH]; [discriminate|]. simpl in Hall.
      destruct a; try (eexists; split; [by left|reflexivity]).
      simpl in Hall. destruct (IH Hall) as (a & Ha & Hf). exists a. split; [by right|exact Hf]. }
  destruct (mapM as_str l'); [|tauto].
  split; [discriminate|]. intros Hall. apply H in Hall. discriminate.
Qed.

Lemma py_or_truthy a b : truthy a = true -> py_or a b = a.
Proof. unfold py_or. by intros ->. Qed.

Lemma names_of_items_found a items :
  a <> "" -> Forall plain_item items ->
  Query.contains_name a (JList items) = true ->
  JStr a ∈ names_of_items items.
Proof.
  intros Ha Hp Hc. simpl in Hc. apply existsb_exists in Hc as (item & Hin & Hc).
  apply list_elem_of_In in Hin. rewrite Forall_forall in Hp. specialize (Hp item Hin).
  unfold names_of_items. apply list_elem_of_omap. exists item. split; [exact Hin|].
  destruct item as [| | | | |l|d]; try discriminate Hc; [destruct Hp|].
  simpl in Hc, Hp. unfold item_name, PyDict.get.
  destruct (PyDict.lookup d "name") as [v|]; [|discriminate Hc].
  destruct v as [| | | |s|l|d']; try discriminate Hc; [|destruct Hp].
  simpl in Hc. apply String.eqb_eq in Hc. subst s.
  assert (Ht : truthy (JStr a) = true) by (destruct a; [congruence|reflexivity]).
  rewrite !py_or_truthy by (rewrite ?py_or_truthy; exact Ht). by rewrite Ht.
Qed.

End PresentationFacts.

(** X16. Topic of a title: [_topic_from_title] returns the label of the
    first keyword of its table, in the table's order, that occurs in the
    lowercased title as a substring, and [General] exactly when none
    occurs, when the title is empty or when it is [NULL]; it is one of
    the ten labels and does not depend on the letter case of the title. *)
Theorem topic_is_first_keyword (s : string) :
  s <> "" ->
  (forall i k v,
      Presentation.mapping !! i = Some (k, v) ->
      (Presentation._topic_from_title (Some s) = v
       <-> PyStr.contains k (PyStr.lower s) = true
           /\ forall j k' v', j < i -> Presentation.mapping !! j = Some (k', v') ->
                              PyStr.contains k' (PyStr.lower s) = false))
  /\ (Presentation._topic_from_title (Some s) = "General"
      <-> forall k v, (k, v) ∈ Presentation.mapping ->
                      PyStr.contains k (PyStr.lower s) = false)
  /\ Presentation._topic_from_title (Some s) ∈ "General" :: map snd Presentation.mapping
  /\ Presentation._topic_from_title (Some (PyStr.lower s))
     = Presentation._topic_from_title (Some s)
  /\ Presentation._topic_from_title None = "General"
  /\ Presentation._topic_from_title (Some "") = "General".
Proof.
  intros Hs. unfold Presentation._topic_from_title.
  destruct (String.eqb_spec s "") as [E|_]; [destruct (Hs E)|].
  destruct (String.eqb_spec (PyStr.lower s) "") as [E|_];
    [destruct (Hs (proj1 (lower_empty s) E))|].
  destruct (first_topic_spec Presentation.mapping (PyStr.lower s)) as (H1 & H2 & H3).
  - apply (bool_decide_unpack _). vm_compute. exact I.
  - apply (bool_decide_unpack _). vm_compute. exact I.
  - rewrite lower_lower. split; [exact H2|]. split; [exact H1|]. split; [exact H3|].
    split; [reflexivity|]. split; reflexivity.
Qed.

(** X17. Fields of a formatted record: the title and the summary of
    [_format_record] are never empty; the summary consists of the first
    600 characters of the excerpt, or of the abstract when the excerpt is
    missing or empty, or of a fixed text when both are, and is the whole
    text when that has at most 600 characters. *)
Theorem format_record_fields (x : Store.externals) (c : Presentation.codec)
        (row : Query.hit) :
  let r := Presentation._format_record x c row in
  Presentation.title r <> ""
  /\ Presentation.summary r <> ""
  /\ char_count (Presentation.summary r) = Nat.min 600 (char_count (summary_source row))
  /\ (exists rest, summary_source row = Presentation.summary r +:+ rest)
  /\ (char_count (summary_source row) <= 600 ->
      Presentation.summary r = summary_source row).
Proof.
  intros r. subst r. cbn [Presentation._format_record Presentation.title Presentation.summary].
  fold (summary_source row).
  destruct (take_chars_spec 600 (summary_source row)) as (H1 & H2 & H3 & H4).
  split; [|split; [|split; [|split]]]; try assumption.
  - apply str_or_nonempty, str_or_nonempty. discriminate.
  - apply H4; [lia|]. apply str_or_nonempty, str_or_nonempty. discriminate.
Qed.

(** X18. Outcome of [run]: without rows, and so whenever the database
    cannot be reached, it returns the line that nothing was found; with
    rows it raises exactly when the agency list of some row holds an item
    that is not a string ([join] refuses it), and otherwise returns a
    text that starts with the heading and ends with the hint. *)
Theorem run_outcome (x : Store.externals) (c : Presentation.codec) (d : Store.db)
        (query : string) (agency : option string) (limit : Z) :
  let rows := Query._query_mysql x d query agency limit in
  (rows = [] -> Presentation.run x c d query agency limit
                = Returned Presentation.no_results)
  /\ (Store.connect_ok x = false ->
      Presentation.run x c d query agency limit = Returned Presentation.no_results)
  /\ (Presentation.run x c d query agency limit = Raised
      <-> exists h, h ∈ rows
                    /\ all_strings (Presentation.agencies
                                      (Presentation._format_record x c h)) = false)
  /\ (forall out,
         Presentation.run x c d query agency limit = Returned out -> rows <> [] ->
         exists body, out = Presentation.header +:+ body +:+ Presentation.footer).
Proof.
  intros rows. unfold Presentation.run. fold rows.
  assert (Hdown : Store.connect_ok x = false -> rows = []).
  { intros H. subst rows. unfold Query._query_mysql, Query.selected_rows. by rewrite H. }
  assert (Hraise : mapM Presentation.section_text (Presentation.group_rows x c rows) = None
                   <-> exists h, h ∈ rows
                         /\ all_strings (Presentation.agencies
                                           (Presentation._format_record x c h)) = false).
  { destruct (grouping_all (fun r => Presentation._topic_from_title (Query.hit_title r))
                (Presentation._format_record x c) rows) as (_ & _ & _ & Hperm).
    fold (Presentation.group_rows x c rows) in Hperm.
    rewrite mapM_None. split.
    - intros ([t items] & Hin & Hnone). unfold Presentation.section_text in Hnone.
      simpl in Hnone. destruct (mapM Presentation.item_text items) eqn:E; [discriminate|].
      apply mapM_None in E as (it & Hit & Hnone').
      assert (Hall : it ∈ map (Presentation._format_record x c) rows).
      { rewrite <- Hperm. apply elem_of_concat. exists items. split; [exact Hit|].
        apply list_elem_of_fmap. by exists (t, items). }
      apply list_elem_of_fmap in Hall as (h & -> & Hh). exists h. split; [exact Hh|].
      apply agencies_text_None. unfold Presentation.item_text in Hnone'.
      by destruct (Presentation.agencies_text _).
    - intros (h & Hh & Hall).
      assert (Hin : Presentation._format_record x c h
                    ∈ concat (map snd (Presentation.group_rows x c rows))).
      { rewrite Hperm. apply list_elem_of_fmap. by exists h. }
      apply elem_of_concat in Hin as (items & Hit & Hitems).
      apply list_elem_of_fmap in Hitems as ([t items'] & -> & Hg).
      exists (t, items'). split; [exact Hg|]. unfold Presentation.section_text.
      assert (E : mapM Presentation.item_text (snd (t, items')) = None).
      { apply mapM_None. exists (Presentation._format_record x c h). split; [exact Hit|].
        unfold Presentation.item_text. apply agencies_text_None in Hall. by rewrite Hall. }
      by rewrite E. }
  unfold Presentation.render.
  split; [intros ->; reflexivity|]. split; [intros H; by rewrite (Hdown H)|]. split.
  - destruct rows as [|h rows'] eqn:Er.
    + split; [discriminate|]. intros (h & Hh & _). inversion Hh.
    + rewrite <- Hraise. destruct (mapM _ _); split; congruence.
  - intros out Hout Hne. destruct rows as [|h rows']; [congruence|].
    destruct (mapM _ _) as [sections|]; [|discriminate].
    injection Hout as <-. by exists (String.concat "" sections).
Qed.

(** X19. Grouping by topic: the groups that [run] builds have distinct
    topics; the group of a topic holds the formatted rows of that topic,
    all of them and in the order of the result, and is not empty; every
    row's topic has a group, so every row is shown exactly once. *)
Theorem rows_grouped_by_topic (x : Store.externals) (c : Presentation.codec)
        (rows : list Query.hit) :
  let topic r := Presentation._topic_from_title (Query.hit_title r) in
  let g := Presentation.group_rows x c rows in
  NoDup (map fst g)
  /\ (forall t items,
         (t, items) ∈ g ->
         items <> []
         /\ items = map (Presentation._format_record x c)
                        (List.filter (fun r => String.eqb (topic r) t) rows))
  /\ (forall r, r ∈ rows -> topic r ∈ map fst g)
  /\ concat (map snd g) ≡ₚ map (Presentation._format_record x c) rows.
Proof.
  intros topic g.
  exact (grouping_all topic (Presentation._format_record x c) rows).
Qed.

(** X20. The agency filter and the display agree: when the agency lists
    are stored as the listing delivers them (strings, or objects whose
    name is a string) and the codec gives the stored document back,
    every row that [_query_mysql] returns for an agency filter shows
    that agency in its formatted record. *)
Theorem found_agency_is_displayed (x : Store.externals) (c : Presentation.codec)
        (d : Store.db) (query a : string) (limit : Z) (h : Query.hit) :
  a <> "" ->
  (forall r j, r ∈ Store.documents d -> Store.agencies r = Some j ->
               plain_agencies j /\ round_trip c j) ->
  h ∈ Query._query_mysql x d query (Some a) limit ->
  JStr a ∈ Presentation.agencies (Presentation._format_record x c h).
Proof.
  intros Ha Hstored Hh. unfold Query._query_mysql in Hh.
  apply list_elem_of_fmap in Hh as (r & -> & Hr). apply list_elem_of_In in Hr.
  assert (Hsel : In r (Store.documents d) /\ Query.agency_where (Some a) r = true).
  { destruct (Query.text_where x d (PyStr.strip query)) as [cond|] eqn:E.
    - destruct (selected_rows_satisfy x d query (Some a) limit cond r E Hr)
        as (H1 & _ & H3). by split.
    - unfold Query.selected_rows in Hr. rewrite E in Hr.
      destruct (Store.connect_ok x); destruct Hr. }
  destruct Hsel as [Hin Hag]. unfold Query.agency_where in Hag.
  destruct (String.eqb_spec a ""); [contradiction|].
  destruct (Store.agencies r) as [j|] eqn:Ej; [|discriminate].
  destruct (Hstored r j (proj2 (list_elem_of_In _ _) Hin) Ej)
    as [Hp (text & Hval & Hne & Hrt)].
  cbn [Presentation._format_record Presentation.agencies Query.select_columns
       Query.hit_agencies].
  rewrite Ej, Hval. unfold Presentation._parse_agencies.
  assert (Ht : truthy (JStr text) = true)
    by (simpl; destruct text; [congruence|reflexivity]).
  rewrite Ht, Hrt. cbn [negb].
  destruct j as [| | | | |items|dd]; try discriminate Hag.
  - by apply names_of_items_found.
  - simpl in Hag, Hp. unfold PyDict.get.
    destruct (PyDict.lookup dd "name") as [v|]; [|discriminate Hag].
    destruct v as [| | | |s|l|d']; try discriminate Hag; [|destruct Hp].
    simpl in Hag. apply String.eqb_eq in Hag. subst s.
    assert (Hta : truthy (JStr a) = true) by (destruct a; [congruence|reflexivity]).
    rewrite !py_or_truthy by (rewrite ?py_or_truthy; exact Hta). constructor.
Qed.

(** ** The keywords of the snapshot *)

Section KeywordFacts.

Import Helpers.

Ltac by_cases_at c :=
  destruct c as [[] [] [] [] [] [] [] []]; vm_compute; try reflexivity; try discriminate.

Lemma lower_char_token c :
  Intent.is_token_char c = true -> Intent.is_token_char (PyStr.lower_char c) = true.
Proof. by_cases_at c. Qed.

Lemma tokenize_go s : forall b cur,
  token_chars cur = true ->
  Forall (fun t => token_chars t = true)
         (PyStr.split_go cur (PyStr.lower (sub_go b s))).
Proof.
  induction s as [|c s IH]; intros b cur Hcur; simpl.
  - destruct (String.eqb cur ""); repeat constructor. exact Hcur.
  - destruct (Intent.is_token_char c) eqn:Ec.
    + simpl. rewrite (token_char_not_space _ (lower_char_token c Ec)).
      apply IH. apply token_chars_snoc; [exact Hcur|by apply lower_char_token|].
      apply lower_char_not_upper.
    + destruct b; [by apply IH|]. simpl.
      change (PyStr.is_space (PyStr.lower_char " ")) with true. cbv iota.
      destruct (String.eqb cur ""); [by apply IH|]. constructor; [exact Hcur|by apply IH].
Qed.

Lemma lstrip_edge_tokens s : token_chars s = true -> token_chars (lstrip_edge s) = true.
Proof.
  induction s as [|c s IH]; [reflexivity|]. intros H. simpl.
  destruct (is_edge c); [|exact H]. simpl in H. apply andb_true_iff in H as [_ H]. auto.
Qed.

Lemma rstrip_edge_tokens s : token_chars s = true -> token_chars (rstrip_edge s) = true.
Proof.
  induction s as [|c s IH]; [reflexivity|]. intros H. simpl in H.
  apply andb_true_iff in H as [Hc H]. specialize (IH H). simpl.
  destruct (rstrip_edge s) as [|c' r'].
  - destruct (is_edge c); [reflexivity|]. simpl. by rewrite Hc.
  - change (token_chars (String c (String c' r')))
      with (Intent.is_token_char c && negb (PyStr.is_upper c)
            && token_chars (String c' r')).
    by rewrite Hc, IH.
Qed.

Lemma tokenize_tokens text t : t ∈ _tokenize text -> token_chars t = true.
Proof.
  unfold _tokenize. destruct (String.eqb text ""); [intros H; inversion H|].
  intros H. apply list_elem_of_fmap in H as (t0 & -> & H).
  pose proof (tokenize_go text false "" eq_refl) as Hall.
  rewrite Forall_forall in Hall. specialize (Hall t0 H).
  unfold strip_edge. by apply rstrip_edge_tokens, lstrip_edge_tokens.
Qed.

Lemma bump_keys c t :
  map fst (bump c t) = if decide (t ∈ map fst c) then map fst c else map fst c ++ [t].
Proof.
  induction c as [|[t0 n0] c IH]; simpl.
  - destruct (decide (t ∈ [])) as [H|_]; [inversion H|reflexivity].
  - destruct (String.eqb_spec t0 t) as [->|Hne]; simpl.
    + destruct (decide (t ∈ t :: map fst c)) as [_|H]; [reflexivity|].
      destruct H. constructor.
    + rewrite IH. destruct (decide (t ∈ map fst c)) as [Hin|Hnin].
      * destruct (decide (t ∈ t0 :: map fst c)) as [_|H]; [reflexivity|].
        destruct H. by constructor.
      * destruct (decide (t ∈ t0 :: map fst c)) as [H|_]; [|reflexivity].
        apply elem_of_cons in H as [->|H]; [congruence|contradiction].
Qed.

Lemma bump_elem c t t' n' :
  NoDup (map fst c) -> (t', n') ∈ bump c t ->
  (t' <> t /\ (t', n') ∈ c)
  \/ (t' = t /\ ((exists n, (t, n) ∈ c /\ n' = S n) \/ ((t ∉ map fst c) /\ n' = 1))).
Proof.
  induction c as [|[t0 n0] c IH]; simpl; intros Hnd Hin.
  - apply list_elem_of_singleton in Hin. injection Hin as -> ->.
    right. split; [reflexivity|]. right. split; [|reflexivity]. intros H; inversion H.
  - apply NoDup_cons in Hnd as [Ht0 Hnd].
    destruct (String.eqb_spec t0 t) as [->|Hne].
    + apply elem_of_cons in Hin as [Heq|Hin].
      * injection Heq as -> ->. right. split; [reflexivity|]. left.
        exists n0. split; [constructor|reflexivity].
      * left. split; [|by constructor].
        intros ->. apply Ht0. apply list_elem_of_fmap. by exists (t, n').
    + apply elem_of_cons in Hin as [Heq|Hin].
      * injection Heq as -> ->. left. split; [exact Hne|constructor].
      * destruct (IH Hnd Hin) as [[H1 H2]|[-> [(n & H1 & H2)|[H1 H2]]]].
        -- left. split; [exact H1|by constructor].
        -- right. split; [reflexivity|]. left. exists n. split; [by constructor|exact H2].
        -- right. split; [reflexivity|]. right. split; [|exact H2].
           intros H. apply elem_of_cons in H as [H|H]; [congruence|contradiction].
Qed.

Lemma count_occ_snoc (toks : list string) t t' :
  count_occ string_dec (toks ++ [t]) t'
  = count_occ string_dec toks t' + (if string_dec t t' then 1 else 0).
Proof. rewrite count_occ_app. simpl. by destruct (string_dec t t'). Qed.

Lemma counts_step c toks t : counts_of c toks -> counts_of (bump c t) (toks ++ [t]).
Proof.
  intros (Hnd & Hel & Hcov). split; [|split].
  - rewrite bump_keys. destruct (decide (t ∈ map fst c)); [exact Hnd|].
    apply NoDup_app. split; [exact Hnd|]. split; [|apply NoDup_singleton].
    intros k Hk Hk'. apply list_elem_of_singleton in Hk'. congruence.
  - intros t' n' Hin. rewrite count_occ_snoc.
    apply bump_elem in Hin as [[Hne Hin]|[-> [(n & Hin & ->)|[Hn ->]]]]; [| | |exact Hnd].
    + destruct (Hel t' n' Hin) as [H1 H2].
      destruct (string_dec t t'); [congruence|]. lia.
    + destruct (Hel t n Hin) as [H1 H2].
      destruct (string_dec t t); [lia|congruence].
    + destruct (string_dec t t); [|congruence].
      assert (count_occ string_dec toks t = 0); [|lia].
      destruct (count_occ string_dec toks t) eqn:E; [reflexivity|].
      destruct Hn. apply Hcov. lia.
  - intros t' Ht'. rewrite count_occ_snoc in Ht'. rewrite bump_keys.
    destruct (string_dec t t') as [->|Hne].
    + destruct (decide (t' ∈ map fst c)); [assumption|].
      apply elem_of_app. right. constructor.
    + assert (t' ∈ map fst c) by (apply Hcov; lia).
      destruct (decide (t ∈ map fst c)); [assumption|]. apply elem_of_app. by left.
Qed.

Lemma counts_tokens min_len toks' : forall c toks,
  counts_of c toks ->
  counts_of (fold_left (fun c t => if counted min_len t then bump c t else c) toks' c)
            (toks ++ List.filter (counted min_len) toks').
Proof.
  induction toks' as [|t toks' IH]; intros c toks Hc; simpl.
  - by rewrite app_nil_r.
  - destruct (counted min_len t).
    + replace (toks ++ t :: List.filter (counted min_len) toks')
        with ((toks ++ [t]) ++ List.filter (counted min_len) toks')
        by (by rewrite <- app_assoc).
      apply IH. by apply counts_step.
    + by apply IH.
Qed.

Lemma counts_titles min_len titles : forall c toks,
  counts_of c toks ->
  counts_of (fold_left (count_title min_len) titles c)
            (toks ++ List.filter (counted min_len) (flat_map _tokenize titles)).
Proof.
  induction titles as [|title titles IH]; intros c toks Hc; simpl.
  - by rewrite app_nil_r.
  - rewrite List.filter_app, app_assoc. apply IH. unfold count_title.
    destruct (String.eqb_spec title "") as [->|_].
    + simpl. by rewrite app_nil_r.
    + by apply counts_tokens.
Qed.

Lemma insert_by_count_perm x l : insert_by_count x l ≡ₚ x :: l.
Proof.
  induction l as [|y l IH]; simpl; [reflexivity|].
  destruct (snd y <=? snd x)%nat; [reflexivity|]. rewrite IH. apply Permutation_swap.
Qed.

Lemma insert_by_count_sorted x l :
  StronglySorted by_count l -> StronglySorted by_count (insert_by_count x l).
Proof.
  induction 1 as [|y l Hl IH Hy]; simpl; [repeat constructor|].
  destruct (Nat.leb_spec (snd y) (snd x)) as [Hle|Hgt].
  - constructor; [by constructor|]. constructor; [exact Hle|].
    eapply Forall_impl; [exact Hy|]. intros z Hz. unfold by_count in *. lia.
  - constructor; [exact IH|]. rewrite insert_by_count_perm.
    constructor; [unfold by_count; lia|exact Hy].
Qed.

Lemma sorted_counter c :
  foldr insert_by_count [] c ≡ₚ c
  /\ StronglySorted by_count (foldr insert_by_count [] c).
Proof.
  induction c as [|x c [IH1 IH2]]; simpl; [split; constructor|]. split.
  - by rewrite insert_by_count_perm, IH1.
  - by apply insert_by_count_sorted.
Qed.

Lemma counted_spec min_len t :
  counted min_len t = true ->
  min_len <= String.length t /\ (t ∉ STOPWORDS) /\ PyStr.isdigit t = false.
Proof.
  unfold counted. rewrite andb_true_iff, !negb_true_iff, orb_false_iff.
  intros [[H1 H2] H3]. apply Nat.ltb_ge in H1. split; [exact H1|]. split; [|exact H3].
  intros Hin. apply not_true_iff_false in H2. apply H2. apply existsb_exists.
  exists t. split; [by apply list_elem_of_In|apply String.eqb_refl].
Qed.

Lemma startswith_no_space p : forall k,
  PyStr.startswith p k = true -> no_space k = true -> no_space p = true.
Proof.
  induction p as [|a p IH]; intros k Hs Hk; [reflexivity|].
  destruct k as [|b k]; [discriminate Hs|]. rewrite startswith_cons in Hs.
  destruct (ascii_dec a b) as [->|]; [|discriminate Hs].
  simpl in Hk. apply andb_true_iff in Hk as [Hb Hk]. simpl. rewrite Hb.
  by apply (IH k).
Qed.

Lemma sorted_by_occurrence (occ : string -> nat) (l : Helpers.counter) :
  StronglySorted by_count l -> (forall k m, (k, m) ∈ l -> m = occ k) ->
  StronglySorted (fun a b => occ b <= occ a) (map fst l).
Proof.
  induction 1 as [|[k m] l Hl IH Hk]; intros Hocc; simpl; constructor.
  - apply IH. intros k' m' H. apply Hocc. by right.
  - apply Forall_forall. intros k' Hk'.
    apply list_elem_of_fmap in Hk' as ([k0 m0] & -> & Hin). simpl.
    rewrite Forall_forall in Hk. specialize (Hk _ Hin). unfold by_count in Hk. simpl in Hk.
    rewrite <- (Hocc k m) by (by left). rewrite <- (Hocc k0 m0) by (by right). exact Hk.
Qed.

(** The shape of a top keyword. *)
Lemma top_keywords_shape titles n min_len k :
  k ∈ get_top_keywords (Some titles) n min_len ->
  token_chars k = true /\ min_len <= String.length k.
Proof.
  intros Hk. unfold get_top_keywords in Hk.
  apply list_elem_of_fmap in Hk as ([k0 m] & -> & Hk). simpl.
  apply (subseteq_take n) in Hk.
  destruct (sorted_counter (fold_left (count_title min_len) titles [])) as [Hperm _].
  rewrite Hperm in Hk.
  destruct (counts_titles min_len titles [] []) as (_ & Hel & _).
  { split; [constructor|]. split; [intros t m' H; inversion H|simpl; lia]. }
  destruct (Hel k0 m Hk) as [-> Hpos]. simpl in Hpos.
  apply (count_occ_In string_dec) in Hpos. apply filter_In in Hpos as [Hflat Hcounted].
  apply in_flat_map in Hflat as (title & _ & Hkt).
  destruct (counted_spec _ _ Hcounted) as (H1 & _).
  split; [|exact H1]. apply (tokenize_tokens title). by apply list_elem_of_In.
Qed.

End KeywordFacts.

(** X21. The top keywords: [get_top_keywords] returns at most [n]
    distinct tokens, each made of lowercase token characters, at least
    [min_len] long, not a stop word and not a number, and each occurring
    in some title; they stand by falling number of occurrences, and no
    token left out occurs more often than a returned one.  When the
    statement raises, the result is empty. *)
Theorem top_keywords_are_the_most_frequent (titles : list string) (n min_len : nat) :
  let ks := Helpers.get_top_keywords (Some titles) n min_len in
  let occ := occurrences min_len titles in
  length ks <= n /\ NoDup ks
  /\ (forall k, k ∈ ks ->
        token_chars k = true /\ min_len <= String.length k
        /\ (k ∉ Helpers.STOPWORDS) /\ PyStr.isdigit k = false
        /\ 0 < occ k /\ exists title, title ∈ titles /\ k ∈ Helpers._tokenize title)
  /\ StronglySorted (fun a b => occ b <= occ a) ks
  /\ (forall k k', k ∈ ks -> k' ∉ ks -> occ k' <= occ k)
  /\ Helpers.get_top_keywords None n min_len = [].
Proof.
  intros ks occ.
  set (toks := List.filter (Helpers.counted min_len) (flat_map Helpers._tokenize titles)).
  set (c := fold_left (Helpers.count_title min_len) titles []).
  set (sorted := foldr Helpers.insert_by_count [] c).
  assert (Hc : counts_of c toks).
  { apply (counts_titles min_len titles [] []). split; [constructor|].
    split; [intros t m H; inversion H|simpl; lia]. }
  destruct Hc as (Hnd & Hel & Hcov).
  destruct (sorted_counter c) as [Hperm Hsorted]. fold sorted in Hperm, Hsorted.
  assert (Hks : ks = map fst (take n sorted)) by reflexivity.
  assert (Hcount : forall k m, (k, m) ∈ sorted -> m = occ k /\ 0 < m).
  { intros k m H. apply Hel. by rewrite <- Hperm. }
  assert (Hin : forall k, k ∈ ks -> (k, occ k) ∈ take n sorted /\ 0 < occ k).
  { intros k Hk. rewrite Hks in Hk. apply list_elem_of_fmap in Hk as ([k0 m] & -> & Hk).
    simpl. destruct (Hcount k0 m) as [-> Hpos]; [by apply (subseteq_take n)|].
    by split. }
  split; [|split; [|split; [|split; [|split]]]].
  - rewrite Hks, length_map, length_take. lia.
  - rewrite Hks. change (map fst (take n sorted)) with (fst <$> take n sorted).
    rewrite fmap_take. apply (sublist_NoDup _ (fst <$> sorted)); [|apply sublist_take].
    change (fst <$> sorted) with (map fst sorted). by rewrite Hperm.
  - intros k Hk. destruct (Hin k Hk) as [_ Hpos].
    assert (Hk' : In k toks) by (apply (count_occ_In string_dec); exact Hpos).
    apply filter_In in Hk' as [Hflat Hcounted].
    apply in_flat_map in Hflat as (title & Ht & Hkt).
    destruct (counted_spec _ _ Hcounted) as (H1 & H2 & H3).
    rewrite <- !list_elem_of_In in *.
    split; [by apply (tokenize_tokens title)|]. repeat (split; [assumption|]).
    by exists title.
  - rewrite Hks. apply sorted_by_occurrence; [by apply StronglySorted_take|].
    intros k m H. apply Hcount. by apply (subseteq_take n).
  - intros k k' Hk Hk'. destruct (Hin k Hk) as [Hk1 _].
    destruct (Nat.eq_dec (occ k') 0) as [->|Hpos]; [lia|].
    assert (Hkey : k' ∈ map fst c) by (apply Hcov; change (0 < occ k'); lia).
    apply list_elem_of_fmap in Hkey as ([k0 m'] & -> & Hc'). simpl in *.
    rewrite <- Hperm in Hc'. destruct (Hcount _ _ Hc') as [-> _].
    rewrite <- (take_drop n sorted) in Hc', Hsorted.
    apply elem_of_app in Hc' as [Hc'|Hc'].
    + destruct Hk'. rewrite Hks. apply list_elem_of_fmap. by exists (k0, occ k0).
    + exact (sorted_app_elem by_count _ _ Hsorted _ _ Hk1 Hc').
  - reflexivity.
Qed.

(** X22. A keyword is a query: with the top keywords as the keywords of
    the snapshot ([min_len] positive), every keyword typed alone is
    passed on to the search by [chat], except a keyword that starts with
    [recent] or is [help], which is taken for the command. *)
Theorem top_keyword_is_accepted (m : Intent.meta) (titles : list string)
        (n min_len : nat) (k : string) :
  0 < min_len ->
  Intent.keywords m = Helpers.get_top_keywords (Some titles) n min_len ->
  k ∈ Intent.keywords m ->
  PyStr.startswith "recent" k = false -> k <> "help" ->
  Intent.chat m k = Intent.Run k None 25.
Proof.
  intros Hmin Hm Hk Hr Hh.
  assert (Hshape : token_chars k = true /\ k <> "").
  { rewrite Hm in Hk.
    destruct (top_keywords_shape titles n min_len k Hk) as [Ht Hl].
    split; [exact Ht|]. intros ->. simpl in Hl. lia. }
  destruct Hshape as [Ht Hne].
  assert (Hstrip : PyStr.strip k = k) by exact (strip_repeat_word k 0 Ht Hne).
  assert (Hlower : PyStr.lower k = k) by (by apply lower_token).
  assert (Hfind : Intent.findall k = [k]) by exact (findall_repeat_word k 0 Ht Hne).
  pose proof (token_no_space k Ht) as Hsp.
  rewrite chat_cases, Hstrip, Hlower, Hstrip.
  destruct (String.eqb_spec k ""); [contradiction|].
  assert (Hc : Intent.command k k = None).
  { apply command_none; try assumption.
    - destruct (PyStr.startswith "find " k) eqn:E; [|reflexivity].
      by pose proof (startswith_no_space _ _ E Hsp).
    - destruct (PyStr.startswith "search " k) eqn:E; [|reflexivity].
      by pose proof (startswith_no_space _ _ E Hsp). }
  rewrite Hc, gate_decides by (rewrite Hfind; discriminate).
  rewrite Hfind, accepts_all; [reflexivity| |].
  - intros t Hin. apply elem_of_list_to_set, list_elem_of_singleton in Hin as ->.
    unfold Intent.domain_tokens. apply elem_of_union_l, elem_of_union_l.
    unfold Intent.vocabulary. apply elem_of_union_list.
    exists (list_to_set (Intent.findall (PyStr.lower k))). split.
    + apply list_elem_of_fmap. by exists k.
    + rewrite Hlower, Hfind. apply elem_of_list_to_set. constructor.
  - simpl. intros H.
    assert (Hin : k ∈ (∅ : gset string))
      by (rewrite <- H; apply elem_of_union_l, elem_of_singleton; reflexivity).
    by apply elem_of_empty in Hin.
Qed.

(** ** The fulltext indexes and the search *)

Section IndexFacts.

Import Store Indexing.

Variable x : externals.
Hypothesis Hadds : server_adds_indexes x.

Lemma try_execute_indexes sql cols d :
  (forall d', mysql_exec x sql [] d = Some d' ->
              fulltext_indexes d' = fulltext_indexes d ++ [cols]
              /\ documents d' = documents d) ->
  documents (try_execute x sql d) = documents d
  /\ (fulltext_indexes (try_execute x sql d) = fulltext_indexes d
      \/ fulltext_indexes (try_execute x sql d) = fulltext_indexes d ++ [cols]).
Proof.
  intros H. unfold try_execute, cursor_execute. simpl.
  destruct (Nat.eqb (count_markers sql) 0); [|split; [reflexivity|by left]].
  destruct (mysql_exec x sql [] d) as [d'|] eqn:E; [|split; [reflexivity|by left]].
  destruct (H d' eq_refl) as [Hi Hd]. split; [exact Hd|by right].
Qed.

Lemma create_indexes_rows d : documents (create_indexes x d) = documents d.
Proof.
  unfold create_indexes. destruct (connect_ok x); [|reflexivity].
  set (d1 := try_execute x title_index_sql d).
  destruct (try_execute_indexes raw_json_index_sql raw_json_index_columns d1) as [-> _];
    [intros d'; apply Hadds|].
  subst d1.
  destruct (try_execute_indexes title_index_sql title_index_columns d) as [-> _];
    [intros d'; apply Hadds|reflexivity].
Qed.

Lemma create_indexes_columns d cols :
  cols ∈ fulltext_indexes (create_indexes x d) ->
  cols ∈ fulltext_indexes d \/ cols = title_index_columns \/ cols = raw_json_index_columns.
Proof.
  unfold create_indexes. destruct (connect_ok x); [|by left].
  set (d1 := try_execute x title_index_sql d).
  destruct (try_execute_indexes raw_json_index_sql raw_json_index_columns d1)
    as [_ [-> | ->]];
    [intros d'; apply Hadds| |];
    (destruct (try_execute_indexes title_index_sql title_index_columns d) as [_ [H|H]];
     [intros d'; apply Hadds| |]); fold d1 in H; rewrite H;
    rewrite ?elem_of_app, ?list_elem_of_singleton; tauto.
Qed.

End IndexFacts.

Lemma refused_probe_ignores_indexes x d d' query agency limit :
  Store.probe_ok x = false -> Store.documents d' = Store.documents d ->
  Query._query_mysql x d' query agency limit = Query._query_mysql x d query agency limit.
Proof.
  intros Hp Hd. unfold Query._query_mysql, Query.selected_rows, Query.text_where.
  rewrite Hp, Hd, andb_false_r. reflexivity.
Qed.

(** X23. The indexes of [create_indexes] and the search, on a server
    that adds the indexes it is asked for and leaves the rows as they
    are.  [create_indexes] changes no row.  Where the server refuses the
    probe statement of [_query_mysql] (as MySQL does, whose [SHOW INDEX]
    takes no [LIMIT]), the search does not see the indexes: every search
    returns after [create_indexes] what it returned before, and [run]
    answers the same.  Where the server accepts the probe and, as MySQL
    does, refuses a [MATCH] without a fulltext index on exactly its
    column list, a table that had no fulltext index has, after
    [create_indexes], none on the four columns that [_query_mysql]
    matches against; so as soon as one of the two indexes exists, every
    search with a text of ASCII characters returns no row, and [run]
    answers that nothing was found. *)
Theorem create_indexes_and_text_search (x : Store.externals) (c : Presentation.codec)
        (d : Store.db) (query : string) (agency : option string) (limit : Z) :
  Indexing.server_adds_indexes x ->
  let d' := Indexing.create_indexes x d in
  Store.documents d' = Store.documents d
  /\ (Store.probe_ok x = false ->
      Query._query_mysql x d' query agency limit = Query._query_mysql x d query agency limit
      /\ Presentation.run x c d' query agency limit = Presentation.run x c d query agency limit)
  /\ (Store.probe_ok x = true -> Indexing.server_match_rule x ->
      Store.fulltext_indexes d = [] -> Store.fulltext_indexes d' <> [] ->
      ascii_text query = true -> PyStr.strip query <> "" ->
      (Indexing.match_columns ∉ Store.fulltext_indexes d')
      /\ Query._query_mysql x d' query agency limit = []
      /\ Presentation.run x c d' query agency limit = Returned Presentation.no_results).
Proof.
  intros Hadds d'.
  assert (Hdocs : Store.documents d' = Store.documents d)
    by apply (create_indexes_rows x Hadds).
  split; [exact Hdocs|]. split.
  - intros Hprobe.
    assert (Hsame := refused_probe_ignores_indexes x d d' query agency limit Hprobe Hdocs).
    split; [exact Hsame|]. unfold Presentation.run. by rewrite Hsame.
  - intros Hprobe Hmatch Hnone Hsome _ Hq.
    assert (Hcols : Indexing.match_columns ∉ Store.fulltext_indexes d').
    { intros H. apply (create_indexes_columns x Hadds) in H as [H|[H|H]];
        [rewrite Hnone in H; inversion H|discriminate H|discriminate H]. }
    assert (Hrows : Query._query_mysql x d' query agency limit = []).
    { unfold Query._query_mysql, Query.selected_rows, Query.text_where.
      rewrite Hprobe. destruct (Store.connect_ok x); [|reflexivity].
      destruct (String.eqb_spec (PyStr.strip query) ""); [contradiction|].
      destruct (Store.fulltext_indexes d') eqn:E; [congruence|].
      cbn [negb andb]. rewrite <- E in Hcols. by rewrite (Hmatch d' _ Hcols). }
    split; [exact Hcols|]. split; [exact Hrows|].
    unfold Presentation.run. by rewrite Hrows.
Qed.

(** ** The shape of a digest *)

Section DigestShape.

Import Sha256.
Local Open Scope Z_scope.

Lemma hex_digit_char n : is_hex_char (PyJson.hex_digit (Z.land n 0xf)) = true.
Proof.
  change 0xf with (Z.ones 4). rewrite Z.land_ones by lia.
  pose proof (Z.mod_pos_bound n (2 ^ 4) ltac:(lia)) as H.
  set (m := n mod 2 ^ 4) in *. clearbody m.
  assert (Hm : m = 0 \/ m = 1 \/ m = 2 \/ m = 3 \/ m = 4 \/ m = 5 \/ m = 6 \/ m = 7
               \/ m = 8 \/ m = 9 \/ m = 10 \/ m = 11 \/ m = 12 \/ m = 13 \/ m = 14
               \/ m = 15) by lia.
  repeat (destruct Hm as [->|Hm]; [reflexivity|]). subst m. reflexivity.
Qed.

Lemma hex_of_word_shape w :
  String.length (hex_of_word w) = 8%nat /\ hex_text (hex_of_word w) = true.
Proof.
  split; [reflexivity|]. unfold hex_of_word. cbn [seq fold_right hex_text].
  rewrite !hex_digit_char. reflexivity.
Qed.

Lemma round_length st kw : length st = 8%nat -> length (round st kw) = 8%nat.
Proof.
  intros H. do 9 (destruct st as [|? st]; try discriminate H). reflexivity.
Qed.

Lemma rounds_length kws : forall st,
  length st = 8%nat -> length (fold_left round kws st) = 8%nat.
Proof.
  induction kws as [|kw kws IH]; intros st H; [exact H|].
  simpl. apply IH. by apply round_length.
Qed.

Lemma compress_length h block : length h = 8%nat -> length (compress h block) = 8%nat.
Proof.
  intros H. unfold compress. rewrite length_map, length_combine, rounds_length by exact H.
  rewrite H. reflexivity.
Qed.

Lemma digest_words_length msg : length (digest_words msg) = 8%nat.
Proof.
  unfold digest_words.
  generalize (blocks_of (length (words_of (length (pad msg)) (pad msg)))
                        (words_of (length (pad msg)) (pad msg))).
  intros blocks.
  assert (H : length H0 = 8%nat) by (vm_compute; reflexivity).
  revert H. generalize H0. induction blocks as [|b blocks IH]; intros h H; [exact H|].
  simpl. apply IH. by apply compress_length.
Qed.

Lemma hex_text_app a b : hex_text a = true -> hex_text b = true -> hex_text (a +:+ b) = true.
Proof.
  intros Ha Hb. induction a as [|c a IH]; [exact Hb|].
  simpl in Ha. apply andb_true_iff in Ha as [Hc Ha].
  rewrite append_cons. simpl. by rewrite Hc, IH.
Qed.

Lemma length_append a b :
  String.length (a +:+ b) = (String.length a + String.length b)%nat.
Proof. induction a as [|c a IH]; [reflexivity|]. rewrite append_cons. simpl. by rewrite IH. Qed.

Lemma hexdigest_shape s :
  String.length (hexdigest s) = 64%nat /\ hex_text (hexdigest s) = true.
Proof.
  unfold hexdigest. pose proof (digest_words_length (bytes_of_string s)) as H.
  assert (G : forall ws,
             String.length (fold_right (fun w acc => hex_of_word w +:+ acc) "" ws)
             = (8 * length ws)%nat
             /\ hex_text (fold_right (fun w acc => hex_of_word w +:+ acc) "" ws) = true).
  { induction ws as [|w ws [IH1 IH2]]; [by split|]. simpl fold_right. split.
    - rewrite length_append, IH1, (proj1 (hex_of_word_shape w)). simpl length. lia.
    - apply hex_text_app; [apply hex_of_word_shape|exact IH2]. }
  destruct (G (digest_words (bytes_of_string s))) as [G1 G2]. rewrite H in G1.
  by split.
Qed.

End DigestShape.

(** X24. Shape of the content digest: for a document whose strings and
    keys can be encoded as UTF-8 (none holds a lone surrogate, on which
    [encode] raises), [_compute_content_hash] returns 64 characters, each
    a digit or a letter from [a] to [f], which is the width of the
    [content_hash] column. *)
Theorem content_hash_is_64_hex_characters (doc : json) :
  encodable doc = true ->
  String.length (Persistence._compute_content_hash doc) = 64
  /\ hex_text (Persistence._compute_content_hash doc) = true.
Proof. intros _. apply hexdigest_shape. Qed.

(** ** The main block *)

Section MainBlock.

Import Fetcher.

Lemma merged_is_dict doc full : is_dict doc -> is_dict (merged doc full).
Proof.
  destruct doc as [| | | | | |s]; try contradiction. intros _. unfold merged.
  by destruct (py_or full (JDict [])).
Qed.

Lemma submit_all_dicts shallow : forall fs,
  submit_all shallow = Some fs -> Forall (fun task => is_dict (fst task)) fs.
Proof.
  induction shallow as [|doc shallow IH]; intros fs H.
  - injection H as <-. constructor.
  - destruct doc as [| | | | | |d]; try discriminate H. simpl in H.
    destruct (submit_all shallow) as [fs'|]; [|discriminate H].
    specialize (IH fs' eq_refl).
    destruct (truthy (doc_number d)); injection H as <-; [|exact IH].
    constructor; [exact I|exact IH].
Qed.

Lemma enrich_dicts e shallow out :
  enrich e shallow = Returned out -> Forall is_dict out.
Proof.
  unfold enrich. destruct shallow as [|doc shallow]; [intros H; injection H as <-; constructor|].
  destruct (submit_all (doc :: shallow)) as [fs|] eqn:E; [|discriminate].
  destruct (write_full e); [|discriminate]. intros H. injection H as <-.
  pose proof (submit_all_dicts _ _ E) as Hfs.
  apply Forall_forall. intros j Hj. apply list_elem_of_omap in Hj as (i & _ & Hi).
  unfold task_result in Hi. destruct (nth_error fs i) as [[doc0 num]|] eqn:En; [|discriminate Hi].
  injection Hi as <-. apply merged_is_dict.
  rewrite Forall_forall in Hfs. apply (Hfs (doc0, num)).
  apply list_elem_of_In. by apply nth_error_In in En.
Qed.

End MainBlock.

(** X25. The main block: whatever [fetch_documents] returns is a list of
    dicts, so [process_documents] on it does not raise for a record; when
    the connection and the commit succeed it returns, and in every case
    it leaves the store as it was, with no document counted as
    processed. *)
Theorem fetched_documents_are_processed (fuel : nat) (e : Fetcher.env)
        (x : Store.externals) (d : Store.db) (r : Persistence.run) :
  fetch_and_process fuel e x d = Some (Returned r) ->
  (exists docs, Fetcher.fetch_documents fuel e 100 None 3 = Some (Returned docs)
                /\ Forall is_dict docs /\ r = Persistence.process_documents x d docs)
  /\ Persistence.store_after d r = d
  /\ (Store.connect_ok x = true -> Store.commit_ok x = true -> r <> Persistence.Aborted)
  /\ (forall st, r = Persistence.Committed st -> Persistence.processed_count st = 0%Z).
Proof.
  unfold fetch_and_process.
  destruct (Fetcher.fetch_documents fuel e 100 None 3) as [[docs|]|] eqn:E;
    try discriminate. intros H. injection H as <-.
  assert (Hd : Forall is_dict docs).
  { unfold Fetcher.fetch_documents in E.
    destruct (Fetcher.paginate fuel e 100 None 3 Fetcher.init); [|discriminate E].
    injection E as E. by apply enrich_dicts in E. }
  split; [by exists docs|]. split; [apply process_documents_store|]. split.
  - intros Hc Hm. unfold Persistence.process_documents.
    destruct docs as [|doc docs]; [discriminate|]. rewrite Hc.
    destruct (Persistence.process_loop x (doc :: docs) _) eqn:El.
    + rewrite Hm. discriminate.
    + apply process_loop_raises in El. contradiction.
  - intros st Hst. unfold Persistence.process_documents in Hst.
    destruct docs as [|doc docs]; [discriminate|].
    destruct (Store.connect_ok x); [|discriminate].
    destruct (Persistence.process_loop x (doc :: docs) _) as [st'|] eqn:El; [|discriminate].
    destruct (Store.commit_ok x); [|discriminate]. injection Hst as ->.
    destruct (process_loop_counts x _ _ _ El) as (_ & Hp & _).
    rewrite verdicts_never_upserted in Hp. rewrite Hp. reflexivity.
Qed.

(** ** Instances of the further properties *)

(** X1 on a batch of a stored and unchanged document, a new document and
    a record without document number. *)
Lemma process_documents_writes_nothing_witness :
  Persistence.store_after SampleDocs.store_with_notice
    (Persistence.process_documents SampleDocs.idle_server SampleDocs.store_with_notice
                                   SampleRuns.batch)
  = SampleDocs.store_with_notice
  /\ exists st,
      Persistence.process_documents SampleDocs.idle_server SampleDocs.store_with_notice
                                    SampleRuns.batch = Persistence.Committed st
      /\ Persistence.processed_count st = 0%Z
      /\ (Persistence.skipped_count st
          + count_verdict Persistence.Unchanged
              (verdicts SampleDocs.idle_server SampleRuns.batch
                 {| Persistence.store := SampleDocs.store_with_notice;
                    Persistence.processed_count := 0;
                    Persistence.skipped_count := 0 |})
          = Z.of_nat (length SampleRuns.batch))%Z.
Proof.
  destruct (process_documents_writes_nothing SampleDocs.idle_server
              SampleDocs.store_with_notice SampleRuns.batch) as [Hstore Hcount].
  split; [exact Hstore|].
  exists {| Persistence.store := SampleDocs.store_with_notice;
            Persistence.processed_count := 0; Persistence.skipped_count := 2 |}.
  assert (Hrun : Persistence.process_documents SampleDocs.idle_server
                   SampleDocs.store_with_notice SampleRuns.batch
                 = Persistence.Committed
                     {| Persistence.store := SampleDocs.store_with_notice;
                        Persistence.processed_count := 0;
                        Persistence.skipped_count := 2 |})
    by (vm_compute; reflexivity).
  split; [exact Hrun|]. exact (Hcount _ Hrun).
Defined.

(** X2 on the same batch, and on a batch with a record that is a string. *)
Lemma process_documents_raises_iff_witness :
  (exists st,
      Persistence.process_documents SampleDocs.idle_server SampleDocs.store_with_notice
                                    SampleRuns.batch = Persistence.Committed st)
  /\ Persistence.process_documents SampleDocs.idle_server SampleDocs.store_with_notice
                                   [SampleDocs.notice; JStr "2024-00002"]
     = Persistence.Aborted.
Proof.
  split.
  - apply (process_documents_raises_iff SampleDocs.idle_server
             SampleDocs.store_with_notice SampleRuns.batch);
      [discriminate|reflexivity|reflexivity|repeat constructor].
  - apply (process_documents_raises_iff SampleDocs.idle_server
             SampleDocs.store_with_notice [SampleDocs.notice; JStr "2024-00002"]);
      [discriminate|reflexivity|reflexivity|].
    intros H. inversion H as [|? ? _ H']. inversion H' as [|? ? Hd _]. exact Hd.
Defined.

(** X3 on an endpoint whose second page always fails, with a cap of two
    pages and three tries. *)
Lemma paginate_terminates_with_cap_witness :
  exists st,
    Fetcher.paginate 7 Sample.failing_second_page 100 (Some 2%Z) 3 Fetcher.init = Some st
    /\ (Z.of_nat (length (Fetcher.requested st)) <= 2 * Z.max 3 1)%Z.
Proof.
  apply (paginate_terminates_with_cap Sample.failing_second_page 100 2 3 7); lia.
Defined.

(** X4 on an endpoint that has a full page for every page number. *)
Lemma paginate_never_ends_without_cap_witness :
  Fetcher.paginate 50 SampleEndpoints.full_pages 100 (Some 0%Z) 3 Fetcher.init = None
  /\ Fetcher.fetch_documents 50 SampleEndpoints.full_pages 100 (Some 0%Z) 3 = None.
Proof.
  apply (paginate_never_ends_without_cap SampleEndpoints.full_pages 100 3 (Some 0%Z) 50).
  - intros n p.
    exists [("count", JInt 245);
            ("results", JList (repeat (Sample.record "2024-00001" "Notice") 100))],
           (repeat (Sample.record "2024-00001" "Notice") 100).
    split; [reflexivity|]. split; [reflexivity|]. split; [discriminate|].
    split; [vm_compute; discriminate|reflexivity].
  - right. reflexivity.
Defined.

(** X5 on an endpoint whose second page always fails: two sleeps, of 2
    and 4 seconds. *)
Lemma backoff_bounded_witness :
  exists st,
    Fetcher.paginate 10 Sample.failing_second_page 100 None 3 Fetcher.init = Some st
    /\ Fetcher.sleeps st = [2; 4]%Z
    /\ Forall (fun s => (exists k, 1 <= k < 3 /\ s = 2 ^ k) /\ 2 <= s <= 2 ^ (3 - 1))%Z
              (Fetcher.sleeps st).
Proof.
  eexists. split; [vm_compute; reflexivity|]. split; [reflexivity|].
  apply (backoff_bounded Sample.failing_second_page 100 3 None 10).
  vm_compute. reflexivity.
Defined.

(** X6 on the stub pages of 100, 100 and 45 records. *)
Lemma written_pages_without_gap_witness :
  exists st,
    Fetcher.paginate 10 Sample.stub_pages 100 None 3 Fetcher.init = Some st
    /\ Fetcher.written st = [1; 2; 3]%Z
    /\ Fetcher.written st = pages_upto (length (Fetcher.written st))
    /\ (Fetcher.page st - 1 <= Z.of_nat (length (Fetcher.written st)) <= Fetcher.page st)%Z.
Proof.
  eexists. split; [vm_compute; reflexivity|]. split; [reflexivity|].
  apply (written_pages_without_gap Sample.stub_pages 100 3 None 10).
  vm_compute. reflexivity.
Defined.

(** X8 on a shallow record of three fields and a detail record that
    repeats one of them and adds one. *)
Lemma merge_key_order_witness :
  PyDict.keys (PyDict.merge SampleDocs.notice_fields
                 [("full_text", JStr "The committee meets."); ("title", JStr "Notice")])
  = PyDict.keys SampleDocs.notice_fields
    ++ filter (fun k => k ∉ PyDict.keys SampleDocs.notice_fields) ["full_text"; "title"]
  /\ NoDup (PyDict.keys (PyDict.merge SampleDocs.notice_fields
                           [("full_text", JStr "The committee meets.");
                            ("title", JStr "Notice")])).
Proof.
  destruct (merge_key_order SampleDocs.notice_fields
              [("full_text", JStr "The committee meets."); ("title", JStr "Notice")])
    as [Hk Hn].
  - apply (bool_decide_unpack _). vm_compute. exact I.
  - split; [exact Hk|]. apply Hn. apply (bool_decide_unpack _). vm_compute. exact I.
Defined.

(** X9 on a store of three rows, asked for the two most recent. *)
Lemma listing_returns_most_recent_witness :
  (exists rows rest,
      Query._query_mysql SampleDocs.idle_server SampleRows.three_rows "  " None 2
      = map Query.select_columns rows
      /\ rows ++ rest ≡ₚ Store.documents SampleRows.three_rows
      /\ length rows = Nat.min (Z.to_nat 2) (length (Store.documents SampleRows.three_rows))
      /\ forall a b, a ∈ rows -> b ∈ rest -> Query.newer_first a b)
  /\ Query._query_mysql SampleDocs.idle_server SampleRows.three_rows "  " None
                        99999999999999999999 = [].
Proof.
  split.
  - apply (listing_returns_most_recent SampleDocs.idle_server SampleRows.three_rows
             "  " None 2); [reflexivity|by left|reflexivity|].
    vm_compute. split; discriminate.
  - apply (listing_returns_most_recent SampleDocs.idle_server SampleRows.three_rows
             "  " None 99999999999999999999); [reflexivity|by left|reflexivity|].
    right. reflexivity.
Defined.

(** X10 on a query in capitals against a store without fulltext index. *)
Lemma fallback_search_ignores_case_witness :
  Query._query_mysql SampleDocs.idle_server SampleRows.three_rows
                     (PyStr.lower "AIR Quality") None 25
  = Query._query_mysql SampleDocs.idle_server SampleRows.three_rows "AIR Quality" None 25.
Proof.
  apply (fallback_search_ignores_case SampleDocs.idle_server SampleRows.three_rows
           "AIR Quality" None 25).
  right. reflexivity.
Defined.

(** X11 on a snapshot with one keyword and a snapshot that extends it. *)
Lemma chat_monotone_in_vocabulary_witness :
  Intent.chat SampleMeta.snapshot "Final Rule" = Intent.Run "final rule" None 25.
Proof.
  apply (chat_monotone_in_vocabulary SampleSnapshots.one_keyword SampleMeta.snapshot
           "Final Rule" "final rule" None 25).
  - intros k Hk. apply list_elem_of_singleton in Hk as ->. repeat constructor.
  - intros k Hk. inversion Hk.
  - intros k Hk. inversion Hk.
  - vm_compute. reflexivity.
Defined.

(** X12 on the empty snapshot and on an input of two keywords. *)
Lemma gate_extremes_witness :
  Intent.chat SampleSnapshots.nothing "pesticide rule" = Intent.Text Intent.refusal_message
  /\ Intent.chat SampleMeta.snapshot "Pesticide rule"
     = Intent.Run "pesticide rule" None 25.
Proof.
  split.
  - apply (gate_extremes SampleSnapshots.nothing "pesticide rule");
      [reflexivity|reflexivity|reflexivity|discriminate
      |reflexivity|reflexivity|reflexivity].
  - apply (gate_extremes SampleMeta.snapshot "Pesticide rule");
      [reflexivity|reflexivity|reflexivity|discriminate|].
    change (Intent.findall (PyStr.strip (PyStr.lower (PyStr.strip "Pesticide rule"))))
      with ["pesticide"; "rule"].
    intros t Ht. apply elem_of_cons in Ht as [->|Ht];
      [|apply list_elem_of_singleton in Ht as ->];
      apply (bool_decide_unpack _); vm_compute; exact I.
Defined.


(** X15 on an input that passes the gate: the router searches it as
    typed. *)
Lemma router_agrees_with_chat_witness :
  exists q',
    Router.handle "Final Rule" = Router.Answer (Intent.Run q' None 25)
    /\ PyStr.lower q' = PyStr.lower "final rule".
Proof.
  destruct (router_agrees_with_chat SampleMeta.snapshot "Final Rule" eq_refl eq_refl)
    as [Hrun _].
  destruct (Hrun "final rule" None 25%Z) as [[Hhelp _]|(q' & Hq & Hl & _)].
  - vm_compute. reflexivity.
  - vm_compute in Hhelp. discriminate Hhelp.
  - exists q'. by split.
Defined.

(** X16 on a title with the word air inside another word. *)
Lemma topic_is_first_keyword_witness :
  Presentation._topic_from_title (Some "Repair Station Rules") = "Air Quality".
Proof.
  destruct (topic_is_first_keyword "Repair Station Rules") as (Hfirst & _);
    [discriminate|].
  apply (Hfirst 1 "air" "Air Quality"); [reflexivity|]. split; [reflexivity|].
  intros [|j] k' v' Hj Hl; [|lia]. injection Hl as <- <-. reflexivity.
Defined.

(** X17 on a row without excerpt: the summary is the abstract. *)
Lemma format_record_fields_witness :
  Presentation.summary
    (Presentation._format_record SampleDocs.idle_server SampleServer.no_codec
       (Query.select_columns SampleRows.older_row))
  = "Revision of the ozone standard.".
Proof.
  destruct (format_record_fields SampleDocs.idle_server SampleServer.no_codec
              (Query.select_columns SampleRows.older_row)) as (_ & _ & _ & _ & Hshort).
  apply Hshort. vm_compute. lia.
Defined.

(** X18 on the listing of three rows. *)
Lemma run_outcome_witness :
  exists body,
    Presentation.run SampleDocs.idle_server SampleServer.no_codec SampleRows.three_rows
                     "" None 25
    = Returned (Presentation.header +:+ body +:+ Presentation.footer).
Proof.
  destruct (run_outcome SampleDocs.idle_server SampleServer.no_codec
              SampleRows.three_rows "" None 25) as (_ & _ & _ & Hout).
  destruct (Presentation.run SampleDocs.idle_server SampleServer.no_codec
              SampleRows.three_rows "" None 25) as [out|] eqn:E.
  - destruct (Hout out eq_refl) as [body ->]; [vm_compute; discriminate|].
    by exists body.
  - vm_compute in E. discriminate E.
Defined.

(** X19 on three rows of two topics. *)
Lemma rows_grouped_by_topic_witness :
  "Air Quality"
  ∈ map fst (Presentation.group_rows SampleDocs.idle_server SampleServer.no_codec
               (map Query.select_columns (Store.documents SampleRows.three_rows))).
Proof.
  destruct (rows_grouped_by_topic SampleDocs.idle_server SampleServer.no_codec
              (map Query.select_columns (Store.documents SampleRows.three_rows)))
    as (_ & _ & Hcover & _).
  apply (Hcover (Query.select_columns SampleRows.older_row)). simpl. constructor.
Defined.

(** X20 on the row of the Environmental Protection Agency. *)
Lemma found_agency_is_displayed_witness :
  JStr "Environmental Protection Agency"
  ∈ Presentation.agencies
      (Presentation._format_record SampleDocs.idle_server SampleTitles.epa_codec
         (Query.select_columns SampleRows.older_row)).
Proof.
  apply (found_agency_is_displayed SampleDocs.idle_server SampleTitles.epa_codec
           SampleRows.three_rows "" "Environmental Protection Agency" 25).
  - discriminate.
  - intros r j Hr Hj.
    assert (Hj' : j = SampleTitles.epa).
    { simpl in Hr. apply elem_of_cons in Hr as [->|Hr]; [by injection Hj as <-|].
      apply elem_of_cons in Hr as [->|Hr]; [discriminate Hj|].
      apply list_elem_of_singleton in Hr as ->. discriminate Hj. }
    subst j. split; [repeat constructor|].
    exists (PyJson.dumps false SampleTitles.epa).
    split; [reflexivity|]. split; [vm_compute; discriminate|].
    vm_compute. reflexivity.
  - vm_compute. constructor.
Defined.

(** X21 on three titles: the most frequent keyword. *)
Lemma top_keywords_are_the_most_frequent_witness :
  token_chars "pesticide" = true
  /\ 0 < occurrences 4 SampleTitles.titles "pesticide"
  /\ occurrences 4 SampleTitles.titles "apples"
     <= occurrences 4 SampleTitles.titles "pesticide".
Proof.
  destruct (top_keywords_are_the_most_frequent SampleTitles.titles 2 4)
    as (_ & _ & Hshape & _ & Hcut & _).
  assert (Hin : "pesticide" ∈ Helpers.get_top_keywords (Some SampleTitles.titles) 2 4)
    by (vm_compute; constructor).
  destruct (Hshape "pesticide" Hin) as (H1 & _ & _ & _ & H2 & _).
  split; [exact H1|]. split; [exact H2|].
  apply Hcut; [exact Hin|]. apply (bool_decide_unpack _). vm_compute. exact I.
Defined.

(** X22 on a snapshot with the keywords of three titles. *)
Lemma top_keyword_is_accepted_witness :
  Intent.chat SampleTitles.snapshot "tolerances" = Intent.Run "tolerances" None 25.
Proof.
  apply (top_keyword_is_accepted SampleTitles.snapshot SampleTitles.titles 30 4);
    [lia|reflexivity| |reflexivity|discriminate].
  apply (bool_decide_unpack _). vm_compute. exact I.
Defined.

(** X23 on a store of three rows, one with the word air in its title:
    where the probe is refused the search finds the row before and after
    [create_indexes]; where it is accepted the search finds nothing
    afterwards. *)
Lemma create_indexes_and_text_search_witness :
  Query._query_mysql SampleServer.refusing_probe SampleRows.three_rows "air" None 25 <> []
  /\ Query._query_mysql SampleServer.refusing_probe
       (Indexing.create_indexes SampleServer.refusing_probe SampleRows.three_rows)
       "air" None 25
     = Query._query_mysql SampleServer.refusing_probe SampleRows.three_rows "air" None 25
  /\ Query._query_mysql SampleServer.strict SampleRows.three_rows "air" None 25 <> []
  /\ Query._query_mysql SampleServer.strict
       (Indexing.create_indexes SampleServer.strict SampleRows.three_rows) "air" None 25
     = [].
Proof.
  assert (Hadds : forall x, Store.mysql_exec x = Store.mysql_exec SampleServer.strict ->
                            Indexing.server_adds_indexes x).
  { intros x E d d'. rewrite E.
    split; intros H; vm_compute in H; injection H as <-; split; reflexivity. }
  split; [vm_compute; discriminate|]. split; [|split; [vm_compute; discriminate|]].
  - destruct (create_indexes_and_text_search
                SampleServer.refusing_probe SampleServer.no_codec
                SampleRows.three_rows "air" None 25 (Hadds _ eq_refl)) as (_ & Hsame & _).
    exact (proj1 (Hsame eq_refl)).
  - destruct (create_indexes_and_text_search
                SampleServer.strict SampleServer.no_codec
                SampleRows.three_rows "air" None 25 (Hadds _ eq_refl)) as (_ & _ & Hnone).
    apply Hnone.
    + reflexivity.
    + intros d q H. unfold SampleServer.strict. simpl.
      destruct (bool_decide_reflect (Indexing.match_columns ∈ Store.fulltext_indexes d));
        [contradiction|reflexivity].
    + reflexivity.
    + vm_compute. discriminate.
    + reflexivity.
    + discriminate.
Defined.

(** X24 on the sample notice. *)
Lemma content_hash_is_64_hex_characters_witness :
  encodable SampleDocs.notice = true
  /\ String.length (Persistence._compute_content_hash SampleDocs.notice) = 64
  /\ hex_text (Persistence._compute_content_hash SampleDocs.notice) = true.
Proof.
  split; [reflexivity|].
  apply (content_hash_is_64_hex_characters SampleDocs.notice). reflexivity.
Defined.

(** X14 on a [find] with blanks around its argument. *)
Lemma chat_never_prints_find_or_search_usage_witness :
  Intent.chat SampleMeta.snapshot "Find  EPA " = Intent.Run "" (Some "EPA") 25.
Proof.
  destruct (chat_never_prints_find_or_search_usage SampleMeta.snapshot "Find  EPA ")
    as (_ & _ & Hfind & _).
  destruct (Hfind eq_refl eq_refl) as [_ H]. exact H.
Defined.

(** X25 on the stub pages of 100, 100 and 45 records and an idle
    server. *)
Lemma fetched_documents_are_processed_witness :
  exists r,
    fetch_and_process 5 Sample.stub_pages SampleDocs.idle_server Store.empty
    = Some (Returned r)
    /\ Persistence.store_after Store.empty r = Store.empty
    /\ r <> Persistence.Aborted.
Proof.
  destruct (fetch_and_process 5 Sample.stub_pages SampleDocs.idle_server Store.empty)
    as [[r|]|] eqn:E.
  - exists r. split; [reflexivity|].
    destruct (fetched_documents_are_processed 5 Sample.stub_pages SampleDocs.idle_server
                Store.empty r E) as (_ & Hstore & Hreturn & _).
    split; [exact Hstore|]. by apply Hreturn.
  - vm_compute in E. discriminate E.
  - vm_compute in E. discriminate E.
Defined.
